(** * celery_opentracing.tracing: span lifecycle of [CeleryTracing]

    A shallow embedding of [src/celery_opentracing/tracing.py]: the six
    signal handlers of [CeleryTracing], the span side-table kept on each
    task ([_ct_spans]), and tag extraction ([_set_span_tags]).

    Python values are a small inductive universe, handlers run in a state
    and exception monad over a [world] that holds the tracer's spans, its
    scope stack, the side-tables and the log. *)

From stdpp Require Import base option list strings gmap pretty.
From Stdlib Require Import ZArith Ascii.

Set Warnings "-register-all".

(** ** Python values *)

Inductive pyval : Type :=
| VNone
| VBool (b : bool)
| VInt (z : Z)
| VStr (s : string)
| VList (l : list pyval)
| VTuple (l : list pyval)
| VDict (d : list (string * pyval)).

Inductive exn : Type :=
| RuntimeError
| KeyError
| AttributeError
| IndexError
| TypeError.

Inductive result (A : Type) : Type :=
| Ok (a : A)
| Raise (e : exn).
Arguments Ok {A} a.
Arguments Raise {A} e.

(** [bool(v)]: the truth value used by [or] and [if]. *)
Definition truthy (v : pyval) : bool :=
  match v with
  | VNone => false
  | VBool b => b
  | VInt z => negb (z =? 0)%Z
  | VStr s => negb (String.eqb s "")
  | VList l | VTuple l => match l with [] => false | _ => true end
  | VDict d => match d with [] => false | _ => true end
  end.

(** [a or b], with [b] evaluated only when [a] is false. *)
Definition py_or (a : pyval) (b : result pyval) : result pyval :=
  if truthy a then Ok a else b.

(** A dict is its list of bindings; the first binding of a key is the
    one in force. *)
Fixpoint dict_get (d : list (string * pyval)) (k : string) : option pyval :=
  match d with
  | [] => None
  | (k', v) :: d' => if String.eqb k' k then Some v else dict_get d' k
  end.

(** [d[k] = v] on a dict: replace the binding or append it. *)
Fixpoint dict_set (d : list (string * pyval)) (k : string) (v : pyval)
  : list (string * pyval) :=
  match d with
  | [] => [(k, v)]
  | (k', v') :: d' =>
      if String.eqb k' k then (k, v) :: d' else (k', v') :: dict_set d' k v
  end.

(** [m.get(k)]: [None] for a missing key; only mappings have [get]. *)
Definition py_get (m : pyval) (k : string) : result pyval :=
  match m with
  | VDict d => Ok (default VNone (dict_get d k))
  | _ => Raise AttributeError
  end.

(** [t[i]] on a tuple or list. *)
Definition py_index (t : pyval) (i : nat) : result pyval :=
  match t with
  | VTuple l | VList l =>
      match l !! i with Some v => Ok v | None => Raise IndexError end
  | VDict _ => Raise KeyError
  | _ => Raise TypeError
  end.

Definition isinstance_tuple (v : pyval) : bool :=
  match v with VTuple _ => true | _ => false end.

(** [val in (None, '', [None, None], (None, None))] *)
Definition in_empty_values (v : pyval) : bool :=
  match v with
  | VNone => true
  | VStr "" => true
  | VList [VNone; VNone] => true
  | VTuple [VNone; VNone] => true
  | _ => false
  end.

(** [subval in (None, '')] *)
Definition in_none_or_blank (v : pyval) : bool :=
  match v with
  | VNone => true
  | VStr "" => true
  | _ => false
  end.

(** *** [str()] and [repr()], as used by [str.format] *)

Definition hex_digit (n : N) : ascii :=
  match n with
  | 0 => "0" | 1 => "1" | 2 => "2" | 3 => "3" | 4 => "4" | 5 => "5"
  | 6 => "6" | 7 => "7" | 8 => "8" | 9 => "9" | 10 => "a" | 11 => "b"
  | 12 => "c" | 13 => "d" | 14 => "e" | _ => "f"
  end%N%char.

Definition repr_char (quote c : ascii) : string :=
  let n := N_of_ascii c in
  if Ascii.eqb c "\" then "\\"
  else if Ascii.eqb c quote then String "\" (String quote "")
  else if (n =? 10)%N then "\n"
  else if (n =? 13)%N then "\r"
  else if (n =? 9)%N then "\t"
  else if ((n <? 32) || (n =? 127))%N
       then String "\" (String "x" (String (hex_digit (n / 16))
                                      (String (hex_digit (n mod 16)) "")))
  else String c "".

Fixpoint has_char (c : ascii) (s : string) : bool :=
  match s with
  | EmptyString => false
  | String c' s' => Ascii.eqb c c' || has_char c s'
  end.

Fixpoint repr_body (quote : ascii) (s : string) : string :=
  match s with
  | EmptyString => ""
  | String c s' => repr_char quote c +:+ repr_body quote s'
  end.

Definition double_quote : ascii := ascii_of_nat 34.

Definition repr_str (s : string) : string :=
  let quote : ascii :=
    if has_char "'" s && negb (has_char double_quote s)
    then double_quote else "'"%char in
  String quote (repr_body quote s +:+ String quote "").

Fixpoint join (sep : string) (l : list string) : string :=
  match l with
  | [] => ""
  | [x] => x
  | x :: l' => x +:+ sep +:+ join sep l'
  end.

Fixpoint py_repr (v : pyval) : string :=
  match v with
  | VNone => "None"
  | VBool true => "True"
  | VBool false => "False"
  | VInt z => pretty z
  | VStr s => repr_str s
  | VList l => "[" +:+ join ", " (map py_repr l) +:+ "]"
  | VTuple l =>
      match l with
      | [x] => "(" +:+ py_repr x +:+ ",)"
      | _ => "(" +:+ join ", " (map py_repr l) +:+ ")"
      end
  | VDict d =>
      "{" +:+ join ", " (map (fun kv => repr_str (fst kv) +:+ ": " +:+ py_repr (snd kv)) d)
          +:+ "}"
  end.

(** ['{}'.format(v)] *)
Definition py_str (v : pyval) : string :=
  match v with
  | VStr s => s
  | _ => py_repr v
  end.

(** [d[k] = v]: item assignment needs a dict. *)
Definition py_setitem (m : pyval) (k : string) (v : pyval) : result pyval :=
  match m with
  | VDict d => Ok (VDict (dict_set d k v))
  | _ => Raise TypeError
  end.

(** Whether a value can be a dict key ([hash(v)] does not raise). *)
Fixpoint hashable (v : pyval) : bool :=
  match v with
  | VList _ | VDict _ => false
  | VTuple l => forallb hashable l
  | _ => true
  end.

(** ** Exceptions and tracebacks handed over by the task framework *)

(** An exception object, as far as the handlers look at it: [str(exc)]
    and [exc.__class__.__name__]. *)
Record exc_obj : Type := {
  exc_str : string;
  exc_class_name : string;
}.

(** A traceback as the framework passes it: a traceback object (its
    formatted frames), an already formatted string, or a list. *)
Inductive tb_val : Type :=
| TbObject (frames : list string)
| TbStr (s : string)
| TbList (l : list string).

(** [einfo]: an [ExceptionInfo] with its [exception] and [traceback]. *)
Record einfo_obj : Type := {
  einfo_exception : option exc_obj;
  einfo_traceback : option tb_val;
}.

(** [traceback.format_tb(tb)] walks [tb.tb_frame]: only a traceback
    object has it. *)
Definition format_tb (tb : tb_val) : result (list string) :=
  match tb with
  | TbObject frames => Ok frames
  | _ => Raise AttributeError
  end.

(** A value of a structured log event. *)
Inductive logval : Type :=
| LStr (s : string)
| LExc (e : option exc_obj)
| LTb (tb : tb_val).

(** ** Tracer: spans, contexts and the scope stack *)

(** A span context: the context of a span of this process, or one that
    [extract] rebuilt from a carrier. *)
Inductive span_context : Type :=
| ContextOf (span : nat)
| Remote (trace : list (string * pyval)).

Record span : Type := {
  operation_name : string;
  parent : option span_context;
  tags : gmap string pyval;
  logs : list (list (string * logval));
  finished : bool;
}.

(** The carrier format of a tracer. *)
Record Tracer : Type := {
  extract : pyval -> result span_context;
  inject : span_context -> list (string * pyval) -> list (string * pyval);
}.

(** ** Tasks and the instrumented app *)

(** [task.request]: the id of the run and the other attributes, which
    [request.get(k)] reads like a mapping ([getattr(self, k, None)]). *)
Record Context : Type := {
  correlation_id : option string;
  request_attrs : list (string * pyval);
}.

Record task : Type := {
  task_ref : nat;              (* identity of the task object *)
  task_app : option nat;       (* [task.app], when the attribute exists *)
  name : string;
  request : Context;
}.

Record CeleryTracing : Type := {
  self_ref : nat;              (* identity of this app *)
  _tracer : Tracer;
  _propagate : bool;
  _span_tags : gmap string pyval;
  tasks : gmap string task;
}.

(** What a signal passes as [sender]: a task name (publish signals) or
    the task object (run signals). *)
Inductive sender_val : Type :=
| SenderName (n : string)
| SenderTask (t : task).

(** The keyword arguments of a signal; [None] is a key that is absent. *)
Record kwargs : Type := {
  kw_sender : option sender_val;
  kw_task : option (option task);
  kw_task_id : option (option string);
  kw_headers : option pyval;
  kw_body : option pyval;
  kw_exception : option exc_obj;
  kw_einfo : option einfo_obj;
  kw_traceback : option tb_val;
  kw_request : option pyval;
  kw_reason : option pyval;
}.

Definition context_headers : string := "_celery_opentracing_context".

(** ** The world the handlers run in *)

Record world : Type := {
  w_spans : list span;                      (* the tracer's spans; a span handle is its index *)
  w_scopes : list nat;                      (* scope stack, active scope first; a scope holds its span *)
  w_tables : gmap nat (gmap string nat);    (* [_ct_spans] of each task object that has the attribute *)
  w_headers : option pyval;                 (* the message headers as last updated in place *)
  w_warnings : list (nat * option nat);     (* SCOPE LEAK warnings: (active span, span) *)
}.

Definition M (A : Type) : Type := world -> result A * world.

Definition ret {A} (a : A) : M A := fun w => (Ok a, w).

Definition bind {A B} (m : M A) (k : A -> M B) : M B :=
  fun w =>
    match m w with
    | (Ok a, w') => k a w'
    | (Raise e, w') => (Raise e, w')
    end.

(** [raise e]: the state reached so far is kept. *)
Definition raise {A} (e : exn) : M A := fun w => (Raise e, w).

Definition lift {A} (r : result A) : M A := fun w => (r, w).

#[global] Instance M_ret : MRet M := @ret.
#[global] Instance M_bind : MBind M := fun A B k m => bind m k.

Fixpoint for_each {A} (l : list A) (body : A -> M unit) : M unit :=
  match l with
  | [] => ret tt
  | x :: l' => body x;; for_each l' body
  end.

Definition update_spans (f : list span -> list span) (w : world) : world :=
  {| w_spans := f (w_spans w); w_scopes := w_scopes w; w_tables := w_tables w;
     w_headers := w_headers w; w_warnings := w_warnings w |}.

Definition update_scopes (f : list nat -> list nat) (w : world) : world :=
  {| w_spans := w_spans w; w_scopes := f (w_scopes w); w_tables := w_tables w;
     w_headers := w_headers w; w_warnings := w_warnings w |}.

Definition update_tables
    (f : gmap nat (gmap string nat) -> gmap nat (gmap string nat)) (w : world) : world :=
  {| w_spans := w_spans w; w_scopes := w_scopes w; w_tables := f (w_tables w);
     w_headers := w_headers w; w_warnings := w_warnings w |}.

Definition set_headers (h : pyval) (w : world) : world :=
  {| w_spans := w_spans w; w_scopes := w_scopes w; w_tables := w_tables w;
     w_headers := Some h; w_warnings := w_warnings w |}.

Definition add_warning (x : nat * option nat) (w : world) : world :=
  {| w_spans := w_spans w; w_scopes := w_scopes w; w_tables := w_tables w;
     w_headers := w_headers w; w_warnings := w_warnings w ++ [x] |}.

Definition modify (f : world -> world) : M unit := fun w => (Ok tt, f w).

(** ** Tracer operations *)

(** Modelled from the spec: the tracing system is an external
    collaborator, not part of [src/]; its operations follow the interface
    of spec section 6. [start_active_span] starts a span with the given
    tags, as a child of [child_of] when given, else of the active span
    unless [ignore_active_span], and makes it the active scope. *)
Definition start_active_span (operation : string) (child_of : option span_context)
    (ignore_active_span : bool) (span_tags : gmap string pyval) : M nat :=
  fun w =>
    let p :=
      match child_of with
      | Some c => Some c
      | None =>
          if ignore_active_span then None
          else match w_scopes w with
               | a :: _ => Some (ContextOf a)
               | [] => None
               end
      end in
    let n := length (w_spans w) in
    (Ok n,
     update_scopes (cons n)
       (update_spans (fun l => l ++ [{| operation_name := operation; parent := p;
                                        tags := span_tags; logs := [];
                                        finished := false |}]) w)).

Definition with_tag (k : string) (v : pyval) (s : span) : span :=
  {| operation_name := operation_name s; parent := parent s;
     tags := <[k := v]> (tags s); logs := logs s; finished := finished s |}.

Definition with_log (kv : list (string * logval)) (s : span) : span :=
  {| operation_name := operation_name s; parent := parent s;
     tags := tags s; logs := logs s ++ [kv]; finished := finished s |}.

Definition with_finish (s : span) : span :=
  {| operation_name := operation_name s; parent := parent s;
     tags := tags s; logs := logs s; finished := true |}.

(** A method call on a span variable: [None] has no such attribute. *)
Definition on_span (f : span -> span) (sp : option nat) : M unit :=
  match sp with
  | Some n => modify (update_spans (alter f n))
  | None => raise AttributeError
  end.

(** Modelled from the spec: [span.set_tag(key, value)] of the tracing
    system (spec section 6). *)
Definition set_tag (sp : option nat) (k : string) (v : pyval) : M unit :=
  on_span (with_tag k v) sp.

(** Modelled from the spec: [span.log_kv(mapping)], the structured log
    event of the tracing system (spec section 6). *)
Definition log_kv (sp : option nat) (kv : list (string * logval)) : M unit :=
  on_span (with_log kv) sp.

(** Modelled from the spec: [span.finish()] of the tracing system. *)
Definition finish (sp : option nat) : M unit :=
  on_span with_finish sp.

(** Modelled from the spec: the active-scope accessor
    [tracer.scope_manager.active] of the tracing system; [None] when no
    scope is active. *)
Definition scope_manager_active : M (option nat) :=
  fun w => (Ok (head (w_scopes w)), w).

(** [active_scope.span] *)
Definition scope_span (sc : option nat) : M nat :=
  match sc with
  | Some a => ret a
  | None => raise AttributeError
  end.

(** Modelled from the spec: [scope.close()] of the tracing system
    finishes the scope's span and restores the prior active scope (spec
    section 6). *)
Definition scope_close (sc : option nat) : M unit :=
  match sc with
  | Some a => modify (update_scopes (drop 1));; finish (Some a)
  | None => raise AttributeError
  end.

(** ** Attribute access on the resolved task *)

(** What the handlers resolve to a task: [None], a [str] and any value
    that is no task object have none of [app], [name], [request] and
    [_ct_spans]. *)
Definition as_task (s : option sender_val) : option task :=
  match s with
  | Some (SenderTask t) => Some t
  | _ => None
  end.

(** [self.tasks.get(sender)]: the registry is keyed by task name. *)
Definition tasks_get (self : CeleryTracing) (s : option sender_val) : option task :=
  match s with
  | Some (SenderName n) => tasks self !! n
  | _ => None
  end.

Definition task_name (t : option task) : M string :=
  match t with Some t => ret (name t) | None => raise AttributeError end.

Definition task_request (t : option task) : M Context :=
  match t with Some t => ret (request t) | None => raise AttributeError end.

(** [request.get(k)] is [getattr(request, k, None)]: a request is read
    as the mapping of its attributes. *)
Definition request_mapping (r : Context) : pyval := VDict (request_attrs r).

(** [request.<attr>] *)
Definition request_getattr (r : Context) (k : string) : result pyval :=
  match dict_get (request_attrs r) k with
  | Some v => Ok v
  | None => Raise AttributeError
  end.

(** [getattr(task, spans_attr)] when [hasattr(task, spans_attr)]. *)
Definition spans_of (t : option task) : M (option (gmap string nat)) :=
  fun w => (Ok (t ≫= fun t => w_tables w !! task_ref t), w).

(** [setattr(task, spans_attr, spans)] *)
Definition setattr_spans (t : option task) (spans : gmap string nat) : M unit :=
  match t with
  | Some t => modify (update_tables <[task_ref t := spans]>)
  | None => raise AttributeError
  end.

(** [getattr(task, spans_attr)[key] = span] *)
Definition spans_setitem (t : option task) (key : string) (sp : nat) : M unit :=
  spans ← spans_of t;
  match spans with
  | Some spans => setattr_spans t (<[key := sp]> spans)
  | None => raise AttributeError
  end.

(** [hasattr(task, spans_attr)] *)
Definition hasattr_spans (t : option task) : M bool :=
  spans ← spans_of t; ret (bool_decide (is_Some spans)).

(** [spans[key]] for a table whose keys are strings. *)
Definition spans_getitem (spans : gmap string nat) (key : pyval) : result nat :=
  if negb (hashable key) then Raise TypeError
  else match key with
       | VStr k => match spans !! k with Some sp => Ok sp | None => Raise KeyError end
       | _ => Raise KeyError
       end.

(** [spans.pop(key)]: the value and the table without the key. *)
Definition spans_pop (spans : gmap string nat) (key : pyval)
  : result (nat * gmap string nat) :=
  if negb (hashable key) then Raise TypeError
  else match key with
       | VStr k =>
           match spans !! k with
           | Some sp => Ok (sp, delete k spans)
           | None => Raise KeyError
           end
       | _ => Raise KeyError
       end.

Definition is_none (v : pyval) : bool :=
  match v with VNone => true | _ => false end.

Definition opt_val (o : option pyval) : pyval := default VNone o.

Definition id_val (o : option (option string)) : pyval :=
  match o with Some (Some s) => VStr s | _ => VNone end.

(** ** The handlers of [CeleryTracing] *)

Definition _is_local (self : CeleryTracing) (item : option task) : bool :=
  let app := item ≫= task_app in
  match app with
  | Some a => Nat.eqb a (self_ref self)
  | None => false
  end.

Definition _get_span (t : option task) (task_id : pyval) (remove : bool)
  : M (option nat) :=
  spans ← spans_of t;
  match spans with
  | Some spans =>
      if remove then
        popped ← lift (spans_pop spans task_id);
        setattr_spans t (snd popped);;
        ret (Some (fst popped))
      else
        sp ← lift (spans_getitem spans task_id);
        ret (Some sp)
  | None => ret None
  end.

Definition tag_names : list string :=
  ["countdown"; "delivery_info"; "eta"; "expires"; "group"; "hostname"; "origin";
   "retries"; "timelimit"].

Definition subtag_names : list string :=
  ["exchange"; "priority"; "redelivered"; "routing_key"; "queue"].

Definition COMPONENT : string := "component".
Definition MESSAGE_BUS_DESTINATION : string := "message_bus.destination".
Definition ERROR : string := "error".

Definition str_in (s : string) (l : list string) : bool :=
  existsb (String.eqb s) l.

Definition _set_span_tags (sp : option nat) (headers : pyval) : M unit :=
  set_tag sp COMPONENT (VStr "celery");;
  for_each tag_names (fun tag =>
    val ← lift (py_get headers tag);
    if negb (in_empty_values val) then
      if String.eqb tag "delivery_info" then
        for_each subtag_names (fun subtag =>
          subval ← lift (py_get val subtag);
          if negb (in_none_or_blank subval) then
            set_tag sp ("celery.delivery." +:+ subtag) subval;;
            if str_in subtag ["exchange"; "routing_key"; "queue"] then
              set_tag sp MESSAGE_BUS_DESTINATION subval
            else ret tt
          else ret tt)
      else
        let tag := if String.eqb tag "hostname" then "worker.hostname" else tag in
        let tag := if String.eqb tag "origin" then "task.origin" else tag in
        set_tag sp ("celery." +:+ tag) val
    else ret tt).

(** [headers.get('id') or body.get('id')] over the kwargs, a missing
    [headers] or [body] standing for an empty dict. *)
Definition publish_task_id (kw : kwargs) : result pyval :=
  match py_get (default (VDict []) (kw_headers kw)) "id" with
  | Ok hid => py_or hid (py_get (default (VDict []) (kw_body kw)) "id")
  | Raise e => Raise e
  end.

Definition _prepublish (self : CeleryTracing) (kw : kwargs) : M unit :=
  let t := tasks_get self (kw_sender kw) in
  if negb (_is_local self t) then ret tt else
  nm ← task_name t;
  scope ← start_active_span ("publish " +:+ nm) None false (_span_tags self);
  let sp := Some scope in
  task_id ← lift (publish_task_id kw);
  if is_none task_id then raise RuntimeError else
  set_tag sp "celery.task.id" task_id;;
  req ← task_request t;
  _set_span_tags sp (request_mapping req);;
  let body := opt_val (kw_body kw) in
  body ← (if isinstance_tuple body then lift (py_index body 2) else ret body);
  _set_span_tags sp body;;
  let headers := opt_val (kw_headers kw) in
  (if negb (is_none headers) then
     _set_span_tags sp headers;;
     if _propagate self then
       headers ← lift (py_setitem headers context_headers (VDict []));
       modify (set_headers headers);;
       headers ← lift (py_setitem headers context_headers
                         (VDict (inject (_tracer self) (ContextOf scope) [])));
       modify (set_headers headers)
     else ret tt
   else ret tt);;
  has ← hasattr_spans t;
  (if negb has then setattr_spans t ∅ else ret tt);;
  spans_setitem t ("publish:" +:+ py_str task_id) scope.

Definition _postpublish (self : CeleryTracing) (kw : kwargs) : M unit :=
  let t := tasks_get self (kw_sender kw) in
  if negb (_is_local self t) then ret tt else
  task_id ← lift (publish_task_id kw);
  sp ← _get_span t (VStr ("publish:" +:+ py_str task_id)) true;
  active_scope ← scope_manager_active;
  active_span ← scope_span active_scope;
  if bool_decide (Some active_span = sp) then
    scope_close active_scope
  else
    finish sp;;
    modify (add_warning (active_span, sp)).

(** [getattr(request, context_headers, None) or
    request.headers.get(context_headers)] *)
Definition request_context (r : Context) : result pyval :=
  py_or (default VNone (dict_get (request_attrs r) context_headers))
        (match request_getattr r "headers" with
         | Ok h => py_get h context_headers
         | Raise e => Raise e
         end).

Definition _start_span (self : CeleryTracing) (kw : kwargs) : M unit :=
  let t := default (as_task (kw_sender kw)) (kw_task kw) in
  if negb (_is_local self t) then ret tt else
  parent ←
    (if _propagate self then
       req ← task_request t;
       context ← lift (request_context req);
       if truthy context then
         p ← lift (extract (_tracer self) context); ret (Some p)
       else ret None
     else ret None);
  nm ← task_name t;
  scope ← start_active_span nm parent true (_span_tags self);
  let sp := Some scope in
  req ← task_request t;
  let task_id := default (correlation_id req) (kw_task_id kw) in
  match task_id with
  | None => raise RuntimeError
  | Some task_id =>
      set_tag sp "celery.task.id" (VStr task_id);;
      req ← task_request t;
      _set_span_tags sp (request_mapping req);;
      has ← hasattr_spans t;
      (if negb has then setattr_spans t ∅ else ret tt);;
      spans_setitem t task_id scope
  end.

Definition exc_message (e : option exc_obj) : string :=
  match e with Some e => exc_str e | None => "None" end.

Definition exc_kind (e : option exc_obj) : string :=
  match e with Some e => exc_class_name e | None => "NoneType" end.

Definition _tag_error (self : CeleryTracing) (kw : kwargs) : M unit :=
  let t := as_task (kw_sender kw) in
  if negb (_is_local self t) then ret tt else
  sp ← _get_span t (id_val (kw_task_id kw)) false;
  set_tag sp ERROR (VBool true);;
  let exc := kw_exception kw in
  let einfo := kw_einfo kw in
  let exc :=
    match exc, einfo with
    | None, Some ei => einfo_exception ei
    | _, _ => exc
    end in
  let logged_error := [("event", LStr ERROR)] in
  logged_error ←
    match exc with
    | Some _ =>
        let logged_error :=
          logged_error ++ [("message", LStr (exc_message exc));
                           ("error.object", LExc exc);
                           ("error.kind", LStr (exc_kind exc))] in
        let tb := kw_traceback kw in
        let tb :=
          match tb with
          | None => match einfo with Some ei => einfo_traceback ei | None => None end
          | Some _ => tb
          end in
        match tb with
        | Some tb =>
            frames ← lift (format_tb tb);
            ret (logged_error ++ [("stack", LStr (String.concat "" frames))])
        | None => ret logged_error
        end
    | None => ret logged_error
    end;
  log_kv sp logged_error.

Definition _tag_retry (self : CeleryTracing) (kw : kwargs) : M unit :=
  let t := as_task (kw_sender kw) in
  if negb (_is_local self t) then ret tt else
  request_id ← lift (py_get (default (VDict []) (kw_request kw)) "id");
  sp ← _get_span t request_id false;
  set_tag sp "celery.retry" (VBool true);;
  set_tag sp "celery.retry.reason" (VStr (py_str (opt_val (kw_reason kw))));;
  match kw_einfo kw with
  | Some einfo =>
      let exc := einfo_exception einfo in
      let logged_error :=
        [("event", LStr ERROR); ("message", LStr (exc_message exc));
         ("error.object", LExc exc); ("error.kind", LStr (exc_kind exc))] in
      logged_error ←
        match einfo_traceback einfo with
        | Some tb =>
            tb ← match tb with
                 | TbList _ =>
                     frames ← lift (format_tb tb);
                     ret (LStr (String.concat "" frames))
                 | _ => ret (LTb tb)
                 end;
            ret (logged_error ++ [("stack", tb)])
        | None => ret logged_error
        end;
      log_kv sp logged_error
  | None => ret tt
  end.

Definition _finish_span (self : CeleryTracing) (kw : kwargs) : M unit :=
  let t := as_task (kw_sender kw) in
  if negb (_is_local self t) then ret tt else
  sp ← _get_span t (id_val (kw_task_id kw)) true;
  active_scope ← scope_manager_active;
  active_span ← scope_span active_scope;
  if bool_decide (Some active_span = sp) then
    scope_close active_scope
  else
    finish sp;;
    modify (add_warning (active_span, sp)).

(** ** Signals *)

Inductive signal : Type :=
| before_task_publish
| after_task_publish
| task_prerun
| task_failure
| task_retry
| task_postrun.

(** The handler that [connect_traced_handlers] connects to a signal. *)
Definition handler (self : CeleryTracing) (sig : signal) : kwargs -> M unit :=
  match sig with
  | before_task_publish => _prepublish self
  | after_task_publish => _postpublish self
  | task_prerun => _start_span self
  | task_failure => _tag_error self
  | task_retry => _tag_retry self
  | task_postrun => _finish_span self
  end.

(** [connect_traced_handlers]: the receivers this app connects, the
    two publish signals only when propagation is enabled. *)
Definition connect_traced_handlers (self : CeleryTracing)
  : list (signal * (kwargs -> M unit)) :=
  (if _propagate self
   then [(before_task_publish, _prepublish self);
         (after_task_publish, _postpublish self)]
   else [])
  ++ [(task_prerun, _start_span self); (task_failure, _tag_error self);
      (task_retry, _tag_retry self); (task_postrun, _finish_span self)].

(** The task a handler resolves from the kwargs of its signal. *)
Definition resolved_task (self : CeleryTracing) (sig : signal) (kw : kwargs)
  : option task :=
  match sig with
  | before_task_publish | after_task_publish => tasks_get self (kw_sender kw)
  | task_prerun => default (as_task (kw_sender kw)) (kw_task kw)
  | task_failure | task_retry | task_postrun => as_task (kw_sender kw)
  end.

(** Locality in the words of the spec: the resolved task exposes an
    owning app and that app is this instance. *)
Definition lacks_app (item : option task) : Prop := item ≫= task_app = None.

Definition owned_by_other (self : CeleryTracing) (item : option task) : Prop :=
  ∃ a, item ≫= task_app = Some a ∧ a ≠ self_ref self.

(** The side-table attribute of a task in a world, if it has one. *)
Definition side_table (w : world) (t : option task) : option (gmap string nat) :=
  t ≫= fun t => w_tables w !! task_ref t.

(** The tail that [_postpublish] and [_finish_span] share: close the
    active scope when it holds [sp], else finish [sp] and warn. *)
Definition close_or_finish (sp : option nat) : M unit :=
  active_scope ← scope_manager_active;
  active_span ← scope_span active_scope;
  if bool_decide (Some active_span = sp) then
    scope_close active_scope
  else
    finish sp;;
    modify (add_warning (active_span, sp)).

(** The body of the loop over [subtag] in [_set_span_tags]. *)
Definition subtag_step (sp : option nat) (val : pyval) (subtag : string) : M unit :=
  subval ← lift (py_get val subtag);
  if negb (in_none_or_blank subval) then
    set_tag sp ("celery.delivery." +:+ subtag) subval;;
    if str_in subtag ["exchange"; "routing_key"; "queue"] then
      set_tag sp MESSAGE_BUS_DESTINATION subval
    else ret tt
  else ret tt.

(** The body of the loop over [tag] in [_set_span_tags]. *)
Definition tag_step (sp : option nat) (headers : pyval) (tag : string) : M unit :=
  val ← lift (py_get headers tag);
  if negb (in_empty_values val) then
    if String.eqb tag "delivery_info" then
      for_each subtag_names (subtag_step sp val)
    else
      let tag := if String.eqb tag "hostname" then "worker.hostname" else tag in
      let tag := if String.eqb tag "origin" then "task.origin" else tag in
      set_tag sp ("celery." +:+ tag) val
  else ret tt.

(** A world in which span [n] has gone through [f] and nothing else
    has changed. *)
Definition retag (n : nat) (f : span -> span) (w : world) : world :=
  update_spans (alter f n) w.

(** [f] touches the tags of a span only. *)
Definition only_tags (f : span -> span) : Prop :=
  ∀ s, operation_name (f s) = operation_name s ∧ parent (f s) = parent s
       ∧ logs (f s) = logs s ∧ finished (f s) = finished s.

(** [m] only passes span [n] through some [f] with [P f], and ends
    normally or with an exception of [E]. *)
Definition tagging (n : nat) (P : (span -> span) -> Prop) (E : exn -> Prop)
    (m : M unit) : Prop :=
  ∀ w, ∃ r f, m w = (r, retag n f w) ∧ P f
              ∧ match r with Ok _ => True | Raise e => E e end.

Definition no_exn : exn -> Prop := fun _ => False.

(** A tag of a span of the world. *)
Definition span_tag (w : world) (n : nat) (k : string) : option pyval :=
  w_spans w !! n ≫= fun s => tags s !! k.

(** A metadata mapping on which tag extraction runs through: a dict
    whose [delivery_info] is empty or a dict. *)
Definition well_formed_metadata (md : pyval) : bool :=
  match md with
  | VDict d =>
      match default VNone (dict_get d "delivery_info") with
      | VDict _ => true
      | v => in_empty_values v
      end
  | _ => false
  end.

(** A field of a dict, [None] when it is missing. *)
Definition dict_field (d : list (string * pyval)) (k : string) : pyval :=
  default VNone (dict_get d k).

(** A sub-field counts as present when it is neither [None] nor blank. *)
Definition present (v : pyval) : bool := negb (in_none_or_blank v).

(** The message destination in the words of the spec: the queue name if
    present, else the routing key if present, else the exchange. *)
Definition preferred_destination (di : list (string * pyval)) : option pyval :=
  if present (dict_field di "queue") then Some (dict_field di "queue")
  else if present (dict_field di "routing_key") then Some (dict_field di "routing_key")
  else if present (dict_field di "exchange") then Some (dict_field di "exchange")
  else None.

(** [f] leaves the destination tag at [o], or as it was for [None]. *)
Definition sets_destination (o : option pyval) (f : span -> span) : Prop :=
  ∀ s, tags (f s) !! MESSAGE_BUS_DESTINATION
       = match o with Some v => Some v | None => tags s !! MESSAGE_BUS_DESTINATION end.

(** The later of two writes of the destination tag wins. *)
Definition later (o1 o2 : option pyval) : option pyval :=
  match o2 with Some v => Some v | None => o1 end.

(** The side-table key that the handler of an end signal retrieves and
    removes: [publish:<id>] on [after_task_publish], the [task_id] on
    [task_postrun]. *)
Definition end_key (sig : signal) (kw : kwargs) : option string :=
  match sig with
  | after_task_publish =>
      match publish_task_id kw with
      | Ok task_id => Some ("publish:" +:+ py_str task_id)
      | Raise _ => None
      end
  | task_postrun => mjoin (kw_task_id kw)
  | _ => None
  end.

(** The world after the tracer has started span [s] and made it the
    active scope. *)
Definition started (s : span) (w : world) : world :=
  update_scopes (cons (length (w_spans w))) (update_spans (fun l => l ++ [s]) w).

(** The last three lines of [_prepublish] and of [_start_span]: create
    the side-table if the task has none, then assign the span to its
    key. *)
Definition store_span (t : option task) (key : string) (scope : nat) : M unit :=
  has ← hasattr_spans t;
  (if negb has then setattr_spans t ∅ else ret tt);;
  spans_setitem t key scope.

(** [_prepublish] from the tagging of the task id on. *)
Definition prepublish_tail (self : CeleryTracing) (kw : kwargs) (t : option task)
    (scope : nat) (task_id : pyval) : M unit :=
  let sp := Some scope in
  set_tag sp "celery.task.id" task_id;;
  req ← task_request t;
  _set_span_tags sp (request_mapping req);;
  let body := opt_val (kw_body kw) in
  body ← (if isinstance_tuple body then lift (py_index body 2) else ret body);
  _set_span_tags sp body;;
  let headers := opt_val (kw_headers kw) in
  (if negb (is_none headers) then
     _set_span_tags sp headers;;
     if _propagate self then
       headers ← lift (py_setitem headers context_headers (VDict []));
       modify (set_headers headers);;
       headers ← lift (py_setitem headers context_headers
                         (VDict (inject (_tracer self) (ContextOf scope) [])));
       modify (set_headers headers)
     else ret tt
   else ret tt);;
  store_span t ("publish:" +:+ py_str task_id) scope.

(** [_start_span] from the tagging of the task id on. *)
Definition start_tail (t : option task) (scope : nat) (task_id : string) : M unit :=
  let sp := Some scope in
  set_tag sp "celery.task.id" (VStr task_id);;
  req ← task_request t;
  _set_span_tags sp (request_mapping req);;
  store_span t task_id scope.

(** The metadata that [_prepublish] reads from the message body: the
    element at index 2 of a tuple, else the body. *)
Definition publish_body (kw : kwargs) : result pyval :=
  let body := opt_val (kw_body kw) in
  if isinstance_tuple body then py_index body 2 else Ok body.

(** The parent that [_start_span] passes as [child_of]. *)
Definition run_parent (self : CeleryTracing) (r : Context)
  : result (option span_context) :=
  if _propagate self then
    match request_context r with
    | Ok context =>
        if truthy context then
          match extract (_tracer self) context with
          | Ok p => Ok (Some p)
          | Raise e => Raise e
          end
        else Ok None
    | Raise e => Raise e
    end
  else Ok None.

(** The side-table key under which the handler of a start signal stores
    the span it creates: [publish:<id>] on [before_task_publish], the
    task id on [task_prerun]; [None] when the id does not resolve. *)
Definition start_key (self : CeleryTracing) (sig : signal) (kw : kwargs)
  : option string :=
  match sig with
  | before_task_publish =>
      match publish_task_id kw with
      | Ok task_id =>
          if is_none task_id then None else Some ("publish:" +:+ py_str task_id)
      | Raise _ => None
      end
  | task_prerun =>
      t ← resolved_task self sig kw;
      default (correlation_id (request t)) (kw_task_id kw)
  | _ => None
  end.

(** The inputs on which the handler of a start signal runs through: the
    metadata mappings it reads are well formed and, on [task_prerun], the
    propagation payload can be looked up and extracted. *)
Definition well_formed_start (self : CeleryTracing) (sig : signal) (kw : kwargs)
  : bool :=
  match resolved_task self sig kw with
  | Some t =>
      well_formed_metadata (request_mapping (request t))
      && match sig with
         | before_task_publish =>
             match publish_body kw with
             | Ok body => well_formed_metadata body
             | Raise _ => false
             end
             && (is_none (opt_val (kw_headers kw))
                 || well_formed_metadata (opt_val (kw_headers kw)))
         | task_prerun =>
             match run_parent self (request t) with
             | Ok _ => true
             | Raise _ => false
             end
         | _ => false
         end
  | None => false
  end.

(** The span that [_prepublish] starts: named after the task, with the
    static tags, and parented by the active span if there is one. *)
Definition publish_span (self : CeleryTracing) (t : task) (w : world) : span :=
  {| operation_name := "publish " +:+ name t;
     parent := ContextOf <$> head (w_scopes w);
     tags := _span_tags self; logs := []; finished := false |}.

(** The span that [_start_span] starts with parent [p]. *)
Definition run_span (self : CeleryTracing) (t : task) (p : option span_context)
  : span :=
  {| operation_name := name t; parent := p; tags := _span_tags self; logs := [];
     finished := false |}.

(** [m] never ends with exception [e]. *)
Definition never_raises {A} (e : exn) (m : M A) : Prop :=
  ∀ w, fst (m w) ≠ Raise e.

(** An id field as the task framework fills it: [None] or a non-empty
    string. *)
Definition id_or_none (v : pyval) : Prop :=
  v = VNone ∨ ∃ s, v = VStr s ∧ s ≠ "".

(** ** Sample objects *)

Module Sample.

(** A tracer whose carrier is the text map itself. *)
Definition tracer : Tracer :=
  {| extract := fun c =>
       match c with
       | VDict d => Ok (Remote d)
       | _ => Raise TypeError
       end;
     inject := fun ctx carrier =>
       match ctx with
       | ContextOf n => dict_set carrier "span-id" (VInt (Z.of_nat n))
       | Remote d => d
       end |}.

Definition add_request : Context :=
  {| correlation_id := Some "abc";
     request_attrs := [("headers", VDict []); ("retries", VInt 0)] |}.

(** The task [add] of the app with identity [7]. *)
Definition add : task :=
  {| task_ref := 1; task_app := Some 7; name := "add"; request := add_request |}.

(** A task of another app. *)
Definition mul : task :=
  {| task_ref := 2; task_app := Some 8; name := "mul"; request := add_request |}.

Definition app : CeleryTracing :=
  {| self_ref := 7; _tracer := tracer; _propagate := true; _span_tags := ∅;
     tasks := {[ "add" := add ]} |}.

Definition no_kwargs : kwargs :=
  {| kw_sender := None; kw_task := None; kw_task_id := None; kw_headers := None;
     kw_body := None; kw_exception := None; kw_einfo := None;
     kw_traceback := None; kw_request := None; kw_reason := None |}.

(** kwargs of the publish signals. *)
Definition publish (sender : string) (headers body : option pyval) : kwargs :=
  {| kw_sender := Some (SenderName sender); kw_task := None; kw_task_id := None;
     kw_headers := headers; kw_body := body; kw_exception := None;
     kw_einfo := None; kw_traceback := None; kw_request := None;
     kw_reason := None |}.

(** kwargs of [task_prerun] and [task_postrun]. *)
Definition run (t : task) (task_id : string) : kwargs :=
  {| kw_sender := Some (SenderTask t); kw_task := Some (Some t);
     kw_task_id := Some (Some task_id); kw_headers := None; kw_body := None;
     kw_exception := None; kw_einfo := None; kw_traceback := None;
     kw_request := None; kw_reason := None |}.

(** A task whose request carries a propagation payload as a direct
    attribute, as a worker sets it from the message headers. *)
Definition traced : task :=
  {| task_ref := 3; task_app := Some 7; name := "traced";
     request :=
       {| correlation_id := Some "xyz";
          request_attrs :=
            [("_celery_opentracing_context", VDict [("span-id", VInt 5)]);
             ("headers", VNone)] |} |}.

Definition fresh : world :=
  {| w_spans := []; w_scopes := []; w_tables := ∅; w_headers := None;
     w_warnings := [] |}.

(** The world after [task_prerun] for [add] with id [abc]. *)
Definition running : world := snd (_start_span app (run add "abc") fresh).

(** The same, after another party closed the scope of the run. *)
Definition disturbed : world := update_scopes (fun _ => []) running.

End Sample.

(** ** Further notions used to state properties of the handlers *)

(** The lookup of the id that the handler of a signal does before it
    looks for the span is defined: the publish id on
    [after_task_publish], [request.get('id')] on [task_retry]; the
    [task_id] kwarg of [task_failure] and [task_postrun] never fails. *)
Definition id_lookup_defined (sig : signal) (kw : kwargs) : Prop :=
  match sig with
  | after_task_publish => ∃ v, publish_task_id kw = Ok v
  | task_retry => ∃ v, py_get (default (VDict []) (kw_request kw)) "id" = Ok v
  | task_failure | task_postrun => True
  | _ => False
  end.

(** The kwargs with [exception] set. *)
Definition with_exception (kw : kwargs) (e : exc_obj) : kwargs :=
  {| kw_sender := kw_sender kw; kw_task := kw_task kw; kw_task_id := kw_task_id kw;
     kw_headers := kw_headers kw; kw_body := kw_body kw;
     kw_exception := Some e; kw_einfo := kw_einfo kw;
     kw_traceback := kw_traceback kw; kw_request := kw_request kw;
     kw_reason := kw_reason kw |}.

(** [disconnect_traced_handlers]: the receivers this app disconnects. *)
Definition disconnect_traced_handlers (self : CeleryTracing)
  : list (signal * (kwargs -> M unit)) :=
  (if _propagate self
   then [(before_task_publish, _prepublish self);
         (after_task_publish, _postpublish self)]
   else [])
  ++ [(task_prerun, _start_span self); (task_failure, _tag_error self);
      (task_retry, _tag_retry self); (task_postrun, _finish_span self)].

(** [f] leaves tag [k] at [o], or as it was for [None]. *)
Definition sets_tag (k : string) (o : option pyval) (f : span -> span) : Prop :=
  ∀ s, tags (f s) !! k = match o with Some v => Some v | None => tags s !! k end.

(** [s.startswith(p)] *)
Fixpoint starts_with (p s : string) : bool :=
  match p with
  | EmptyString => true
  | String a p' =>
      match s with
      | EmptyString => false
      | String b s' => Ascii.eqb a b && starts_with p' s'
      end
  end.

(** The keys that tag extraction and the handlers write: the component
    tag, the message destination, and every key under [celery.]. *)
Definition reserved_key (k : string) : bool :=
  String.eqb k COMPONENT || String.eqb k MESSAGE_BUS_DESTINATION
  || starts_with "celery." k.

(** The tag under which [_set_span_tags] copies a metadata field. *)
Definition tag_key (tag : string) : string :=
  "celery." +:+ (if String.eqb tag "hostname" then "worker.hostname"
                 else if String.eqb tag "origin" then "task.origin" else tag).

(** The metadata fields that are copied as they are, that is all of
    [tag_names] but [delivery_info]. *)
Definition plain_tag_names : list string :=
  ["countdown"; "eta"; "expires"; "group"; "hostname"; "origin"; "retries";
   "timelimit"].

(** [m], whatever its outcome, passes span [n] through some [f] with
    [P f] and leaves the other spans alone. *)
Definition span_only {A} (n : nat) (P : (span -> span) -> Prop) (m : M A) : Prop :=
  ∀ w, ∃ f, P f ∧ w_spans (snd (m w)) = alter f n (w_spans w).

(** [m] runs through, only tags span [n], and leaves the scope stack,
    the side-tables and the log as they were. *)
Definition calm (n : nat) (m : M unit) : Prop :=
  ∀ w, ∃ w' f, m w = (Ok tt, w') ∧ only_tags f
               ∧ w_spans w' = alter f n (w_spans w)
               ∧ w_scopes w' = w_scopes w ∧ w_warnings w' = w_warnings w
               ∧ w_tables w' = w_tables w.

(** [m] runs through, only tags span [n], assigns [n] to [key] in the
    side-table of [t], and leaves the scope stack and the log as they
    were. *)
Definition settles (n : nat) (t : task) (key : string) (m : M unit) : Prop :=
  ∀ w, ∃ w' f, m w = (Ok tt, w') ∧ only_tags f
               ∧ w_spans w' = alter f n (w_spans w)
               ∧ w_scopes w' = w_scopes w ∧ w_warnings w' = w_warnings w
               ∧ w_tables w'
                 = <[task_ref t := <[key := n]> (default ∅ (w_tables w !! task_ref t))]>
                     (w_tables w).

(** [m] runs through and leaves the message headers at [g] of what they
    were. *)
Definition headers_after (g : option pyval -> option pyval) (m : M unit) : Prop :=
  ∀ w, ∃ w', m w = (Ok tt, w') ∧ w_headers w' = g (w_headers w).

(** [extract] of the tracer gives back the context of span [n] from the
    carrier that [inject] filled with it. *)
Definition round_trips (tr : Tracer) (n : nat) : Prop :=
  extract tr (VDict (inject tr (ContextOf n) [])) = Ok (ContextOf n).

(** The headers that [_prepublish] leaves behind for the headers dict
    [d] and the span [n]: with propagation, [d] with the injected context
    under the reserved key. *)
Definition injected_headers (self : CeleryTracing) (d : list (string * pyval))
    (n : nat) : list (string * pyval) :=
  dict_set d context_headers (VDict (inject (_tracer self) (ContextOf n) [])).

(** What the loop step for [tag] writes under key [k] when the metadata
    is the dict [d]: the field, if [k] is the key of that tag and the
    field is not one of the empty values. *)
Definition step_writes (d : list (string * pyval)) (k tag : string) : option pyval :=
  if String.eqb tag "delivery_info" then None
  else if String.eqb (tag_key tag) k && negb (in_empty_values (dict_field d tag))
       then Some (dict_field d tag) else None.

(** The last write under [k] of the loop steps for the tags [l]. *)
Fixpoint steps_write (d : list (string * pyval)) (k : string) (l : list string)
  : option pyval :=
  match l with
  | [] => None
  | tag :: l' => later (step_writes d k tag) (steps_write d k l')
  end.

(** [getattr(task.request, context_headers, None)]: the payload as a
    direct attribute of the request, [None] when there is none. *)
Definition direct_payload (r : Context) : pyval :=
  default VNone (dict_get (request_attrs r) context_headers).

(** The entry of the reserved key in [task.request.headers], [None] for
    a missing entry; there is no such entry to look up when the request
    has no [headers] attribute or the attribute is no mapping. *)
Definition header_payload (r : Context) : option pyval :=
  match dict_get (request_attrs r) "headers" with
  | Some (VDict h) => Some (default VNone (dict_get h context_headers))
  | _ => None
  end.

(** What the spec says of a prerun on a local task, for the parent [p]
    that the payload gives: the handler starts one span, with parent [p]
    whatever span is active, and, when the task id resolves and the
    request metadata is well formed, returns with the span stored under
    the plain task id. *)
Definition starts_run_span (self : CeleryTracing) (kw : kwargs) (w : world)
    (t : task) (p : option span_context) : Prop :=
  let n := length (w_spans w) in
  ∃ r w', _start_span self kw w = (r, w')
          ∧ length (w_spans w') = S n
          ∧ parent <$> w_spans w' !! n = Some p
          ∧ ∀ task_id,
              default (correlation_id (request t)) (kw_task_id kw) = Some task_id ->
              well_formed_metadata (request_mapping (request t)) = true ->
              r = Ok tt
              ∧ side_table w' (Some t)
                = Some (<[task_id := n]> (default ∅ (side_table w (Some t)))).









Module Scenario.

(** An exception and its traceback, as [task_failure] passes them. *)
Definition boom : exc_obj := {| exc_str := "boom"; exc_class_name := "ValueError" |}.

(** kwargs of [task_failure]. *)
Definition failure (t : task) (task_id : string) (e : option exc_obj)
    (ei : option einfo_obj) (tb : option tb_val) : kwargs :=
  {| kw_sender := Some (SenderTask t); kw_task := None;
     kw_task_id := Some (Some task_id); kw_headers := None; kw_body := None;
     kw_exception := e; kw_einfo := ei; kw_traceback := tb;
     kw_request := None; kw_reason := None |}.

(** kwargs of [task_retry]. *)
Definition retry (t : task) (task_id : string) (reason : pyval)
    (ei : option einfo_obj) : kwargs :=
  {| kw_sender := Some (SenderTask t); kw_task := None; kw_task_id := None;
     kw_headers := None; kw_body := None; kw_exception := None; kw_einfo := ei;
     kw_traceback := None; kw_request := Some (VDict [("id", VStr task_id)]);
     kw_reason := Some reason |}.

(** The publish kwargs of a message with id [abc]. *)
Definition publish_abc : kwargs :=
  Sample.publish "add" (Some (VDict [("id", VStr "abc")])) (Some (VDict [])).

(** The world after the second of two overlapping runs has started. *)
Definition overlapping : world :=
  snd (_start_span Sample.app (Sample.run Sample.traced "xyz") Sample.running).

(** The span of the run in [Sample.running]. *)
Definition running_span : span :=
  default (run_span Sample.app Sample.add None) (w_spans Sample.running !! 0).

(** The app of [Sample] with propagation switched off. *)
Definition quiet_app : CeleryTracing :=
  {| self_ref := 7; _tracer := Sample.tracer; _propagate := false;
     _span_tags := {[ "deployment" := VStr "prod" ]};
     tasks := {[ "add" := Sample.add ]} |}.

(** A tracer that writes the span id into the carrier and reads it
    back. *)
Definition linking_tracer : Tracer :=
  {| extract := fun c =>
       match c with
       | VDict [(_, VInt z)] => Ok (ContextOf (Z.to_nat z))
       | VDict d => Ok (Remote d)
       | _ => Raise TypeError
       end;
     inject := fun ctx carrier =>
       match ctx with
       | ContextOf n => dict_set carrier "span-id" (VInt (Z.of_nat n))
       | Remote d => d
       end |}.

(** The publishing app and the worker app, both with that tracer. *)
Definition linked_app : CeleryTracing :=
  {| self_ref := 7; _tracer := linking_tracer; _propagate := true;
     _span_tags := ∅; tasks := {[ "add" := Sample.add ]} |}.

(** The task as the worker sees it when the message published in
    [Sample.running] arrives: the headers of the message are attributes of
    the request. *)
Definition delivered : task :=
  {| task_ref := 5; task_app := Some 7; name := "add";
     request :=
       {| correlation_id := Some "abc";
          request_attrs :=
            [("id", VStr "abc");
             ("_celery_opentracing_context", VDict [("span-id", VInt 1)]);
             ("headers", VNone)] |} |}.

(** A task whose request has no payload and [headers] set to [None]. *)
Definition bare : task :=
  {| task_ref := 4; task_app := Some 7; name := "bare";
     request := {| correlation_id := Some "b1";
                   request_attrs := [("headers", VNone)] |} |}.

(** A task whose request carries the payload under the reserved key of
    its headers and not as a direct attribute. *)
Definition forwarded : task :=
  {| task_ref := 6; task_app := Some 7; name := "forwarded";
     request :=
       {| correlation_id := Some "f1";
          request_attrs :=
            [("headers",
              VDict [("_celery_opentracing_context", VDict [("span-id", VInt 9)])])] |} |}.




End Scenario.

(** * Properties *)

Lemma bind_run {A B} (m : M A) (k : A -> M B) (w : world) :
  (m ≫= k) w =
  match m w with
  | (Ok a, w') => k a w'
  | (Raise e, w') => (Raise e, w')
  end.
Proof. reflexivity. Qed.

(** Unfold the monad down to functions on worlds. *)
Ltac run_monad :=
  cbv [mbind M_bind bind mret M_ret ret lift raise modify setattr_spans];
  cbn [fst snd negb].

Lemma bind_ok {A B} (m : M A) (k : A -> M B) (w w' : world) (a : A) :
  m w = (Ok a, w') -> (m ≫= k) w = k a w'.
Proof. intros H. rewrite bind_run, H. reflexivity. Qed.

Lemma bind_raise {A B} (m : M A) (k : A -> M B) (w w' : world) (e : exn) :
  m w = (Raise e, w') -> (m ≫= k) w = (Raise e, w').
Proof. intros H. rewrite bind_run, H. reflexivity. Qed.

Lemma _is_local_spec (self : CeleryTracing) (item : option task) :
  _is_local self item = true <-> item ≫= task_app = Some (self_ref self).
Proof.
  unfold _is_local. destruct (item ≫= task_app) as [a|].
  - rewrite Nat.eqb_eq. split; [intros ->; reflexivity | intros [= ->]; reflexivity].
  - split; discriminate.
Qed.

Lemma not_local_false (self : CeleryTracing) (item : option task) :
  lacks_app item ∨ owned_by_other self item -> _is_local self item = false.
Proof.
  intros H. destruct (_is_local self item) eqn:E; [|reflexivity].
  apply _is_local_spec in E. destruct H as [H | (a & H & Hne)].
  - unfold lacks_app in H. congruence.
  - congruence.
Qed.

Lemma connected_receiver_is_handler (self : CeleryTracing) (sig : signal)
    (h : kwargs -> M unit) :
  (sig, h) ∈ connect_traced_handlers self -> h = handler self sig.
Proof.
  unfold connect_traced_handlers. intros H.
  apply elem_of_app in H as [H|H].
  - destruct (_propagate self); [|inversion H].
    repeat (apply elem_of_cons in H as [[= -> ->]|H]; [reflexivity|]).
    inversion H.
  - repeat (apply elem_of_cons in H as [[= -> ->]|H]; [reflexivity|]).
    inversion H.
Qed.

(** C3. For each of the six lifecycle signals, when the task the handler
    resolves is not local (it has no owning-app attribute, or its owning
    app is another object than this instance), the handler returns
    normally and leaves the whole world as it was: no span is started,
    no side-table changes, no tag is set. *)
Theorem foreign_event_is_ignored (self : CeleryTracing) (sig : signal)
    (kw : kwargs) (w : world) :
  lacks_app (resolved_task self sig kw)
  ∨ owned_by_other self (resolved_task self sig kw) ->
  handler self sig kw w = (Ok tt, w).
Proof.
  intros H. apply not_local_false in H.
  destruct sig; simpl in *;
    unfold _prepublish, _postpublish, _start_span, _tag_error, _tag_retry,
      _finish_span; rewrite H; reflexivity.
Qed.

Lemma _postpublish_unfold (self : CeleryTracing) (kw : kwargs) :
  _postpublish self kw =
  let t := tasks_get self (kw_sender kw) in
  if negb (_is_local self t) then ret tt else
  task_id ← lift (publish_task_id kw);
  sp ← _get_span t (VStr ("publish:" +:+ py_str task_id)) true;
  close_or_finish sp.
Proof. reflexivity. Qed.

Lemma _finish_span_unfold (self : CeleryTracing) (kw : kwargs) :
  _finish_span self kw =
  let t := as_task (kw_sender kw) in
  if negb (_is_local self t) then ret tt else
  sp ← _get_span t (id_val (kw_task_id kw)) true;
  close_or_finish sp.
Proof. reflexivity. Qed.

Lemma foreign_event_is_ignored_witness :
  handler Sample.app task_postrun (Sample.run Sample.mul "abc") Sample.running
  = (Ok tt, Sample.running).
Proof.
  apply foreign_event_is_ignored. right. exists 8. split; [reflexivity | discriminate].
Defined.

(** *** Span lookup *)

Lemma _get_span_no_table (w : world) (t : option task) (task_id : pyval)
    (remove : bool) :
  side_table w t = None -> _get_span t task_id remove w = (Ok None, w).
Proof.
  intros H. unfold _get_span. rewrite bind_run. unfold spans_of.
  unfold side_table in H. rewrite H. reflexivity.
Qed.

Lemma _get_span_table (w : world) (t : option task) (task_id : pyval)
    (remove : bool) (spans : gmap string nat) :
  side_table w t = Some spans ->
  ∃ tk, t = Some tk ∧
    _get_span t task_id remove w =
    if remove then
      match spans_pop spans task_id with
      | Ok (sp, spans') => (Ok (Some sp), update_tables <[task_ref tk := spans']> w)
      | Raise e => (Raise e, w)
      end
    else
      match spans_getitem spans task_id with
      | Ok sp => (Ok (Some sp), w)
      | Raise e => (Raise e, w)
      end.
Proof.
  intros H. destruct t as [tk|]; [|discriminate]. exists tk. split; [reflexivity|].
  unfold _get_span. rewrite bind_run. unfold spans_of.
  unfold side_table in H. rewrite H. destruct remove.
  - rewrite bind_run. unfold lift. destruct (spans_pop spans task_id) as [[sp spans']|e];
      reflexivity.
  - rewrite bind_run. unfold lift. destruct (spans_getitem spans task_id); reflexivity.
Qed.

(** C10. On a task object without the side-table attribute, [_get_span]
    returns [None] and changes nothing, whatever the id and the removal
    flag; so when [_get_span] ends in a key-lookup failure, the task has
    the attribute. *)
Theorem get_span_needs_table_for_key_error (w : world) (t : option task)
    (task_id : pyval) (remove : bool) :
  (side_table w t = None -> _get_span t task_id remove w = (Ok None, w))
  ∧ (fst (_get_span t task_id remove w) = Raise KeyError ->
     is_Some (side_table w t)).
Proof.
  split.
  - apply _get_span_no_table.
  - intros H. destruct (side_table w t) eqn:E; [eauto|].
    rewrite (_get_span_no_table _ _ _ _ E) in H. discriminate.
Qed.

Lemma get_span_needs_table_for_key_error_witness :
  _get_span (Some Sample.add) (VStr "abc") true Sample.fresh = (Ok None, Sample.fresh)
  ∧ is_Some (side_table Sample.running (Some Sample.add)).
Proof.
  split.
  - apply (proj1 (get_span_needs_table_for_key_error Sample.fresh (Some Sample.add)
                    (VStr "abc") true)). reflexivity.
  - apply (proj2 (get_span_needs_table_for_key_error Sample.running (Some Sample.add)
                    (VStr "other") false)). vm_compute. reflexivity.
Defined.

(** *** Steps that only tag one span *)

Lemma world_eta (w : world) :
  {| w_spans := w_spans w; w_scopes := w_scopes w; w_tables := w_tables w;
     w_headers := w_headers w; w_warnings := w_warnings w |} = w.
Proof. destruct w; reflexivity. Qed.

Lemma retag_id (n : nat) (w : world) : retag n id w = w.
Proof.
  unfold retag, update_spans. rewrite (list_alter_id id (w_spans w) n) by reflexivity.
  apply world_eta.
Qed.

Lemma retag_retag (n : nat) (f g : span -> span) (w : world) :
  retag n g (retag n f w) = retag n (g ∘ f) w.
Proof.
  unfold retag, update_spans. simpl. rewrite list_alter_alter_eq. reflexivity.
Qed.

Lemma only_tags_id : only_tags id.
Proof. intros s. repeat split. Qed.

Lemma only_tags_compose (f g : span -> span) :
  only_tags f -> only_tags g -> only_tags (g ∘ f).
Proof.
  intros Hf Hg s. specialize (Hf s). specialize (Hg (f s)). simpl.
  destruct Hf as (? & ? & ? & ?), Hg as (? & ? & ? & ?).
  repeat split; congruence.
Qed.

Lemma only_tags_with_tag (k : string) (v : pyval) : only_tags (with_tag k v).
Proof. intros s. repeat split. Qed.

Section Tagging.
Context (n : nat) (E : exn -> Prop).

Lemma tagging_ret (P : (span -> span) -> Prop) : P id -> tagging n P E (ret tt).
Proof.
  intros H w. exists (Ok tt), id. rewrite retag_id. repeat split. exact H.
Qed.

Lemma tagging_set_tag (P : (span -> span) -> Prop) (k : string) (v : pyval) :
  P (with_tag k v) -> tagging n P E (set_tag (Some n) k v).
Proof.
  intros H w. exists (Ok tt), (with_tag k v). repeat split. exact H.
Qed.

Lemma tagging_seq (P1 P2 P3 : (span -> span) -> Prop) (m k : M unit) :
  tagging n P1 E m -> tagging n P2 E k ->
  (∀ f g, P1 f -> P2 g -> P3 (g ∘ f)) ->
  (∀ f e, P1 f -> E e -> P3 f) ->
  tagging n P3 E (m;; k).
Proof.
  intros Hm Hk Hc Hr w. destruct (Hm w) as (r & f & Hrun & Hf & Hres).
  destruct r as [[]|e].
  - destruct (Hk (retag n f w)) as (r' & g & Hrun' & Hg & Hres').
    exists r', (g ∘ f). rewrite (bind_ok _ _ _ _ _ Hrun), Hrun', retag_retag.
    repeat split; auto.
  - exists (Raise e), f. rewrite (bind_raise _ _ _ _ _ Hrun). repeat split; eauto.
Qed.

Lemma tagging_lift {A} (P : (span -> span) -> Prop) (r : result A)
    (k : A -> M unit) :
  (∀ a, r = Ok a -> tagging n P E (k a)) ->
  (∀ e, r = Raise e -> E e ∧ P id) ->
  tagging n P E (a ← lift r; k a).
Proof.
  intros Hok Hraise w. destruct r as [a|e].
  - destruct (Hok a eq_refl w) as (r' & f & Hrun & Hf & Hres).
    exists r', f. rewrite bind_run. unfold lift. rewrite Hrun. auto.
  - destruct (Hraise e eq_refl) as [He Hid].
    exists (Raise e), id. rewrite bind_run, retag_id. unfold lift. auto.
Qed.

Lemma tagging_for_each {A} (P : (span -> span) -> Prop) (l : list A)
    (body : A -> M unit) :
  P id -> (∀ f g, P f -> P g -> P (g ∘ f)) ->
  Forall (fun x => tagging n P E (body x)) l ->
  tagging n P E (for_each l body).
Proof.
  intros Hid Hc Hl. induction Hl as [|x l Hx Hl IH]; simpl.
  - apply tagging_ret, Hid.
  - eapply tagging_seq; eauto.
Qed.

Lemma tagging_weaken (P P' : (span -> span) -> Prop) (E' : exn -> Prop)
    (m : M unit) :
  (∀ f, P f -> P' f) -> (∀ e, E e -> E' e) ->
  tagging n P E m -> tagging n P' E' m.
Proof.
  intros HP HE Hm w. destruct (Hm w) as (r & f & Hrun & Hf & Hres).
  exists r, f. repeat split; auto. destruct r; auto.
Qed.
End Tagging.

(** *** Tag extraction only tags its span *)

Lemma _set_span_tags_unfold (sp : option nat) (md : pyval) :
  _set_span_tags sp md =
  (set_tag sp COMPONENT (VStr "celery");; for_each tag_names (tag_step sp md)).
Proof. reflexivity. Qed.

Lemma py_get_raise (m : pyval) (k : string) (e : exn) :
  py_get m k = Raise e -> e = AttributeError.
Proof. destruct m; simpl; congruence. Qed.

Lemma subtag_step_tagging (n : nat) (E : exn -> Prop) (val : pyval)
    (subtag : string) :
  (∀ e, py_get val subtag = Raise e -> E e) ->
  tagging n only_tags E (subtag_step (Some n) val subtag).
Proof.
  intros HE. unfold subtag_step. apply tagging_lift.
  - intros subval _. destruct (in_none_or_blank subval); cbn [negb].
    + apply tagging_ret, only_tags_id.
    + apply tagging_seq with (P1 := only_tags) (P2 := only_tags);
        auto using only_tags_compose.
      * apply tagging_set_tag, only_tags_with_tag.
      * destruct (str_in subtag ["exchange"; "routing_key"; "queue"]).
        -- apply tagging_set_tag, only_tags_with_tag.
        -- apply tagging_ret, only_tags_id.
  - intros e He. split; [auto | apply only_tags_id].
Qed.

Lemma tag_step_tagging (n : nat) (E : exn -> Prop) (md : pyval) (tag : string) :
  (∀ e, py_get md tag = Raise e -> E e) ->
  (∀ val sub e, py_get md tag = Ok val -> in_empty_values val = false ->
                String.eqb tag "delivery_info" = true ->
                py_get val sub = Raise e -> E e) ->
  tagging n only_tags E (tag_step (Some n) md tag).
Proof.
  intros HE Hsub. unfold tag_step. apply tagging_lift.
  - intros val Hval. destruct (in_empty_values val) eqn:Hempty; cbn [negb].
    + apply tagging_ret, only_tags_id.
    + destruct (String.eqb tag "delivery_info") eqn:Htag.
      * apply tagging_for_each; auto using only_tags_id, only_tags_compose.
        apply Forall_forall. intros sub _. apply subtag_step_tagging.
        intros e He. eapply Hsub; eauto.
      * apply tagging_set_tag, only_tags_with_tag.
  - intros e He. split; [auto | apply only_tags_id].
Qed.

Lemma _set_span_tags_tagging (n : nat) (md : pyval) :
  tagging n only_tags (eq AttributeError) (_set_span_tags (Some n) md).
Proof.
  rewrite _set_span_tags_unfold.
  apply tagging_seq with (P1 := only_tags) (P2 := only_tags);
    auto using only_tags_compose.
  - apply tagging_set_tag, only_tags_with_tag.
  - apply tagging_for_each; auto using only_tags_id, only_tags_compose.
    apply Forall_forall. intros tag _. apply tag_step_tagging.
    + intros e He. symmetry. eapply py_get_raise, He.
    + intros val sub e _ _ _ He. symmetry. eapply py_get_raise, He.
Qed.

Lemma well_formed_metadata_dict (md : pyval) :
  well_formed_metadata md = true -> ∃ d, md = VDict d.
Proof. destruct md; try discriminate. eauto. Qed.

Lemma _set_span_tags_ok (n : nat) (md : pyval) :
  well_formed_metadata md = true ->
  tagging n only_tags no_exn (_set_span_tags (Some n) md).
Proof.
  intros Hwf. destruct (well_formed_metadata_dict md Hwf) as [d ->].
  rewrite _set_span_tags_unfold.
  apply tagging_seq with (P1 := only_tags) (P2 := only_tags);
    auto using only_tags_compose.
  - apply tagging_set_tag, only_tags_with_tag.
  - apply tagging_for_each; auto using only_tags_id, only_tags_compose.
    apply Forall_forall. intros tag _. apply tag_step_tagging.
    + intros e He. discriminate.
    + intros val sub e Hval Hempty Htag He. apply String.eqb_eq in Htag. subst tag.
      simpl in Hval, Hwf. injection Hval as <-.
      destruct (default VNone (dict_get d "delivery_info")); try discriminate;
        simpl in Hempty; congruence.
Qed.

(** What a run of [_set_span_tags] comes to. *)
Lemma _set_span_tags_run (n : nat) (md : pyval) (w : world) :
  ∃ r f, _set_span_tags (Some n) md w = (r, retag n f w) ∧ only_tags f
         ∧ (r = Ok tt ∨ r = Raise AttributeError)
         ∧ (well_formed_metadata md = true -> r = Ok tt).
Proof.
  destruct (_set_span_tags_tagging n md w) as (r & f & Hrun & Hf & Hr).
  exists r, f. split; [exact Hrun|]. split; [exact Hf|]. split.
  - destruct r as [[]|e]; [left; reflexivity | right; congruence].
  - intros Hwf. destruct (_set_span_tags_ok n md Hwf w) as (r' & f' & Hrun' & _ & Hr').
    rewrite Hrun in Hrun'. injection Hrun' as -> _. destruct r' as [[]|e]; [reflexivity|].
    destruct Hr'.
Qed.

(** *** The destination tag *)

Lemma sets_destination_id : sets_destination None id.
Proof. intros s. reflexivity. Qed.

Lemma sets_destination_compose (o1 o2 : option pyval) (f g : span -> span) :
  sets_destination o1 f -> sets_destination o2 g ->
  sets_destination (later o1 o2) (g ∘ f).
Proof.
  intros Hf Hg s. simpl. rewrite Hg. destruct o2; simpl; [reflexivity | apply Hf].
Qed.

Lemma sets_destination_other (k : string) (v : pyval) :
  k ≠ MESSAGE_BUS_DESTINATION -> sets_destination None (with_tag k v).
Proof. intros Hk s. simpl. apply lookup_insert_ne, Hk. Qed.

Lemma sets_destination_write (v : pyval) :
  sets_destination (Some v) (with_tag MESSAGE_BUS_DESTINATION v).
Proof. intros s. simpl. apply lookup_insert_eq. Qed.

Lemma tagging_then (n : nat) (o1 o2 : option pyval) (m k : M unit) :
  tagging n (sets_destination o1) no_exn m ->
  tagging n (sets_destination o2) no_exn k ->
  tagging n (sets_destination (later o1 o2)) no_exn (m;; k).
Proof.
  intros Hm Hk. eapply tagging_seq; eauto using sets_destination_compose.
  intros f e _ [].
Qed.

Lemma tagging_keeps_for_each {A} (n : nat) (l : list A) (body : A -> M unit) :
  Forall (fun x => tagging n (sets_destination None) no_exn (body x)) l ->
  tagging n (sets_destination None) no_exn (for_each l body).
Proof.
  intros Hl. apply tagging_for_each; auto using sets_destination_id.
  intros f g Hf Hg. apply (sets_destination_compose None None); assumption.
Qed.

Lemma subtag_step_destination (n : nat) (di : list (string * pyval))
    (subtag : string) :
  tagging n
    (sets_destination
       (if present (dict_field di subtag)
           && str_in subtag ["exchange"; "routing_key"; "queue"]
        then Some (dict_field di subtag) else None))
    no_exn (subtag_step (Some n) (VDict di) subtag).
Proof.
  unfold subtag_step. apply tagging_lift; [|discriminate].
  intros subval [= <-]. fold (dict_field di subtag). unfold present.
  destruct (in_none_or_blank (dict_field di subtag)); cbn [negb andb].
  - apply tagging_ret, sets_destination_id.
  - destruct (str_in subtag ["exchange"; "routing_key"; "queue"]).
    + apply (tagging_then n None (Some (dict_field di subtag))).
      * apply tagging_set_tag, sets_destination_other. discriminate.
      * apply tagging_set_tag, sets_destination_write.
    + apply (tagging_then n None None).
      * apply tagging_set_tag, sets_destination_other. discriminate.
      * apply tagging_ret, sets_destination_id.
Qed.

Lemma subtags_destination (n : nat) (di : list (string * pyval)) :
  tagging n (sets_destination (preferred_destination di)) no_exn
    (for_each subtag_names (subtag_step (Some n) (VDict di))).
Proof.
  pose proof (subtag_step_destination n di "exchange") as Hex.
  pose proof (subtag_step_destination n di "priority") as Hpr.
  pose proof (subtag_step_destination n di "redelivered") as Hre.
  pose proof (subtag_step_destination n di "routing_key") as Hrk.
  pose proof (subtag_step_destination n di "queue") as Hqu.
  pose proof (tagging_ret n no_exn _ sets_destination_id) as Hend.
  pose proof (tagging_then _ _ _ _ _ Hex
               (tagging_then _ _ _ _ _ Hpr
                 (tagging_then _ _ _ _ _ Hre
                   (tagging_then _ _ _ _ _ Hrk
                     (tagging_then _ _ _ _ _ Hqu Hend))))) as H.
  eapply tagging_weaken; [| |exact H]; [|auto].
  intros f Hf. unfold preferred_destination.
  cbn [str_in existsb String.eqb Ascii.eqb Bool.eqb andb orb] in Hf.
  rewrite !andb_true_r, !andb_false_r in Hf. unfold later in Hf.
  destruct (present (dict_field di "queue")),
           (present (dict_field di "routing_key")),
           (present (dict_field di "exchange")); exact Hf.
Qed.

Lemma tag_step_keeps_destination (n : nat) (d : list (string * pyval))
    (tag : string) :
  String.eqb tag "delivery_info" = false ->
  tagging n (sets_destination None) no_exn (tag_step (Some n) (VDict d) tag).
Proof.
  intros Htag. unfold tag_step. apply tagging_lift; [|discriminate].
  intros val _. rewrite Htag.
  destruct (in_empty_values val); cbn [negb].
  - apply tagging_ret, sets_destination_id.
  - apply tagging_set_tag, sets_destination_other. discriminate.
Qed.

Lemma tag_step_delivery_info (n : nat) (d di : list (string * pyval)) :
  dict_get d "delivery_info" = Some (VDict di) ->
  tagging n (sets_destination (preferred_destination di)) no_exn
    (tag_step (Some n) (VDict d) "delivery_info").
Proof.
  intros Hdi. unfold tag_step. apply tagging_lift; [|discriminate].
  intros val [= <-]. rewrite Hdi. apply subtags_destination.
Qed.

Lemma _set_span_tags_destination (n : nat) (d di : list (string * pyval)) :
  dict_get d "delivery_info" = Some (VDict di) ->
  tagging n (sets_destination (preferred_destination di)) no_exn
    (_set_span_tags (Some n) (VDict d)).
Proof.
  intros Hdi. rewrite _set_span_tags_unfold.
  assert (Hcomponent : tagging n (sets_destination None) no_exn
                         (set_tag (Some n) COMPONENT (VStr "celery"))).
  { apply tagging_set_tag, sets_destination_other. discriminate. }
  assert (Hcountdown : tagging n (sets_destination None) no_exn
                         (tag_step (Some n) (VDict d) "countdown")).
  { apply tag_step_keeps_destination. reflexivity. }
  assert (Hrest : tagging n (sets_destination None) no_exn
                    (for_each ["eta"; "expires"; "group"; "hostname"; "origin";
                               "retries"; "timelimit"]
                       (tag_step (Some n) (VDict d)))).
  { apply tagging_keeps_for_each.
    repeat constructor; apply tag_step_keeps_destination; reflexivity. }
  pose proof (tagging_then _ _ _ _ _ Hcomponent
               (tagging_then _ _ _ _ _ Hcountdown
                 (tagging_then _ _ _ _ _ (tag_step_delivery_info n d di Hdi) Hrest)))
    as H.
  eapply tagging_weaken; [| |exact H]; [|auto].
  intros f Hf. unfold later in Hf.
  destruct (preferred_destination di); exact Hf.
Qed.

(** C7. Tag extraction on a metadata mapping whose [delivery_info] is a
    mapping runs through and leaves the message-destination tag of the
    span at the queue name if that is present, else at the routing key if
    present, else at the exchange; with none of the three present the tag
    stays as it was. *)
Theorem destination_tag_prefers_queue (n : nat) (w : world)
    (d di : list (string * pyval)) :
  is_Some (w_spans w !! n) ->
  dict_get d "delivery_info" = Some (VDict di) ->
  ∃ w', _set_span_tags (Some n) (VDict d) w = (Ok tt, w')
        ∧ span_tag w' n MESSAGE_BUS_DESTINATION
          = match preferred_destination di with
            | Some v => Some v
            | None => span_tag w n MESSAGE_BUS_DESTINATION
            end.
Proof.
  intros [s Hs] Hdi.
  destruct (_set_span_tags_destination n d di Hdi w) as (r & f & Hrun & Hf & Hr).
  destruct r as [[]|e]; [|destruct Hr].
  exists (retag n f w). split; [exact Hrun|].
  unfold span_tag, retag. simpl. rewrite list_lookup_alter_eq, Hs. simpl.
  apply Hf.
Qed.

(** The instance of the spec: queue [q1], routing key [r1] and exchange
    [e1] give destination [q1]. *)
Lemma destination_tag_prefers_queue_witness :
  ∃ w', _set_span_tags (Some 0)
          (VDict [("delivery_info",
                   VDict [("queue", VStr "q1"); ("routing_key", VStr "r1");
                          ("exchange", VStr "e1")])]) Sample.running
        = (Ok tt, w')
        ∧ span_tag w' 0 MESSAGE_BUS_DESTINATION = Some (VStr "q1").
Proof.
  apply (destination_tag_prefers_queue 0 Sample.running
           [("delivery_info",
             VDict [("queue", VStr "q1"); ("routing_key", VStr "r1");
                    ("exchange", VStr "e1")])]
           [("queue", VStr "q1"); ("routing_key", VStr "r1"); ("exchange", VStr "e1")]).
  - vm_compute. eauto.
  - reflexivity.
Defined.

(** *** End events: retrieve, remove, close or finish *)

Lemma close_or_finish_no_scope (sp : option nat) (w : world) :
  w_scopes w = [] -> close_or_finish sp w = (Raise AttributeError, w).
Proof.
  intros H. unfold close_or_finish. rewrite bind_run.
  unfold scope_manager_active. rewrite H. reflexivity.
Qed.

Lemma close_or_finish_owner (a : nat) (rest : list nat) (w : world) :
  w_scopes w = a :: rest ->
  close_or_finish (Some a) w
  = (Ok tt, update_spans (alter with_finish a) (update_scopes (drop 1) w)).
Proof.
  intros H. unfold close_or_finish. rewrite bind_run.
  unfold scope_manager_active. rewrite H. simpl. rewrite bind_run. simpl.
  rewrite bool_decide_eq_true_2 by reflexivity. reflexivity.
Qed.

Lemma close_or_finish_leak (a n : nat) (rest : list nat) (w : world) :
  w_scopes w = a :: rest -> a ≠ n ->
  close_or_finish (Some n) w
  = (Ok tt, add_warning (a, Some n) (update_spans (alter with_finish n) w)).
Proof.
  intros H Hne. unfold close_or_finish. rewrite bind_run.
  unfold scope_manager_active. rewrite H. simpl. rewrite bind_run. simpl.
  rewrite bool_decide_eq_false_2 by congruence. reflexivity.
Qed.

Lemma close_or_finish_tables (sp : option nat) (w : world) :
  w_tables (snd (close_or_finish sp w)) = w_tables w.
Proof.
  destruct (w_scopes w) as [|a rest] eqn:H.
  - rewrite close_or_finish_no_scope by assumption. reflexivity.
  - destruct sp as [n|].
    + destruct (decide (a = n)) as [->|Hne].
      * erewrite close_or_finish_owner by eassumption. reflexivity.
      * erewrite close_or_finish_leak by eassumption. reflexivity.
    + unfold close_or_finish. rewrite bind_run.
      unfold scope_manager_active. rewrite H. reflexivity.
Qed.

(** An end event on a local task whose span is in the side-table comes
    down to the shared tail, run after the entry is removed. *)
Lemma end_event_run (self : CeleryTracing) (sig : signal) (kw : kwargs)
    (w : world) (t : task) (spans : gmap string nat) (key : string) (sp : nat) :
  end_key sig kw = Some key ->
  resolved_task self sig kw = Some t -> _is_local self (Some t) = true ->
  w_tables w !! task_ref t = Some spans -> spans !! key = Some sp ->
  handler self sig kw w
  = close_or_finish (Some sp) (update_tables <[task_ref t := delete key spans]> w).
Proof.
  intros Hkey Ht Hlocal Htable Hsp.
  assert (Hget : _get_span (Some t) (VStr key) true w
                 = (Ok (Some sp), update_tables <[task_ref t := delete key spans]> w)).
  { destruct (_get_span_table w (Some t) (VStr key) true spans Htable)
      as (tk & [= <-] & ->).
    unfold spans_pop. simpl. rewrite Hsp. reflexivity. }
  destruct sig; simpl in Hkey, Ht; try discriminate.
  - simpl. rewrite _postpublish_unfold. cbv zeta. rewrite Ht, Hlocal. cbn [negb].
    destruct (publish_task_id kw) as [task_id|e] eqn:Hid; [|discriminate].
    injection Hkey as <-. rewrite bind_run. unfold lift at 1.
    rewrite (bind_ok _ _ _ _ _ Hget). reflexivity.
  - simpl. rewrite _finish_span_unfold. cbv zeta. rewrite Ht, Hlocal. cbn [negb].
    destruct (kw_task_id kw) as [[k|]|]; simpl in Hkey; try discriminate.
    injection Hkey as ->. simpl. rewrite (bind_ok _ _ _ _ _ Hget). reflexivity.
Qed.

(** With an active scope the two branches do what the spec says. *)
Lemma end_event_closes_own_scope (self : CeleryTracing) (sig : signal)
    (kw : kwargs) (w : world) (t : task) (spans : gmap string nat) (key : string)
    (sp : nat) (rest : list nat) :
  end_key sig kw = Some key ->
  resolved_task self sig kw = Some t -> _is_local self (Some t) = true ->
  w_tables w !! task_ref t = Some spans -> spans !! key = Some sp ->
  w_scopes w = sp :: rest ->
  handler self sig kw w
  = (Ok tt, update_spans (alter with_finish sp)
              (update_scopes (drop 1)
                 (update_tables <[task_ref t := delete key spans]> w))).
Proof.
  intros Hkey Ht Hlocal Htable Hsp Hscopes.
  rewrite (end_event_run _ _ _ _ _ _ _ _ Hkey Ht Hlocal Htable Hsp).
  apply close_or_finish_owner with (rest := rest). exact Hscopes.
Qed.

Lemma end_event_finishes_and_warns (self : CeleryTracing) (sig : signal)
    (kw : kwargs) (w : world) (t : task) (spans : gmap string nat) (key : string)
    (sp a : nat) (rest : list nat) :
  end_key sig kw = Some key ->
  resolved_task self sig kw = Some t -> _is_local self (Some t) = true ->
  w_tables w !! task_ref t = Some spans -> spans !! key = Some sp ->
  w_scopes w = a :: rest -> a ≠ sp ->
  handler self sig kw w
  = (Ok tt, add_warning (a, Some sp)
              (update_spans (alter with_finish sp)
                 (update_tables <[task_ref t := delete key spans]> w))).
Proof.
  intros Hkey Ht Hlocal Htable Hsp Hscopes Hne.
  rewrite (end_event_run _ _ _ _ _ _ _ _ Hkey Ht Hlocal Htable Hsp).
  apply close_or_finish_leak with (rest := rest); assumption.
Qed.

(** C2. The claim fails when no scope is active: on [after_task_publish]
    and on [task_postrun] for a local task whose span is in the
    side-table, with an empty scope stack the handler removes the entry
    and then raises on [active_scope.span]; the span is not finished and
    no warning is logged. *)
Theorem end_event_without_active_scope_raises (self : CeleryTracing)
    (sig : signal) (kw : kwargs) (w : world) (t : task)
    (spans : gmap string nat) (key : string) (sp : nat) :
  end_key sig kw = Some key ->
  resolved_task self sig kw = Some t -> _is_local self (Some t) = true ->
  w_tables w !! task_ref t = Some spans -> spans !! key = Some sp ->
  w_scopes w = [] ->
  handler self sig kw w
  = (Raise AttributeError, update_tables <[task_ref t := delete key spans]> w).
Proof.
  intros Hkey Ht Hlocal Htable Hsp Hscopes.
  rewrite (end_event_run _ _ _ _ _ _ _ _ Hkey Ht Hlocal Htable Hsp).
  apply close_or_finish_no_scope. exact Hscopes.
Qed.

Lemma end_event_without_active_scope_raises_witness :
  _finish_span Sample.app (Sample.run Sample.add "abc") Sample.disturbed
  = (Raise AttributeError,
     update_tables <[1 := delete "abc" {[ "abc" := 0 ]}]> Sample.disturbed).
Proof.
  apply (end_event_without_active_scope_raises Sample.app task_postrun
           (Sample.run Sample.add "abc") Sample.disturbed Sample.add
           {[ "abc" := 0 ]} "abc" 0); reflexivity.
Defined.

(** C8. After a postrun for a local task has retrieved and removed the
    span stored under a task id, a second postrun with the same task and
    id raises [KeyError]; this holds however the first postrun ended. *)
Theorem second_postrun_raises_key_error (self : CeleryTracing) (kw : kwargs)
    (w : world) (t : task) (spans : gmap string nat) (key : string) (sp : nat) :
  as_task (kw_sender kw) = Some t -> _is_local self (Some t) = true ->
  kw_task_id kw = Some (Some key) ->
  w_tables w !! task_ref t = Some spans -> spans !! key = Some sp ->
  let w1 := snd (_finish_span self kw w) in
  side_table w1 (Some t) = Some (delete key spans)
  ∧ _finish_span self kw w1 = (Raise KeyError, w1).
Proof.
  intros Ht Hlocal Hid Htable Hsp w1.
  assert (Hkey : end_key task_postrun kw = Some key) by (simpl; rewrite Hid; reflexivity).
  assert (Hw1 : side_table w1 (Some t) = Some (delete key spans)).
  { unfold w1. change (_finish_span self kw) with (handler self task_postrun kw).
    rewrite (end_event_run self task_postrun kw w t spans key sp Hkey Ht Hlocal Htable Hsp).
    unfold side_table. simpl. rewrite close_or_finish_tables. simpl.
    apply lookup_insert_eq. }
  split; [exact Hw1|].
  rewrite _finish_span_unfold. cbv zeta. rewrite Ht, Hlocal, Hid. cbn [negb].
  destruct (_get_span_table w1 (Some t) (VStr key) true _ Hw1) as (tk & _ & Hget).
  unfold spans_pop in Hget. simpl in Hget. rewrite lookup_delete_eq in Hget.
  simpl. rewrite (bind_raise _ _ _ _ _ Hget). reflexivity.
Qed.

Lemma second_postrun_raises_key_error_witness :
  let w1 := snd (_finish_span Sample.app (Sample.run Sample.add "abc") Sample.running) in
  side_table w1 (Some Sample.add) = Some (delete "abc" {[ "abc" := 0 ]})
  ∧ _finish_span Sample.app (Sample.run Sample.add "abc") w1 = (Raise KeyError, w1).
Proof.
  apply (second_postrun_raises_key_error Sample.app (Sample.run Sample.add "abc")
           Sample.running Sample.add {[ "abc" := 0 ]} "abc" 0); reflexivity.
Defined.

(** *** Start events *)

Lemma _prepublish_unfold (self : CeleryTracing) (kw : kwargs) :
  _prepublish self kw =
  let t := tasks_get self (kw_sender kw) in
  if negb (_is_local self t) then ret tt else
  nm ← task_name t;
  scope ← start_active_span ("publish " +:+ nm) None false (_span_tags self);
  task_id ← lift (publish_task_id kw);
  if is_none task_id then raise RuntimeError
  else prepublish_tail self kw t scope task_id.
Proof. reflexivity. Qed.

Lemma _start_span_unfold (self : CeleryTracing) (kw : kwargs) :
  _start_span self kw =
  let t := default (as_task (kw_sender kw)) (kw_task kw) in
  if negb (_is_local self t) then ret tt else
  parent ←
    (if _propagate self then
       req ← task_request t;
       context ← lift (request_context req);
       if truthy context then
         p ← lift (extract (_tracer self) context); ret (Some p)
       else ret None
     else ret None);
  nm ← task_name t;
  scope ← start_active_span nm parent true (_span_tags self);
  req ← task_request t;
  match default (correlation_id req) (kw_task_id kw) with
  | None => raise RuntimeError
  | Some task_id => start_tail t scope task_id
  end.
Proof. reflexivity. Qed.

Lemma store_span_run (t : task) (key : string) (n : nat) (w : world) :
  store_span (Some t) key n w
  = (Ok tt, update_tables
              <[task_ref t := <[key := n]> (default ∅ (w_tables w !! task_ref t))]> w).
Proof.
  unfold store_span, hasattr_spans, spans_setitem, spans_of. run_monad.
  cbn [option_bind].
  destruct (w_tables w !! task_ref t) as [spans|] eqn:Htable.
  - rewrite bool_decide_eq_true_2 by eauto. simpl. rewrite Htable. reflexivity.
  - rewrite bool_decide_eq_false_2 by apply is_Some_None. simpl.
    rewrite lookup_insert_eq. unfold update_tables. simpl.
    rewrite insert_insert_eq. reflexivity.
Qed.

Lemma start_active_span_ambient (nm : string) (span_tags : gmap string pyval)
    (w : world) :
  start_active_span nm None false span_tags w
  = (Ok (length (w_spans w)),
     started {| operation_name := nm; parent := ContextOf <$> head (w_scopes w);
                tags := span_tags; logs := []; finished := false |} w).
Proof. unfold start_active_span, started. destruct (w_scopes w); reflexivity. Qed.

Lemma start_active_span_explicit (nm : string) (p : option span_context)
    (span_tags : gmap string pyval) (w : world) :
  start_active_span nm p true span_tags w
  = (Ok (length (w_spans w)),
     started {| operation_name := nm; parent := p; tags := span_tags; logs := [];
                finished := false |} w).
Proof. unfold start_active_span, started. destruct p; reflexivity. Qed.

(** [_prepublish] on a local task, up to the check of the id. *)
Lemma _prepublish_local (self : CeleryTracing) (kw : kwargs) (w : world) (t : task) :
  tasks_get self (kw_sender kw) = Some t -> _is_local self (Some t) = true ->
  _prepublish self kw w
  = match publish_task_id kw with
    | Ok task_id =>
        if is_none task_id then (Raise RuntimeError, started (publish_span self t w) w)
        else prepublish_tail self kw (Some t) (length (w_spans w)) task_id
               (started (publish_span self t w) w)
    | Raise e => (Raise e, started (publish_span self t w) w)
    end.
Proof.
  intros Ht Hlocal. rewrite _prepublish_unfold. cbv zeta. rewrite Ht, Hlocal.
  cbn [negb task_name]. rewrite bind_run. cbn [ret].
  rewrite (bind_ok _ _ _ _ _ (start_active_span_ambient _ _ w)).
  rewrite bind_run. unfold lift at 1.
  destruct (publish_task_id kw) as [task_id|e]; [|reflexivity].
  destruct (is_none task_id); reflexivity.
Qed.

(** C9. On [before_task_publish] for a local task the span is started
    and made the active scope before the id is looked at: when neither
    headers nor body give an id, the handler ends with [RuntimeError] in
    a world that has one more span, not finished, at the top of the scope
    stack, while the side-tables are as they were; the world is not the
    one the handler started in. *)
Theorem prepublish_without_id_leaves_span_active (self : CeleryTracing)
    (kw : kwargs) (w : world) (t : task) :
  tasks_get self (kw_sender kw) = Some t -> _is_local self (Some t) = true ->
  publish_task_id kw = Ok VNone ->
  let n := length (w_spans w) in
  let w' := started (publish_span self t w) w in
  _prepublish self kw w = (Raise RuntimeError, w')
  ∧ w_spans w' = w_spans w ++ [publish_span self t w]
  ∧ finished (publish_span self t w) = false
  ∧ w_scopes w' = n :: w_scopes w
  ∧ w_tables w' = w_tables w
  ∧ w' ≠ w.
Proof.
  intros Ht Hlocal Hid n w'.
  rewrite (_prepublish_local self kw w t Ht Hlocal), Hid. cbn [is_none].
  repeat split.
  intros Heq. apply (f_equal (fun x => length (w_scopes x))) in Heq.
  unfold w', started in Heq. simpl in Heq. lia.
Qed.

Lemma prepublish_without_id_leaves_span_active_witness :
  let kw := Sample.publish "add" (Some (VDict [])) (Some (VDict [])) in
  let w' := started (publish_span Sample.app Sample.add Sample.fresh) Sample.fresh in
  _prepublish Sample.app kw Sample.fresh = (Raise RuntimeError, w')
  ∧ w_spans w' = [publish_span Sample.app Sample.add Sample.fresh]
  ∧ finished (publish_span Sample.app Sample.add Sample.fresh) = false
  ∧ w_scopes w' = [0]
  ∧ w_tables w' = ∅
  ∧ w' ≠ Sample.fresh.
Proof.
  apply (prepublish_without_id_leaves_span_active Sample.app
           (Sample.publish "add" (Some (VDict [])) (Some (VDict [])))
           Sample.fresh Sample.add); reflexivity.
Defined.

(** *** Steps that do not raise [RuntimeError] *)

Section Never.
Context (e : exn).

Lemma never_ret {A} (a : A) : never_raises e (ret a).
Proof. intros w. discriminate. Qed.

Lemma never_modify (f : world -> world) : never_raises e (modify f).
Proof. intros w. discriminate. Qed.

Lemma never_raise {A} (e' : exn) : e' ≠ e -> never_raises e (@raise A e').
Proof. intros H w. simpl. congruence. Qed.

Lemma never_lift {A} (r : result A) : r ≠ Raise e -> never_raises e (lift r).
Proof. intros H w. exact H. Qed.

Lemma never_bind {A B} (m : M A) (k : A -> M B) :
  never_raises e m -> (∀ a, never_raises e (k a)) -> never_raises e (m ≫= k).
Proof.
  intros Hm Hk w. rewrite bind_run. specialize (Hm w).
  destruct (m w) as [[a|e'] w']; [apply Hk|].
  simpl in *. congruence.
Qed.

Lemma never_on_span (f : span -> span) (sp : option nat) :
  e ≠ AttributeError -> never_raises e (on_span f sp).
Proof.
  intros H. destruct sp; [apply never_modify | apply never_raise; congruence].
Qed.

Lemma never_set_span_tags (n : nat) (md : pyval) :
  e ≠ AttributeError -> never_raises e (_set_span_tags (Some n) md).
Proof.
  intros H w. destruct (_set_span_tags_run n md w) as (r & f & -> & _ & [-> | ->] & _);
    simpl; congruence.
Qed.

Lemma never_store_span (t : task) (key : string) (n : nat) :
  never_raises e (store_span (Some t) key n).
Proof. intros w. rewrite store_span_run. discriminate. Qed.
End Never.

Lemma py_index_raise (v : pyval) (i : nat) : py_index v i ≠ Raise RuntimeError.
Proof. destruct v; simpl; try discriminate; destruct (l !! i); discriminate. Qed.

Lemma py_setitem_raise (m : pyval) (k : string) (v : pyval) :
  py_setitem m k v ≠ Raise RuntimeError.
Proof. destruct m; discriminate. Qed.

Lemma prepublish_tail_never_runtime_error (self : CeleryTracing) (kw : kwargs)
    (t : task) (n : nat) (task_id : pyval) :
  never_raises RuntimeError (prepublish_tail self kw (Some t) n task_id).
Proof.
  unfold prepublish_tail. cbv zeta.
  apply never_bind; [apply never_on_span; discriminate | intros _].
  apply never_bind; [apply never_ret | intros req].
  apply never_bind; [apply never_set_span_tags; discriminate | intros _].
  apply never_bind.
  { destruct (isinstance_tuple _); [apply never_lift, py_index_raise | apply never_ret]. }
  intros body.
  apply never_bind; [apply never_set_span_tags; discriminate | intros _].
  apply never_bind; [|intros _; apply never_store_span].
  destruct (negb _); [|apply never_ret].
  apply never_bind; [apply never_set_span_tags; discriminate | intros _].
  destruct (_propagate self); [|apply never_ret].
  apply never_bind; [apply never_lift, py_setitem_raise | intros h].
  apply never_bind; [apply never_modify | intros _].
  apply never_bind; [apply never_lift, py_setitem_raise | intros h'].
  apply never_modify.
Qed.

(** C4. On [before_task_publish] for a local task, with headers (and,
    when the headers give no id, a body) that are mappings whose id field
    is [None] or a non-empty string: the handler ends with [RuntimeError]
    exactly when neither the headers nor the body give an id. *)
Theorem prepublish_runtime_error_iff_no_id (self : CeleryTracing) (kw : kwargs)
    (w : world) (t : task) (hid bid : pyval) :
  tasks_get self (kw_sender kw) = Some t -> _is_local self (Some t) = true ->
  py_get (default (VDict []) (kw_headers kw)) "id" = Ok hid -> id_or_none hid ->
  (hid = VNone ->
   py_get (default (VDict []) (kw_body kw)) "id" = Ok bid ∧ id_or_none bid) ->
  fst (_prepublish self kw w) = Raise RuntimeError <-> hid = VNone ∧ bid = VNone.
Proof.
  intros Ht Hlocal Hh Hhid Hbody.
  rewrite (_prepublish_local self kw w t Ht Hlocal).
  unfold publish_task_id. rewrite Hh.
  destruct Hhid as [-> | (s & -> & Hs)].
  - destruct (Hbody eq_refl) as [Hb [-> | (s & -> & Hs)]]; unfold py_or; simpl; rewrite Hb.
    + simpl. split; auto.
    + simpl. split; [|intros [_ [=]]].
      intros H. exfalso. revert H. apply prepublish_tail_never_runtime_error.
  - unfold py_or. simpl.
    rewrite (proj2 (String.eqb_neq s "") Hs). simpl. split; [|intros [[=] _]].
    intros H. exfalso. revert H. apply prepublish_tail_never_runtime_error.
Qed.

Lemma prepublish_runtime_error_iff_no_id_witness :
  (fst (_prepublish Sample.app
          (Sample.publish "add" (Some (VDict [])) (Some (VDict []))) Sample.fresh)
   = Raise RuntimeError <-> VNone = VNone ∧ VNone = VNone)
  ∧ (fst (_prepublish Sample.app
            (Sample.publish "add" (Some (VDict [("id", VStr "abc")]))
               (Some (VTuple [VList []; VDict []; VDict []]))) Sample.fresh)
     = Raise RuntimeError <-> VStr "abc" = VNone ∧ VNone = VNone).
Proof.
  split.
  - apply (prepublish_runtime_error_iff_no_id Sample.app _ Sample.fresh Sample.add);
      try reflexivity; [left; reflexivity | intros _; split; [reflexivity | left; reflexivity]].
  - apply (prepublish_runtime_error_iff_no_id Sample.app _ Sample.fresh Sample.add);
      try reflexivity; [right; exists "abc"; split; [reflexivity | discriminate] | discriminate].
Defined.

(** *** The span of a run *)

Lemma request_context_direct (r : Context) (v : pyval) :
  dict_get (request_attrs r) context_headers = Some v -> truthy v = true ->
  request_context r = Ok v.
Proof. intros H Hv. unfold request_context, py_or. rewrite H. simpl. rewrite Hv. reflexivity. Qed.

(** [_start_span] on a local task, up to the check of the id. *)
Lemma _start_span_local (self : CeleryTracing) (kw : kwargs) (w : world) (t : task) :
  default (as_task (kw_sender kw)) (kw_task kw) = Some t ->
  _is_local self (Some t) = true ->
  _start_span self kw w
  = match run_parent self (request t) with
    | Ok p =>
        match default (correlation_id (request t)) (kw_task_id kw) with
        | Some task_id =>
            start_tail (Some t) (length (w_spans w)) task_id
              (started (run_span self t p) w)
        | None => (Raise RuntimeError, started (run_span self t p) w)
        end
    | Raise e => (Raise e, w)
    end.
Proof.
  intros Ht Hlocal. rewrite _start_span_unfold. cbv zeta. rewrite Ht, Hlocal.
  cbn [negb task_name task_request]. unfold run_parent.
  assert (Hrest : ∀ p,
    (nm ← ret (name t);
     scope ← start_active_span nm p true (_span_tags self);
     req ← ret (request t);
     match default (correlation_id req) (kw_task_id kw) with
     | Some task_id => start_tail (Some t) scope task_id
     | None => raise RuntimeError
     end) w
    = match default (correlation_id (request t)) (kw_task_id kw) with
      | Some task_id =>
          start_tail (Some t) (length (w_spans w)) task_id
            (started (run_span self t p) w)
      | None => (Raise RuntimeError, started (run_span self t p) w)
      end).
  { intros p. rewrite bind_run. cbn [ret].
    rewrite (bind_ok _ _ _ _ _ (start_active_span_explicit _ _ _ w)).
    rewrite bind_run. cbn [ret].
    destruct (default (correlation_id (request t)) (kw_task_id kw)); reflexivity. }
  rewrite bind_run. destruct (_propagate self).
  - rewrite bind_run. cbn [ret]. rewrite bind_run. unfold lift at 1.
    destruct (request_context (request t)) as [c|e]; [|reflexivity].
    destruct (truthy c).
    + rewrite bind_run. unfold lift at 1.
      destruct (extract (_tracer self) c) as [p|e]; [|reflexivity].
      cbn [ret]. apply Hrest.
    + cbn [ret]. apply Hrest.
  - cbn [ret]. apply Hrest.
Qed.

Lemma start_tail_run (t : task) (n : nat) (task_id : string) (w : world) :
  well_formed_metadata (request_mapping (request t)) = true ->
  ∃ f, only_tags f
       ∧ start_tail (Some t) n task_id w
         = (Ok tt,
            update_tables
              <[task_ref t := <[task_id := n]> (default ∅ (w_tables w !! task_ref t))]>
              (retag n f w)).
Proof.
  intros Hwf. unfold start_tail. cbv zeta.
  destruct (_set_span_tags_run n (request_mapping (request t))
              (retag n (with_tag "celery.task.id" (VStr task_id)) w))
    as (r & f & Hrun & Hf & _ & Hok).
  rewrite (Hok Hwf) in Hrun. rewrite retag_retag in Hrun.
  exists (f ∘ with_tag "celery.task.id" (VStr task_id)). split.
  { apply only_tags_compose; [apply only_tags_with_tag | exact Hf]. }
  rewrite bind_run. cbn [set_tag on_span modify]. rewrite bind_run.
  cbn [task_request ret]. rewrite (bind_ok _ _ _ _ _ Hrun).
  rewrite store_span_run. reflexivity.
Qed.

(** Whatever its outcome, the tail of [_start_span] only tags the span
    it was given. *)
Lemma start_tail_spans (t : task) (n : nat) (task_id : string) (w : world) :
  ∃ f, only_tags f
       ∧ w_spans (snd (start_tail (Some t) n task_id w)) = alter f n (w_spans w).
Proof.
  unfold start_tail. cbv zeta.
  destruct (_set_span_tags_run n (request_mapping (request t))
              (retag n (with_tag "celery.task.id" (VStr task_id)) w))
    as (r & f & Hrun & Hf & _ & _).
  rewrite retag_retag in Hrun.
  exists (f ∘ with_tag "celery.task.id" (VStr task_id)). split.
  { apply only_tags_compose; [apply only_tags_with_tag | exact Hf]. }
  rewrite bind_run. cbn [set_tag on_span modify]. rewrite bind_run.
  cbn [task_request ret]. destruct r as [[]|e].
  - rewrite (bind_ok _ _ _ _ _ Hrun), store_span_run. reflexivity.
  - rewrite (bind_raise _ _ _ _ _ Hrun). reflexivity.
Qed.

(** The span of a run that [_start_span] starts with the parent it has
    worked out. *)
Lemma run_span_started (self : CeleryTracing) (kw : kwargs) (w : world) (t : task)
    (p : option span_context) :
  default (as_task (kw_sender kw)) (kw_task kw) = Some t ->
  _is_local self (Some t) = true ->
  run_parent self (request t) = Ok p ->
  starts_run_span self kw w t p.
Proof.
  intros Ht Hlocal Hparent. unfold starts_run_span. cbv zeta.
  set (n := length (w_spans w)).
  rewrite (_start_span_local self kw w t Ht Hlocal), Hparent.
  set (s := run_span self t p).
  assert (Hs : ∀ f, only_tags f ->
                    parent <$> alter f n (w_spans (started s w)) !! n = Some p).
  { intros f Hf. simpl. rewrite list_lookup_alter_eq.
    rewrite (list_lookup_middle (w_spans w) [] s n eq_refl). simpl.
    f_equal. apply Hf. }
  assert (Hlen : ∀ f, length (alter f n (w_spans (started s w))) = S n).
  { intros f. simpl. rewrite length_alter, length_app. simpl. unfold n. lia. }
  destruct (default (correlation_id (request t)) (kw_task_id kw)) as [task_id|].
  - fold n. destruct (start_tail_spans t n task_id (started s w)) as (f & Hf & Hspans).
    destruct (start_tail (Some t) n task_id (started s w)) as [r w'] eqn:Hrun.
    simpl in Hspans. exists r, w'. split; [reflexivity|].
    rewrite Hspans. split; [apply Hlen|]. split; [apply Hs, Hf|].
    intros task_id' [= <-] Hwf.
    destruct (start_tail_run t n task_id (started s w) Hwf) as (g & _ & Hok).
    rewrite Hrun in Hok. injection Hok as -> ->. split; [reflexivity|].
    unfold side_table. simpl. rewrite lookup_insert_eq. reflexivity.
  - eexists _, _. split; [reflexivity|].
    rewrite <- (list_alter_id id (w_spans (started s w)) n) by reflexivity.
    split; [apply Hlen|]. split; [apply Hs, only_tags_id|]. discriminate.
Qed.

(** C1. On [task_prerun] for a local task with propagation enabled the
    handler reads [getattr(request, context_headers, None)] and, when
    that is no payload, [request.headers.get(context_headers)]. A payload
    found as the direct attribute, or else under the reserved key of
    request headers that are a mapping, gives the parent: the span that
    is started has the context extracted from it as parent, and has no
    parent when the headers are a mapping without payload, whatever span
    is active; it is stored under the plain task id once the id resolves.
    When there is no direct payload and the request has no [headers]
    mapping ([headers] is [None] or missing), the claim would have a span
    without parent started and stored, but the handler ends with
    [AttributeError] before it starts any span and leaves the world as it
    was. *)
Theorem prerun_span_has_extracted_parent (self : CeleryTracing) (kw : kwargs)
    (w : world) (t : task) :
  default (as_task (kw_sender kw)) (kw_task kw) = Some t ->
  _is_local self (Some t) = true ->
  _propagate self = true ->
  let r := request t in
  (truthy (direct_payload r) = true ->
   ∀ pc, extract (_tracer self) (direct_payload r) = Ok pc ->
         starts_run_span self kw w t (Some pc))
  ∧ (truthy (direct_payload r) = false ->
     match header_payload r with
     | Some c =>
         if truthy c
         then ∀ pc, extract (_tracer self) c = Ok pc ->
                    starts_run_span self kw w t (Some pc)
         else starts_run_span self kw w t None
     | None => _start_span self kw w = (Raise AttributeError, w)
     end).
Proof.
  intros Ht Hlocal Hprop r. split.
  - intros Hdirect pc Hpc. apply (run_span_started self kw w t _ Ht Hlocal).
    assert (Hctx : request_context r = Ok (direct_payload r)).
    { unfold request_context, py_or. fold (direct_payload r).
      rewrite Hdirect. reflexivity. }
    unfold run_parent. rewrite Hprop. fold r. rewrite Hctx, Hdirect, Hpc. reflexivity.
  - intros Hdirect.
    assert (Hctx : request_context r
                   = match dict_get (request_attrs r) "headers" with
                     | Some h => py_get h context_headers
                     | None => Raise AttributeError
                     end).
    { unfold request_context, py_or, request_getattr.
      fold (direct_payload r). rewrite Hdirect.
      destruct (dict_get (request_attrs r) "headers"); reflexivity. }
    unfold header_payload.
    destruct (dict_get (request_attrs r) "headers") as [h|] eqn:Hh.
    + destruct h as [| | | | | |h];
        try (rewrite (_start_span_local self kw w t Ht Hlocal);
             unfold run_parent; rewrite Hprop; fold r; rewrite Hctx; reflexivity).
      cbn [py_get] in Hctx.
      destruct (truthy (default VNone (dict_get h context_headers))) eqn:Hc.
      * intros pc Hpc. apply (run_span_started self kw w t _ Ht Hlocal).
        unfold run_parent. rewrite Hprop. fold r. rewrite Hctx, Hc, Hpc. reflexivity.
      * apply (run_span_started self kw w t _ Ht Hlocal).
        unfold run_parent. rewrite Hprop. fold r. rewrite Hctx, Hc. reflexivity.
    + rewrite (_start_span_local self kw w t Ht Hlocal).
      unfold run_parent. rewrite Hprop. fold r. rewrite Hctx. reflexivity.
Qed.

(** A payload on the request, as a direct attribute or under the headers,
    gives the parent even with another span active in the worker; headers
    without payload give no parent; a request with [headers] set to
    [None] makes the handler raise. *)
Lemma prerun_span_has_extracted_parent_witness :
  starts_run_span Sample.app (Sample.run Sample.traced "xyz") Sample.running
    Sample.traced (Some (Remote [("span-id", VInt 5)]))
  ∧ starts_run_span Sample.app (Sample.run Scenario.forwarded "f1") Sample.running
      Scenario.forwarded (Some (Remote [("span-id", VInt 9)]))
  ∧ starts_run_span Sample.app (Sample.run Sample.add "def") Sample.running
      Sample.add None
  ∧ _start_span Sample.app (Sample.run Scenario.bare "b1") Sample.running
    = (Raise AttributeError, Sample.running).
Proof.
  split; [|split; [|split]].
  - apply (prerun_span_has_extracted_parent Sample.app (Sample.run Sample.traced "xyz")
             Sample.running Sample.traced eq_refl eq_refl eq_refl);
      reflexivity.
  - apply (proj2 (prerun_span_has_extracted_parent Sample.app
                    (Sample.run Scenario.forwarded "f1") Sample.running
                    Scenario.forwarded eq_refl eq_refl eq_refl) eq_refl).
    reflexivity.
  - apply (proj2 (prerun_span_has_extracted_parent Sample.app
                    (Sample.run Sample.add "def") Sample.running
                    Sample.add eq_refl eq_refl eq_refl) eq_refl).
  - apply (proj2 (prerun_span_has_extracted_parent Sample.app
                    (Sample.run Scenario.bare "b1") Sample.running
                    Scenario.bare eq_refl eq_refl eq_refl) eq_refl).
Defined.

(** *** The id of a publish *)

Lemma publish_task_id_headers (kw : kwargs) (hid : pyval) :
  py_get (default (VDict []) (kw_headers kw)) "id" = Ok hid -> truthy hid = true ->
  publish_task_id kw = Ok hid.
Proof. intros Hh Ht. unfold publish_task_id, py_or. rewrite Hh, Ht. reflexivity. Qed.

(** * Further properties of the handlers *)

(** *** Events that find no span *)

(** X1. A failure, retry, postrun or postpublish event for a local task
    that has no side-table at all (no start event was handled for it)
    ends with [AttributeError] and leaves the world as it was:
    [_get_span] returns [None] and the handler then calls a method on
    it. *)
Theorem event_without_side_table_raises (self : CeleryTracing) (sig : signal)
    (kw : kwargs) (w : world) (t : task) :
  resolved_task self sig kw = Some t -> _is_local self (Some t) = true ->
  side_table w (Some t) = None ->
  id_lookup_defined sig kw ->
  handler self sig kw w = (Raise AttributeError, w).
Proof.
  intros Ht Hlocal Htable Hid.
  assert (Hget : ∀ k r, _get_span (Some t) k r w = (Ok None, w)).
  { intros k r. apply _get_span_no_table, Htable. }
  assert (Htail : close_or_finish None w = (Raise AttributeError, w)).
  { destruct (w_scopes w) as [|a rest] eqn:Hs.
    - apply close_or_finish_no_scope, Hs.
    - unfold close_or_finish. rewrite bind_run. unfold scope_manager_active.
      rewrite Hs. reflexivity. }
  destruct sig; simpl in Ht, Hid; try contradiction; simpl.
  - rewrite _postpublish_unfold. cbv zeta. rewrite Ht, Hlocal. cbn [negb].
    destruct Hid as [v Hv]. rewrite bind_run. unfold lift at 1. rewrite Hv.
    rewrite (bind_ok _ _ _ _ _ (Hget _ _)). exact Htail.
  - unfold _tag_error. rewrite Ht, Hlocal. cbn [negb].
    rewrite (bind_ok _ _ _ _ _ (Hget _ _)). reflexivity.
  - unfold _tag_retry. rewrite Ht, Hlocal. cbn [negb].
    destruct Hid as [v Hv]. rewrite bind_run. unfold lift at 1. rewrite Hv.
    rewrite (bind_ok _ _ _ _ _ (Hget _ _)). reflexivity.
  - rewrite _finish_span_unfold. cbv zeta. rewrite Ht, Hlocal. cbn [negb].
    rewrite (bind_ok _ _ _ _ _ (Hget _ _)). exact Htail.
Qed.

Lemma event_without_side_table_raises_witness :
  handler Sample.app task_failure
    (Scenario.failure Sample.add "abc" (Some Scenario.boom) None None) Sample.fresh
  = (Raise AttributeError, Sample.fresh).
Proof.
  apply (event_without_side_table_raises Sample.app task_failure _ Sample.fresh
           Sample.add); reflexivity.
Defined.

(** X2. When the task has a side-table but no span is stored under the
    id that is looked up (a string that is no key, or a hashable value
    that is no string, such as the [None] of a missing kwarg),
    [_get_span] raises [KeyError] with or without removal and leaves the
    world as it was. *)
Theorem get_span_missing_key_raises (w : world) (t : task) (task_id : pyval)
    (remove : bool) (spans : gmap string nat) :
  side_table w (Some t) = Some spans ->
  hashable task_id = true ->
  (∀ k, task_id = VStr k -> spans !! k = None) ->
  _get_span (Some t) task_id remove w = (Raise KeyError, w).
Proof.
  intros Htable Hhash Hkey.
  destruct (_get_span_table w (Some t) task_id remove spans Htable) as (tk & _ & ->).
  unfold spans_pop, spans_getitem. rewrite Hhash. cbn [negb].
  destruct remove; destruct task_id; try reflexivity; rewrite (Hkey _ eq_refl);
    reflexivity.
Qed.

Lemma get_span_missing_key_raises_witness :
  _get_span (Some Sample.add) VNone true Sample.running
  = (Raise KeyError, Sample.running).
Proof.
  apply (get_span_missing_key_raises Sample.running Sample.add VNone true
           {[ "abc" := 0 ]}); [reflexivity | reflexivity | discriminate].
Defined.

(** *** Edges of the start events *)

Lemma start_tail_run_scopes (t : task) (n : nat) (task_id : string) (w : world) :
  w_scopes (snd (start_tail (Some t) n task_id w)) = w_scopes w.
Proof.
  unfold start_tail. cbv zeta.
  destruct (_set_span_tags_run n (request_mapping (request t))
              (retag n (with_tag "celery.task.id" (VStr task_id)) w))
    as (r & f & Hrun & _ & _ & _).
  rewrite bind_run. cbn [set_tag on_span modify]. rewrite bind_run.
  cbn [task_request ret]. destruct r as [[]|e].
  - rewrite (bind_ok _ _ _ _ _ Hrun), store_span_run. reflexivity.
  - rewrite (bind_raise _ _ _ _ _ Hrun). reflexivity.
Qed.

(** A span started by [_start_span] with parent [p]: one more span, at
    the top of the scope stack, with that parent, whatever happens next. *)
Lemma _start_span_starts (self : CeleryTracing) (kw : kwargs) (w : world)
    (t : task) (p : option span_context) :
  default (as_task (kw_sender kw)) (kw_task kw) = Some t ->
  _is_local self (Some t) = true ->
  run_parent self (request t) = Ok p ->
  let n := length (w_spans w) in
  ∃ r w', _start_span self kw w = (r, w')
          ∧ length (w_spans w') = S n
          ∧ parent <$> w_spans w' !! n = Some p
          ∧ finished <$> w_spans w' !! n = Some false
          ∧ w_scopes w' = n :: w_scopes w.
Proof.
  intros Ht Hlocal Hp n.
  rewrite (_start_span_local self kw w t Ht Hlocal), Hp.
  set (s := run_span self t p).
  assert (Hs : ∀ f, only_tags f ->
                    alter f n (w_spans (started s w)) !! n = Some (f s)).
  { intros f Hf. simpl. rewrite list_lookup_alter_eq.
    rewrite (list_lookup_middle (w_spans w) [] s n eq_refl). reflexivity. }
  assert (Hlen : ∀ f, length (alter f n (w_spans (started s w))) = S n).
  { intros f. simpl. rewrite length_alter, length_app. simpl. unfold n. lia. }
  destruct (default (correlation_id (request t)) (kw_task_id kw)) as [task_id|].
  - fold n. destruct (start_tail_spans t n task_id (started s w)) as (f & Hf & Hspans).
    pose proof (start_tail_run_scopes t n task_id (started s w)) as Hscopes.
    destruct (start_tail (Some t) n task_id (started s w)) as [r w'] eqn:Hrun.
    cbn [snd] in Hspans, Hscopes. exists r, w'. split; [reflexivity|].
    rewrite Hspans, (Hs f Hf). split; [apply Hlen|]. simpl.
    destruct (Hf s) as (_ & -> & _ & ->). repeat split. exact Hscopes.
  - eexists _, _. split; [reflexivity|].
    rewrite <- (list_alter_id id (w_spans (started s w)) n) by reflexivity.
    rewrite (Hs id only_tags_id). split; [apply Hlen|]. repeat split.
Qed.

(** X3. With propagation switched off, [_start_span] never looks at the
    request for a payload: on a local task it starts a span without
    parent whatever the request carries (a payload, [headers] set to
    [None]) and whatever span is active. *)
Theorem prerun_without_propagation_has_no_parent (self : CeleryTracing)
    (kw : kwargs) (w : world) (t : task) :
  default (as_task (kw_sender kw)) (kw_task kw) = Some t ->
  _is_local self (Some t) = true ->
  _propagate self = false ->
  let n := length (w_spans w) in
  ∃ r w', _start_span self kw w = (r, w')
          ∧ length (w_spans w') = S n
          ∧ parent <$> w_spans w' !! n = Some None
          ∧ finished <$> w_spans w' !! n = Some false
          ∧ w_scopes w' = n :: w_scopes w.
Proof.
  intros Ht Hlocal Hprop. apply (_start_span_starts self kw w t None Ht Hlocal).
  unfold run_parent. rewrite Hprop. reflexivity.
Qed.

Lemma prerun_without_propagation_has_no_parent_witness :
  ∃ r w', _start_span Scenario.quiet_app (Sample.run Sample.traced "xyz")
            Sample.running = (r, w')
          ∧ length (w_spans w') = 2
          ∧ parent <$> w_spans w' !! 1 = Some None
          ∧ finished <$> w_spans w' !! 1 = Some false
          ∧ w_scopes w' = [1; 0].
Proof.
  apply (prerun_without_propagation_has_no_parent Scenario.quiet_app
           (Sample.run Sample.traced "xyz") Sample.running Sample.traced);
    reflexivity.
Defined.

(** X4. When the task id of a run does not resolve, [_start_span] raises
    [RuntimeError] after the span was started: the span is left active,
    unfinished and is not stored. An explicit [task_id=None] among the
    kwargs has this effect even when the request has a correlation id,
    since the correlation id is only the default of a missing kwarg. *)
Theorem prerun_without_id_leaves_span_active (self : CeleryTracing)
    (kw : kwargs) (w : world) (t : task) (p : option span_context) :
  default (as_task (kw_sender kw)) (kw_task kw) = Some t ->
  _is_local self (Some t) = true ->
  run_parent self (request t) = Ok p ->
  kw_task_id kw = Some None
  ∨ (kw_task_id kw = None ∧ correlation_id (request t) = None) ->
  let w' := started (run_span self t p) w in
  _start_span self kw w = (Raise RuntimeError, w')
  ∧ w_spans w' = w_spans w ++ [run_span self t p]
  ∧ finished (run_span self t p) = false
  ∧ w_scopes w' = length (w_spans w) :: w_scopes w
  ∧ w_tables w' = w_tables w.
Proof.
  intros Ht Hlocal Hp Hid w'.
  rewrite (_start_span_local self kw w t Ht Hlocal), Hp.
  assert (Hnone : default (correlation_id (request t)) (kw_task_id kw) = None).
  { destruct Hid as [-> | [-> ->]]; reflexivity. }
  rewrite Hnone. repeat split.
Qed.

Lemma prerun_without_id_leaves_span_active_witness :
  let kw := {| kw_sender := Some (SenderTask Sample.add); kw_task := None;
               kw_task_id := Some None; kw_headers := None; kw_body := None;
               kw_exception := None; kw_einfo := None; kw_traceback := None;
               kw_request := None; kw_reason := None |} in
  let w' := started (run_span Sample.app Sample.add None) Sample.fresh in
  _start_span Sample.app kw Sample.fresh = (Raise RuntimeError, w')
  ∧ w_spans w' = [run_span Sample.app Sample.add None]
  ∧ finished (run_span Sample.app Sample.add None) = false
  ∧ w_scopes w' = [0]
  ∧ w_tables w' = ∅.
Proof.
  apply (prerun_without_id_leaves_span_active Sample.app _ Sample.fresh Sample.add
           None); try reflexivity. left. reflexivity.
Defined.

(** X5. With propagation on, a request that has no payload as a direct
    attribute and whose [headers] attribute is missing or is no mapping
    (it is [None] unless the framework fills it) makes [_start_span] end
    with [AttributeError] before any span is started: the world is as it
    was. *)
Theorem prerun_without_headers_mapping_raises (self : CeleryTracing)
    (kw : kwargs) (w : world) (t : task) :
  default (as_task (kw_sender kw)) (kw_task kw) = Some t ->
  _is_local self (Some t) = true ->
  _propagate self = true ->
  truthy (default VNone (dict_get (request_attrs (request t)) context_headers))
  = false ->
  (∀ d, dict_get (request_attrs (request t)) "headers" ≠ Some (VDict d)) ->
  _start_span self kw w = (Raise AttributeError, w).
Proof.
  intros Ht Hlocal Hprop Hdirect Hheaders.
  rewrite (_start_span_local self kw w t Ht Hlocal).
  unfold run_parent, request_context, py_or, request_getattr.
  rewrite Hprop, Hdirect.
  destruct (dict_get (request_attrs (request t)) "headers") as [h|] eqn:Hh;
    [|reflexivity].
  destruct h; try reflexivity. exfalso. eapply Hheaders. reflexivity.
Qed.

Lemma prerun_without_headers_mapping_raises_witness :
  _start_span Sample.app (Sample.run Scenario.bare "b1") Sample.running
  = (Raise AttributeError, Sample.running).
Proof.
  apply (prerun_without_headers_mapping_raises Sample.app _ Sample.running
           Scenario.bare); try reflexivity. discriminate.
Defined.

Lemma _set_span_tags_not_a_mapping (n : nat) (md : pyval) (w : world) :
  (∀ d, md ≠ VDict d) ->
  _set_span_tags (Some n) md w
  = (Raise AttributeError, retag n (with_tag COMPONENT (VStr "celery")) w).
Proof.
  intros H. destruct md; try reflexivity. exfalso. eapply H. reflexivity.
Qed.

(** X6. [_prepublish] reads the id with an empty dict as the default of
    a missing [body] but extracts tags from [kwargs.get('body')] without
    a default: on a local task, with headers that give the id and no
    [body] among the kwargs, it ends with [AttributeError] after the span
    was started and tagged from the request; the span is left active and
    is not stored. *)
Theorem prepublish_without_body_raises (self : CeleryTracing) (kw : kwargs)
    (w : world) (t : task) (hid : pyval) :
  tasks_get self (kw_sender kw) = Some t -> _is_local self (Some t) = true ->
  py_get (default (VDict []) (kw_headers kw)) "id" = Ok hid -> truthy hid = true ->
  well_formed_metadata (request_mapping (request t)) = true ->
  kw_body kw = None ->
  let n := length (w_spans w) in
  ∃ w', _prepublish self kw w = (Raise AttributeError, w')
        ∧ length (w_spans w') = S n
        ∧ finished <$> w_spans w' !! n = Some false
        ∧ w_scopes w' = n :: w_scopes w
        ∧ w_tables w' = w_tables w.
Proof.
  intros Ht Hlocal Hh Htruthy Hwf Hbody n.
  rewrite (_prepublish_local self kw w t Ht Hlocal).
  rewrite (publish_task_id_headers kw hid Hh Htruthy).
  assert (Hnone : is_none hid = false) by (destruct hid; try reflexivity; discriminate).
  rewrite Hnone. unfold prepublish_tail. cbv zeta. fold n.
  set (w0 := started (publish_span self t w) w).
  destruct (_set_span_tags_run n (request_mapping (request t))
              (retag n (with_tag "celery.task.id" hid) w0))
    as (r & f & Hrun & Hf & _ & Hok).
  rewrite (Hok Hwf), retag_retag in Hrun.
  rewrite bind_run. cbn [set_tag on_span modify]. rewrite bind_run.
  cbn [task_request ret]. rewrite (bind_ok _ _ _ _ _ Hrun).
  rewrite Hbody. cbn [opt_val default from_option id isinstance_tuple].
  rewrite bind_run. cbn [ret].
  rewrite (bind_raise _ _ _ _ _
             (_set_span_tags_not_a_mapping n VNone _ ltac:(discriminate))).
  eexists. split; [reflexivity|]. rewrite retag_retag. simpl.
  rewrite length_alter, length_app, list_lookup_alter_eq.
  rewrite (list_lookup_middle (w_spans w) [] (publish_span self t w) n eq_refl).
  simpl. repeat split; [lia|].
  destruct (Hf (with_tag "celery.task.id" hid (publish_span self t w)))
    as (_ & _ & _ & ->). reflexivity.
Qed.

Lemma prepublish_without_body_raises_witness :
  ∃ w', _prepublish Sample.app
          (Sample.publish "add" (Some (VDict [("id", VStr "abc")])) None) Sample.fresh
        = (Raise AttributeError, w')
        ∧ length (w_spans w') = 1
        ∧ finished <$> w_spans w' !! 0 = Some false
        ∧ w_scopes w' = [0]
        ∧ w_tables w' = ∅.
Proof.
  apply (prepublish_without_body_raises Sample.app _ Sample.fresh Sample.add
           (VStr "abc")); reflexivity.
Defined.

(** *** Failure and retry events *)

Lemma _get_span_stored (w : world) (t : task) (key : string) (sp : nat)
    (spans : gmap string nat) :
  w_tables w !! task_ref t = Some spans -> spans !! key = Some sp ->
  _get_span (Some t) (VStr key) false w = (Ok (Some sp), w).
Proof.
  intros Htable Hsp.
  destruct (_get_span_table w (Some t) (VStr key) false spans Htable) as (tk & _ & ->).
  unfold spans_getitem. simpl. rewrite Hsp. reflexivity.
Qed.

(** X7. A failure event that carries only an [einfo] object is handled
    like the same event with the exception of that [einfo] passed
    directly: the same tag, the same logged event, the same outcome. *)
Theorem failure_with_einfo_only_is_failure_with_exception (self : CeleryTracing)
    (kw : kwargs) (w : world) (ei : einfo_obj) (e : exc_obj) :
  kw_exception kw = None -> kw_einfo kw = Some ei -> einfo_exception ei = Some e ->
  _tag_error self kw w = _tag_error self (with_exception kw e) w.
Proof.
  intros Hexc Hei He. unfold _tag_error.
  cbn [with_exception kw_sender kw_task_id kw_exception kw_einfo kw_traceback].
  rewrite Hexc, Hei, He. reflexivity.
Qed.

Lemma failure_with_einfo_only_is_failure_with_exception_witness :
  let ei := {| einfo_exception := Some Scenario.boom;
               einfo_traceback := Some (TbObject ["frame 1"; "frame 2"]) |} in
  _tag_error Sample.app (Scenario.failure Sample.add "abc" None (Some ei) None)
    Sample.running
  = _tag_error Sample.app
      (with_exception (Scenario.failure Sample.add "abc" None (Some ei) None)
         Scenario.boom) Sample.running.
Proof.
  apply (failure_with_einfo_only_is_failure_with_exception Sample.app _ Sample.running
           {| einfo_exception := Some Scenario.boom;
              einfo_traceback := Some (TbObject ["frame 1"; "frame 2"]) |}
           Scenario.boom); reflexivity.
Defined.

(** What [_tag_error] comes to once the span is found: the error tag,
    then the logged event or the exception of [format_tb]. *)
Lemma _tag_error_found (self : CeleryTracing) (kw : kwargs) (w : world) (t : task)
    (spans : gmap string nat) (key : string) (sp : nat) :
  as_task (kw_sender kw) = Some t -> _is_local self (Some t) = true ->
  kw_task_id kw = Some (Some key) ->
  w_tables w !! task_ref t = Some spans -> spans !! key = Some sp ->
  ∃ r f, _tag_error self kw w = (r, retag sp f w)
         ∧ (r = Ok tt ∨ r = Raise AttributeError)
         ∧ ∀ s, tags (f s) !! ERROR = Some (VBool true)
                ∧ finished (f s) = finished s
                ∧ parent (f s) = parent s
                ∧ ∃ ev, logs (f s) = logs s ++ ev
                        ∧ (r = Ok tt -> length ev = 1)
                        ∧ (r = Raise AttributeError -> ev = []).
Proof.
  intros Ht Hlocal Hid Htable Hsp. unfold _tag_error.
  rewrite Ht, Hlocal, Hid. cbn [negb id_val].
  rewrite (bind_ok _ _ _ _ _ (_get_span_stored w t key sp spans Htable Hsp)).
  rewrite bind_run. cbn [set_tag on_span modify].
  set (w1 := update_spans (alter (with_tag ERROR (VBool true)) sp) w).
  assert (Hlog : ∀ ev, ∃ r f,
            log_kv (Some sp) ev w1 = (r, retag sp f w)
            ∧ (r = Ok tt ∨ r = Raise AttributeError)
            ∧ ∀ s, tags (f s) !! ERROR = Some (VBool true)
                   ∧ finished (f s) = finished s ∧ parent (f s) = parent s
                   ∧ ∃ ev', logs (f s) = logs s ++ ev'
                            ∧ (r = Ok tt -> length ev' = 1)
                            ∧ (r = Raise AttributeError -> ev' = [])).
  { intros ev. exists (Ok tt), (with_log ev ∘ with_tag ERROR (VBool true)).
    split; [rewrite <- retag_retag; reflexivity|].
    split; [left; reflexivity|]. intros s. simpl. rewrite lookup_insert_eq.
    repeat split. exists [ev]. repeat split. discriminate. }
  assert (Hraise : ∃ r f,
            (Raise AttributeError : result unit, w1) = (r, retag sp f w)
            ∧ (r = Ok tt ∨ r = Raise AttributeError)
            ∧ ∀ s, tags (f s) !! ERROR = Some (VBool true)
                   ∧ finished (f s) = finished s ∧ parent (f s) = parent s
                   ∧ ∃ ev', logs (f s) = logs s ++ ev'
                            ∧ (r = Ok tt -> length ev' = 1)
                            ∧ (r = Raise AttributeError -> ev' = [])).
  { exists (Raise AttributeError), (with_tag ERROR (VBool true)).
    split; [reflexivity|]. split; [right; reflexivity|]. intros s. simpl.
    rewrite lookup_insert_eq. repeat split. exists []. rewrite app_nil_r.
    repeat split. discriminate. }
  destruct (match kw_exception kw, kw_einfo kw with
            | None, Some ei => einfo_exception ei
            | _, _ => kw_exception kw
            end) as [e|]; cbn [ret].
  - destruct (match kw_traceback kw with
              | Some _ => kw_traceback kw
              | None => match kw_einfo kw with
                        | Some ei => einfo_traceback ei
                        | None => None
                        end
              end) as [tb|].
    + rewrite bind_run. rewrite bind_run. unfold lift at 1.
      destruct (format_tb tb) as [frames|e'] eqn:Hfmt.
      * cbn [ret]. apply Hlog.
      * destruct tb; try discriminate; injection Hfmt as <-; exact Hraise.
    + rewrite bind_run. cbn [ret]. apply Hlog.
  - rewrite bind_run. cbn [ret]. apply Hlog.
Qed.

(** X8. A failure event for a local task whose span is stored under the
    task id marks that span with the error tag and does nothing else to
    the world: the span stays in the side-table and is not finished, the
    scope stack, the other spans and the side-tables are as they were.
    The event is logged once when the handler returns, and not at all
    when [format_tb] raises on the traceback. *)
Theorem failure_marks_span_and_keeps_it (self : CeleryTracing) (kw : kwargs)
    (w : world) (t : task) (spans : gmap string nat) (key : string) (sp : nat)
    (s : span) :
  as_task (kw_sender kw) = Some t -> _is_local self (Some t) = true ->
  kw_task_id kw = Some (Some key) ->
  w_tables w !! task_ref t = Some spans -> spans !! key = Some sp ->
  w_spans w !! sp = Some s ->
  ∃ r w' s', _tag_error self kw w = (r, w')
             ∧ (r = Ok tt ∨ r = Raise AttributeError)
             ∧ w_spans w' !! sp = Some s'
             ∧ tags s' !! ERROR = Some (VBool true)
             ∧ finished s' = finished s
             ∧ (r = Ok tt -> length (logs s') = S (length (logs s)))
             ∧ (r = Raise AttributeError -> logs s' = logs s)
             ∧ (∀ i, i ≠ sp -> w_spans w' !! i = w_spans w !! i)
             ∧ w_tables w' = w_tables w
             ∧ w_scopes w' = w_scopes w.
Proof.
  intros Ht Hlocal Hid Htable Hsp Hs.
  destruct (_tag_error_found self kw w t spans key sp Ht Hlocal Hid Htable Hsp)
    as (r & f & Hrun & Hr & Hf).
  destruct (Hf s) as (Htag & Hfin & _ & ev & Hlogs & Hok & Hraise).
  exists r, (retag sp f w), (f s). split; [exact Hrun|]. split; [exact Hr|].
  split; [simpl; rewrite list_lookup_alter_eq, Hs; reflexivity|].
  split; [exact Htag|]. split; [exact Hfin|]. split; [|split; [|split]].
  - intros H. rewrite Hlogs, length_app, (Hok H). lia.
  - intros H. rewrite Hlogs, (Hraise H). apply app_nil_r.
  - intros i Hi. simpl. apply list_lookup_alter_ne. congruence.
  - split; reflexivity.
Qed.

Lemma failure_marks_span_and_keeps_it_witness :
  ∃ r w' s',
    _tag_error Sample.app
      (Scenario.failure Sample.add "abc" (Some Scenario.boom) None None)
      Sample.running = (r, w')
    ∧ (r = Ok tt ∨ r = Raise AttributeError)
    ∧ w_spans w' !! 0 = Some s'
    ∧ tags s' !! ERROR = Some (VBool true)
    ∧ finished s' = false
    ∧ (r = Ok tt -> length (logs s') = 1)
    ∧ (r = Raise AttributeError -> logs s' = [])
    ∧ (∀ i, i ≠ 0 -> w_spans w' !! i = w_spans Sample.running !! i)
    ∧ w_tables w' = w_tables Sample.running
    ∧ w_scopes w' = w_scopes Sample.running.
Proof.
  apply (failure_marks_span_and_keeps_it Sample.app
           (Scenario.failure Sample.add "abc" (Some Scenario.boom) None None)
           Sample.running Sample.add {[ "abc" := 0 ]} "abc" 0 Scenario.running_span);
    reflexivity.
Defined.

(** X9. A failure event with an exception and a traceback object logs
    one event on the span: the kind [error], the message, the exception
    itself, the name of its class and, as stack, the concatenation of the
    formatted frames. A traceback among the kwargs takes precedence over
    the one of [einfo]. *)
Theorem failure_logs_exception_and_stack (self : CeleryTracing) (kw : kwargs)
    (w : world) (t : task) (spans : gmap string nat) (key : string) (sp : nat)
    (e : exc_obj) (frames : list string) :
  as_task (kw_sender kw) = Some t -> _is_local self (Some t) = true ->
  kw_task_id kw = Some (Some key) ->
  w_tables w !! task_ref t = Some spans -> spans !! key = Some sp ->
  kw_exception kw = Some e -> kw_traceback kw = Some (TbObject frames) ->
  _tag_error self kw w
  = (Ok tt,
     retag sp
       (with_log [("event", LStr "error"); ("message", LStr (exc_str e));
                  ("error.object", LExc (Some e));
                  ("error.kind", LStr (exc_class_name e));
                  ("stack", LStr (String.concat "" frames))]
        ∘ with_tag "error" (VBool true)) w).
Proof.
  intros Ht Hlocal Hid Htable Hsp Hexc Htb. unfold _tag_error.
  rewrite Ht, Hlocal, Hid, Hexc, Htb. cbn [negb id_val].
  rewrite (bind_ok _ _ _ _ _ (_get_span_stored w t key sp spans Htable Hsp)).
  rewrite <- retag_retag. reflexivity.
Qed.

Lemma failure_logs_exception_and_stack_witness :
  _tag_error Sample.app
    (Scenario.failure Sample.add "abc" (Some Scenario.boom) None
       (Some (TbObject ["frame 1;"; "frame 2;"]))) Sample.running
  = (Ok tt,
     retag 0
       (with_log [("event", LStr "error"); ("message", LStr "boom");
                  ("error.object", LExc (Some Scenario.boom));
                  ("error.kind", LStr "ValueError");
                  ("stack", LStr "frame 1;frame 2;")]
        ∘ with_tag "error" (VBool true)) Sample.running).
Proof.
  apply (failure_logs_exception_and_stack Sample.app _ Sample.running Sample.add
           {[ "abc" := 0 ]} "abc" 0 Scenario.boom ["frame 1;"; "frame 2;"]);
    reflexivity.
Defined.

(** X10. A failure event from which no exception can be read (none among
    the kwargs, and no [einfo] or an [einfo] without exception) still
    marks the span and logs an event, which then has the kind [error]
    only: a traceback that comes with it is not looked at. *)
Theorem failure_without_exception_logs_bare_event (self : CeleryTracing)
    (kw : kwargs) (w : world) (t : task) (spans : gmap string nat) (key : string)
    (sp : nat) :
  as_task (kw_sender kw) = Some t -> _is_local self (Some t) = true ->
  kw_task_id kw = Some (Some key) ->
  w_tables w !! task_ref t = Some spans -> spans !! key = Some sp ->
  kw_exception kw = None -> kw_einfo kw ≫= einfo_exception = None ->
  _tag_error self kw w
  = (Ok tt,
     retag sp (with_log [("event", LStr "error")] ∘ with_tag "error" (VBool true)) w).
Proof.
  intros Ht Hlocal Hid Htable Hsp Hexc Hei. unfold _tag_error.
  rewrite Ht, Hlocal, Hid, Hexc. cbn [negb id_val].
  rewrite (bind_ok _ _ _ _ _ (_get_span_stored w t key sp spans Htable Hsp)).
  rewrite <- retag_retag.
  destruct (kw_einfo kw) as [ei|]; simpl in Hei; [rewrite Hei|]; reflexivity.
Qed.

Lemma failure_without_exception_logs_bare_event_witness :
  _tag_error Sample.app
    (Scenario.failure Sample.add "abc" None None (Some (TbObject ["frame 1;"])))
    Sample.running
  = (Ok tt,
     retag 0 (with_log [("event", LStr "error")] ∘ with_tag "error" (VBool true))
       Sample.running).
Proof.
  apply (failure_without_exception_logs_bare_event Sample.app _ Sample.running
           Sample.add {[ "abc" := 0 ]} "abc" 0); reflexivity.
Defined.

(** X11. [_tag_error] passes whatever traceback it finds to
    [traceback.format_tb]: when the kwargs have no traceback and the one
    of [einfo] is an already formatted string or a list, the handler ends
    with [AttributeError] after the span was marked, and logs nothing. *)
Theorem failure_with_formatted_traceback_raises (self : CeleryTracing)
    (kw : kwargs) (w : world) (t : task) (spans : gmap string nat) (key : string)
    (sp : nat) (ei : einfo_obj) (e : exc_obj) (tb : tb_val) :
  as_task (kw_sender kw) = Some t -> _is_local self (Some t) = true ->
  kw_task_id kw = Some (Some key) ->
  w_tables w !! task_ref t = Some spans -> spans !! key = Some sp ->
  kw_traceback kw = None -> kw_einfo kw = Some ei ->
  kw_exception kw = Some e ∨ (kw_exception kw = None ∧ einfo_exception ei = Some e) ->
  einfo_traceback ei = Some tb -> (∀ frames, tb ≠ TbObject frames) ->
  _tag_error self kw w
  = (Raise AttributeError, retag sp (with_tag "error" (VBool true)) w).
Proof.
  intros Ht Hlocal Hid Htable Hsp Htb Hei Hexc Heitb Hfmt. unfold _tag_error.
  rewrite Ht, Hlocal, Hid, Htb, Hei, Heitb. cbn [negb id_val].
  rewrite (bind_ok _ _ _ _ _ (_get_span_stored w t key sp spans Htable Hsp)).
  assert (Hraise : format_tb tb = Raise AttributeError).
  { destruct tb; try reflexivity. exfalso. eapply Hfmt. reflexivity. }
  destruct Hexc as [-> | [-> ->]]; rewrite bind_run; cbn [set_tag on_span modify];
    rewrite bind_run, bind_run; unfold lift at 1; rewrite Hraise; reflexivity.
Qed.

Lemma failure_with_formatted_traceback_raises_witness :
  let ei := {| einfo_exception := Some Scenario.boom;
               einfo_traceback := Some (TbStr "Traceback (most recent call last)") |} in
  _tag_error Sample.app (Scenario.failure Sample.add "abc" None (Some ei) None)
    Sample.running
  = (Raise AttributeError, retag 0 (with_tag "error" (VBool true)) Sample.running).
Proof.
  apply (failure_with_formatted_traceback_raises Sample.app _ Sample.running
           Sample.add {[ "abc" := 0 ]} "abc" 0
           {| einfo_exception := Some Scenario.boom;
              einfo_traceback := Some (TbStr "Traceback (most recent call last)") |}
           Scenario.boom (TbStr "Traceback (most recent call last)"));
    try reflexivity; [right; split; reflexivity | discriminate].
Defined.

(** X12. A retry event for a local task whose span is stored under the
    id of the retried request tags the span with the retry flag and with
    the reason as a string, and leaves it in the side-table, unfinished.
    Without [einfo] nothing is logged; with [einfo] one event is logged
    whose message and kind are those of the exception of [einfo] (the
    string and the class of [None] when it has none) and whose stack, for
    a traceback that is no list, is the traceback as it came. *)
Theorem retry_tags_span_and_logs_einfo (self : CeleryTracing) (kw : kwargs)
    (w : world) (t : task) (spans : gmap string nat) (key : string) (sp : nat) :
  as_task (kw_sender kw) = Some t -> _is_local self (Some t) = true ->
  py_get (default (VDict []) (kw_request kw)) "id" = Ok (VStr key) ->
  w_tables w !! task_ref t = Some spans -> spans !! key = Some sp ->
  (∀ ei l, kw_einfo kw = Some ei -> einfo_traceback ei ≠ Some (TbList l)) ->
  let tagged :=
    with_tag "celery.retry.reason" (VStr (py_str (opt_val (kw_reason kw))))
    ∘ with_tag "celery.retry" (VBool true) in
  _tag_retry self kw w
  = (Ok tt,
     retag sp
       (match kw_einfo kw with
        | None => tagged
        | Some ei =>
            with_log
              ([("event", LStr "error");
                ("message", LStr (exc_message (einfo_exception ei)));
                ("error.object", LExc (einfo_exception ei));
                ("error.kind", LStr (exc_kind (einfo_exception ei)))]
               ++ match einfo_traceback ei with
                  | Some tb => [("stack", LTb tb)]
                  | None => []
                  end)
            ∘ tagged
        end) w).
Proof.
  intros Ht Hlocal Hid Htable Hsp Hlist tagged. unfold _tag_retry.
  rewrite Ht, Hlocal. cbn [negb]. rewrite bind_run. unfold lift at 1. rewrite Hid.
  rewrite (bind_ok _ _ _ _ _ (_get_span_stored w t key sp spans Htable Hsp)).
  rewrite bind_run. cbn [set_tag on_span modify]. rewrite bind_run. cbn [modify].
  fold (retag sp (with_tag "celery.retry" (VBool true)) w).
  match goal with
  | |- context [update_spans (alter ?f sp) (retag sp ?g w)] =>
      change (update_spans (alter f sp) (retag sp g w)) with (retag sp f (retag sp g w))
  end.
  rewrite retag_retag. fold tagged.
  destruct (kw_einfo kw) as [ei|] eqn:Hei; [|reflexivity].
  specialize (Hlist ei).
  destruct (einfo_traceback ei) as [tb|].
  - destruct tb; try (rewrite <- retag_retag; reflexivity).
    exfalso. eapply Hlist; reflexivity.
  - rewrite <- retag_retag. reflexivity.
Qed.

Lemma retry_tags_span_and_logs_einfo_witness :
  let ei := {| einfo_exception := Some Scenario.boom;
               einfo_traceback := Some (TbStr "Traceback") |} in
  _tag_retry Sample.app (Scenario.retry Sample.add "abc" (VStr "again") (Some ei))
    Sample.running
  = (Ok tt,
     retag 0
       (with_log [("event", LStr "error"); ("message", LStr "boom");
                  ("error.object", LExc (Some Scenario.boom));
                  ("error.kind", LStr "ValueError");
                  ("stack", LTb (TbStr "Traceback"))]
        ∘ (with_tag "celery.retry.reason" (VStr "again")
           ∘ with_tag "celery.retry" (VBool true))) Sample.running).
Proof.
  apply (retry_tags_span_and_logs_einfo Sample.app
           (Scenario.retry Sample.add "abc" (VStr "again")
              (Some {| einfo_exception := Some Scenario.boom;
                       einfo_traceback := Some (TbStr "Traceback") |}))
           Sample.running Sample.add {[ "abc" := 0 ]} "abc" 0); try reflexivity.
  intros ei l [= <-]. discriminate.
Defined.

(** *** What tag extraction writes *)

Lemma sets_tag_id (k : string) : sets_tag k None id.
Proof. intros s. reflexivity. Qed.

Lemma sets_tag_compose (k : string) (o1 o2 : option pyval) (f g : span -> span) :
  sets_tag k o1 f -> sets_tag k o2 g -> sets_tag k (later o1 o2) (g ∘ f).
Proof.
  intros Hf Hg s. simpl. rewrite Hg. destruct o2; simpl; [reflexivity | apply Hf].
Qed.

Lemma sets_tag_other (k k' : string) (v : pyval) :
  k' ≠ k -> sets_tag k None (with_tag k' v).
Proof. intros Hk s. simpl. apply lookup_insert_ne, Hk. Qed.

Lemma sets_tag_write (k : string) (v : pyval) : sets_tag k (Some v) (with_tag k v).
Proof. intros s. simpl. apply lookup_insert_eq. Qed.

Lemma starts_with_append (p x : string) : starts_with p (p +:+ x) = true.
Proof.
  induction p as [|a p IH]; [reflexivity|]. simpl.
  rewrite Ascii.eqb_refl, IH. reflexivity.
Qed.

Lemma not_under (p k : string) :
  starts_with p k = false -> ∀ x, p +:+ x ≠ k.
Proof. intros H x <-. rewrite starts_with_append in H. discriminate. Qed.

Section KeepsKey.
Context (n : nat) (k : string) (E : exn -> Prop).
Context (Hcelery : starts_with "celery." k = false).
Context (Hdestination : MESSAGE_BUS_DESTINATION ≠ k).

Lemma keeps_compose (f g : span -> span) :
  sets_tag k None f -> sets_tag k None g -> sets_tag k None (g ∘ f).
Proof. intros Hf Hg. apply (sets_tag_compose k None None); assumption. Qed.

Lemma subtag_step_keeps_key (val : pyval) (subtag : string) :
  (∀ e, py_get val subtag = Raise e -> E e) ->
  tagging n (sets_tag k None) E (subtag_step (Some n) val subtag).
Proof.
  intros HE. unfold subtag_step. apply tagging_lift.
  - intros subval _. destruct (in_none_or_blank subval); cbn [negb].
    + apply tagging_ret, sets_tag_id.
    + apply tagging_seq with (P1 := sets_tag k None) (P2 := sets_tag k None);
        auto using keeps_compose.
      * apply tagging_set_tag, sets_tag_other.
        apply (not_under "celery." k Hcelery ("delivery." +:+ subtag)).
      * destruct (str_in subtag ["exchange"; "routing_key"; "queue"]).
        -- apply tagging_set_tag, sets_tag_other, Hdestination.
        -- apply tagging_ret, sets_tag_id.
  - intros e He. split; [auto | apply sets_tag_id].
Qed.

Lemma tag_step_keeps_key (md : pyval) (tag : string) :
  (∀ e, py_get md tag = Raise e -> E e) ->
  (∀ val sub e, py_get md tag = Ok val -> in_empty_values val = false ->
                String.eqb tag "delivery_info" = true ->
                py_get val sub = Raise e -> E e) ->
  tagging n (sets_tag k None) E (tag_step (Some n) md tag).
Proof.
  intros HE Hsub. unfold tag_step. apply tagging_lift.
  - intros val Hval. destruct (in_empty_values val) eqn:Hempty; cbn [negb].
    + apply tagging_ret, sets_tag_id.
    + destruct (String.eqb tag "delivery_info") eqn:Htag.
      * apply tagging_for_each; auto using sets_tag_id, keeps_compose.
        apply Forall_forall. intros sub _. apply subtag_step_keeps_key.
        intros e He. eapply Hsub; eauto.
      * apply tagging_set_tag, sets_tag_other, (not_under "celery." k Hcelery).
  - intros e He. split; [auto | apply sets_tag_id].
Qed.

Lemma tag_steps_keep_key (md : pyval) (l : list string) :
  (∀ tag e, py_get md tag = Raise e -> E e) ->
  (∀ val sub e, py_get md "delivery_info" = Ok val -> in_empty_values val = false ->
                py_get val sub = Raise e -> E e) ->
  tagging n (sets_tag k None) E (for_each l (tag_step (Some n) md)).
Proof.
  intros HE Hsub. apply tagging_for_each; auto using sets_tag_id, keeps_compose.
  apply Forall_forall. intros tag _. apply tag_step_keeps_key; [apply HE|].
  intros val sub e Hval Hempty Htag He. apply String.eqb_eq in Htag. subst tag.
  eapply Hsub; eauto.
Qed.
End KeepsKey.

Lemma py_get_raises_attribute_error (md : pyval) :
  (∀ tag e, py_get md tag = Raise e -> AttributeError = e)
  ∧ (∀ val sub e, py_get md "delivery_info" = Ok val -> in_empty_values val = false ->
                  py_get val sub = Raise e -> AttributeError = e).
Proof.
  split.
  - intros tag e He. symmetry. eapply py_get_raise, He.
  - intros val sub e _ _ He. symmetry. eapply py_get_raise, He.
Qed.

(** X13. [_set_span_tags] sets the component tag of the span to [celery]
    before it reads the metadata: the tag is there afterwards for every
    metadata value, also one on which the extraction raises. *)
Theorem tag_extraction_always_sets_component (n : nat) (md : pyval) (w : world) :
  is_Some (w_spans w !! n) ->
  span_tag (snd (_set_span_tags (Some n) md w)) n COMPONENT = Some (VStr "celery").
Proof.
  intros [s Hs]. rewrite _set_span_tags_unfold.
  destruct (py_get_raises_attribute_error md) as [HE Hsub].
  assert (H : tagging n (sets_tag COMPONENT (Some (VStr "celery")))
                (eq AttributeError)
                (set_tag (Some n) COMPONENT (VStr "celery");;
                 for_each tag_names (tag_step (Some n) md))).
  { eapply tagging_seq with (P1 := sets_tag COMPONENT (Some (VStr "celery")))
                            (P2 := sets_tag COMPONENT None).
    - apply tagging_set_tag, sets_tag_write.
    - apply tag_steps_keep_key; [reflexivity | discriminate | exact HE | exact Hsub].
    - intros f g Hf Hg. apply (sets_tag_compose COMPONENT _ None f g Hf Hg).
    - auto. }
  destruct (H w) as (r & f & -> & Hf & _).
  unfold span_tag. simpl. rewrite list_lookup_alter_eq, Hs. simpl. apply Hf.
Qed.

Lemma tag_extraction_always_sets_component_witness :
  span_tag (snd (_set_span_tags (Some 0) VNone Sample.running)) 0 COMPONENT
  = Some (VStr "celery").
Proof.
  apply (tag_extraction_always_sets_component 0 VNone Sample.running).
  vm_compute. eauto.
Defined.

Lemma not_reserved (k : string) :
  reserved_key k = false ->
  COMPONENT ≠ k ∧ MESSAGE_BUS_DESTINATION ≠ k ∧ starts_with "celery." k = false.
Proof.
  unfold reserved_key. intros H.
  apply orb_false_iff in H as [H Hc]. apply orb_false_iff in H as [Hcomp Hdest].
  apply String.eqb_neq in Hcomp, Hdest. repeat split; congruence.
Qed.

(** X14. Whatever the metadata and whatever its outcome, [_set_span_tags]
    changes nothing but tags of its span under the reserved keys (the
    component tag, the message destination, the keys under [celery.]):
    every other tag of the span, its name, parent, log and finished flag,
    every other span, the scope stack, the side-tables, the headers and
    the warnings are as they were. *)
Theorem tag_extraction_writes_reserved_keys_only (n : nat) (md : pyval) (w : world) :
  let w' := snd (_set_span_tags (Some n) md w) in
  (∀ k, reserved_key k = false -> span_tag w' n k = span_tag w n k)
  ∧ (∀ i, i ≠ n -> w_spans w' !! i = w_spans w !! i)
  ∧ operation_name <$> w_spans w' !! n = operation_name <$> w_spans w !! n
  ∧ parent <$> w_spans w' !! n = parent <$> w_spans w !! n
  ∧ logs <$> w_spans w' !! n = logs <$> w_spans w !! n
  ∧ finished <$> w_spans w' !! n = finished <$> w_spans w !! n
  ∧ w_scopes w' = w_scopes w ∧ w_tables w' = w_tables w
  ∧ w_headers w' = w_headers w ∧ w_warnings w' = w_warnings w.
Proof.
  intros w'. split.
  { intros k Hk. destruct (not_reserved k Hk) as (Hcomp & Hdest & Hcelery).
    destruct (py_get_raises_attribute_error md) as [HE Hsub].
    assert (H : tagging n (sets_tag k None) (eq AttributeError)
                  (_set_span_tags (Some n) md)).
    { rewrite _set_span_tags_unfold.
      eapply tagging_seq with (P1 := sets_tag k None) (P2 := sets_tag k None).
      - apply tagging_set_tag, sets_tag_other, Hcomp.
      - apply tag_steps_keep_key; assumption.
      - apply keeps_compose.
      - auto. }
    unfold w'. destruct (H w) as (r & f & -> & Hf & _).
    unfold span_tag. simpl. rewrite list_lookup_alter_eq.
    destruct (w_spans w !! n) as [s|]; [|reflexivity]. simpl. apply Hf. }
  unfold w'. destruct (_set_span_tags_run n md w) as (r & f & -> & Hf & _).
  simpl. rewrite list_lookup_alter_eq.
  split; [intros i Hi; apply list_lookup_alter_ne; congruence|].
  destruct (w_spans w !! n) as [s|]; simpl; [|repeat split].
  destruct (Hf s) as (-> & -> & -> & ->). repeat split.
Qed.

Lemma tagging_then_key (n : nat) (k : string) (o1 o2 : option pyval) (m km : M unit) :
  tagging n (sets_tag k o1) no_exn m ->
  tagging n (sets_tag k o2) no_exn km ->
  tagging n (sets_tag k (later o1 o2)) no_exn (m;; km).
Proof.
  intros Hm Hk. eapply tagging_seq; eauto using sets_tag_compose.
  intros f e _ [].
Qed.

(** The two renames of the loop body give the key [tag_key]. *)
Lemma tag_key_spec (tag : string) :
  "celery."
  +:+ (if String.eqb (if String.eqb tag "hostname" then "worker.hostname" else tag)
            "origin"
       then "task.origin"
       else if String.eqb tag "hostname" then "worker.hostname" else tag)
  = tag_key tag.
Proof. unfold tag_key. destruct (String.eqb tag "hostname"); reflexivity. Qed.

Section CopiesField.
Context (n : nat) (k : string) (d : list (string * pyval)).
Context (Hwf : well_formed_metadata (VDict d) = true).
Context (Hdelivery : starts_with "celery.delivery." k = false).
Context (Hdestination : MESSAGE_BUS_DESTINATION ≠ k).

Lemma delivery_subtags_keep_key (di : list (string * pyval)) :
  tagging n (sets_tag k None) no_exn
    (for_each subtag_names (subtag_step (Some n) (VDict di))).
Proof.
  apply tagging_for_each; auto using sets_tag_id.
  { intros f g Hf Hg. apply (sets_tag_compose k None None); assumption. }
  apply Forall_forall. intros sub _. unfold subtag_step.
  apply tagging_lift; [|discriminate]. intros subval _.
  destruct (in_none_or_blank subval); cbn [negb].
  - apply tagging_ret, sets_tag_id.
  - apply (tagging_then_key n k None None).
    + apply tagging_set_tag, sets_tag_other, (not_under _ _ Hdelivery).
    + destruct (str_in sub ["exchange"; "routing_key"; "queue"]).
      * apply tagging_set_tag, sets_tag_other, Hdestination.
      * apply tagging_ret, sets_tag_id.
Qed.

Lemma tag_step_writes (tag : string) :
  tagging n (sets_tag k (step_writes d k tag)) no_exn
    (tag_step (Some n) (VDict d) tag).
Proof.
  unfold tag_step, step_writes. apply tagging_lift; [|discriminate].
  intros val [= <-]. fold (dict_field d tag).
  destruct (String.eqb tag "delivery_info") eqn:Htag.
  - apply String.eqb_eq in Htag. subst tag.
    destruct (in_empty_values (dict_field d "delivery_info")) eqn:Hempty; cbn [negb].
    + apply tagging_ret, sets_tag_id.
    + unfold well_formed_metadata in Hwf. fold (dict_field d "delivery_info") in Hwf.
      destruct (dict_field d "delivery_info"); try congruence.
      apply delivery_subtags_keep_key.
  - destruct (in_empty_values (dict_field d tag)); cbn [negb].
    + rewrite andb_false_r. apply tagging_ret, sets_tag_id.
    + rewrite andb_true_r. cbv zeta. rewrite tag_key_spec.
      destruct (String.eqb (tag_key tag) k) eqn:Hk.
      * apply String.eqb_eq in Hk. rewrite Hk. apply tagging_set_tag, sets_tag_write.
      * apply String.eqb_neq in Hk. apply tagging_set_tag, sets_tag_other, Hk.
Qed.

Lemma tag_steps_write (l : list string) :
  tagging n (sets_tag k (steps_write d k l)) no_exn
    (for_each l (tag_step (Some n) (VDict d))).
Proof.
  induction l as [|tag l IH]; simpl.
  - apply tagging_ret, sets_tag_id.
  - apply tagging_then_key; [apply tag_step_writes | exact IH].
Qed.

Lemma _set_span_tags_writes :
  COMPONENT ≠ k ->
  tagging n (sets_tag k (steps_write d k tag_names)) no_exn
    (_set_span_tags (Some n) (VDict d)).
Proof.
  intros Hcomp. rewrite _set_span_tags_unfold.
  apply tagging_weaken
    with (P := sets_tag k (later None (steps_write d k tag_names))) (E := no_exn);
    [|auto|].
  { intros f Hf. unfold later in Hf. destruct (steps_write d k tag_names); exact Hf. }
  apply (tagging_then_key n k None).
  - apply tagging_set_tag, sets_tag_other, Hcomp.
  - apply tag_steps_write.
Qed.
End CopiesField.

(** X15. On a well-formed metadata dict, [_set_span_tags] copies each of
    the fields countdown, eta, expires, group, hostname, origin, retries
    and timelimit that is not an empty value ([None], the empty string, a
    list or a tuple of two [None]) to the tag [celery.<field>], with
    hostname under [celery.worker.hostname] and origin under
    [celery.task.origin]; for an empty value the tag is left as it was. *)
Theorem tag_extraction_copies_field (n : nat) (w : world)
    (d : list (string * pyval)) (tag : string) :
  is_Some (w_spans w !! n) ->
  well_formed_metadata (VDict d) = true ->
  tag ∈ plain_tag_names ->
  ∃ w', _set_span_tags (Some n) (VDict d) w = (Ok tt, w')
        ∧ span_tag w' n (tag_key tag)
          = if in_empty_values (dict_field d tag)
            then span_tag w n (tag_key tag)
            else Some (dict_field d tag).
Proof.
  intros [s Hs] Hwf Htag.
  assert (H : tagging n
                (sets_tag (tag_key tag)
                   (if in_empty_values (dict_field d tag) then None
                    else Some (dict_field d tag)))
                no_exn (_set_span_tags (Some n) (VDict d))).
  { unfold plain_tag_names in Htag.
    repeat (apply elem_of_cons in Htag as [->|Htag];
            [match goal with
             | |- tagging ?n (sets_tag ?k _) _ _ =>
                 eapply tagging_weaken;
                 [| |apply (_set_span_tags_writes n k d Hwf);
                      [reflexivity | discriminate | discriminate]];
                 [|auto];
                 intros f Hf; unfold steps_write, step_writes, tag_names in Hf;
                 simpl in Hf;
                 match goal with
                 | |- context [in_empty_values ?v] => destruct (in_empty_values v)
                 end; exact Hf
             end|]).
    inversion Htag. }
  destruct (H w) as (r & f & Hrun & Hf & Hr).
  destruct r as [[]|e]; [|destruct Hr].
  exists (retag n f w). split; [exact Hrun|].
  unfold span_tag, retag. simpl. rewrite list_lookup_alter_eq, Hs. simpl.
  rewrite Hf. destruct (in_empty_values (dict_field d tag)); reflexivity.
Qed.

Lemma tag_extraction_copies_field_witness :
  let d := [("timelimit", VTuple [VNone; VNone]); ("hostname", VStr "worker1")] in
  (∃ w', _set_span_tags (Some 0) (VDict d) Sample.running = (Ok tt, w')
         ∧ span_tag w' 0 "celery.worker.hostname" = Some (VStr "worker1"))
  ∧ (∃ w', _set_span_tags (Some 0) (VDict d) Sample.running = (Ok tt, w')
           ∧ span_tag w' 0 "celery.timelimit" = None).
Proof.
  split.
  - apply (tag_extraction_copies_field 0 Sample.running
             [("timelimit", VTuple [VNone; VNone]); ("hostname", VStr "worker1")]
             "hostname"); [vm_compute; eauto | reflexivity |].
    unfold plain_tag_names. set_solver.
  - apply (tag_extraction_copies_field 0 Sample.running
             [("timelimit", VTuple [VNone; VNone]); ("hostname", VStr "worker1")]
             "timelimit"); [vm_compute; eauto | reflexivity |].
    unfold plain_tag_names. set_solver.
Defined.

(** *** The legacy tuple body *)




Section LeavesTag.
Context (n : nat) (k : string).







End LeavesTag.





(** *** Static tags *)

Section SpanOnly.
Context (n : nat) (P : (span -> span) -> Prop).
Context (Pid : P id) (Pcompose : ∀ f g, P f -> P g -> P (g ∘ f)).

Lemma span_only_same {A} (m : M A) :
  (∀ w, w_spans (snd (m w)) = w_spans w) -> span_only n P m.
Proof.
  intros H w. exists id. split; [exact Pid|]. rewrite H.
  symmetry. apply list_alter_id. reflexivity.
Qed.

Lemma span_only_bind {A B} (m : M A) (k : A -> M B) :
  span_only n P m -> (∀ a, span_only n P (k a)) -> span_only n P (m ≫= k).
Proof.
  intros Hm Hk w. rewrite bind_run. destruct (Hm w) as (f & Hf & Hspans).
  destruct (m w) as [[a|e] w1]; simpl in Hspans.
  - destruct (Hk a w1) as (g & Hg & Hspans'). exists (g ∘ f). split; [auto|].
    rewrite Hspans', Hspans. apply list_alter_alter_eq.
  - exists f. split; [exact Hf | exact Hspans].
Qed.

Lemma span_only_tagging (E : exn -> Prop) (m : M unit) :
  tagging n P E m -> span_only n P m.
Proof.
  intros Hm w. destruct (Hm w) as (r & f & -> & Hf & _). exists f. split; auto.
Qed.

Lemma span_only_store_span (t : option task) (key : string) (sp : nat) :
  span_only n P (store_span t key sp).
Proof.
  apply span_only_same. intros w. destruct t as [t|].
  - rewrite store_span_run. reflexivity.
  - reflexivity.
Qed.
End SpanOnly.

Lemma span_only_tails (self : CeleryTracing) (kw : kwargs) (t : task) (n : nat)
    (k : string) :
  reserved_key k = false ->
  (∀ task_id, span_only n (sets_tag k None)
                (prepublish_tail self kw (Some t) n task_id))
  ∧ (∀ task_id, span_only n (sets_tag k None) (start_tail (Some t) n task_id)).
Proof.
  intros Hk. destruct (not_reserved k Hk) as (Hcomp & Hdest & Hcelery).
  pose proof (sets_tag_id k) as Hid.
  pose proof (keeps_compose k) as Hc.
  assert (Htag : ∀ key v, span_only n (sets_tag k None)
                            (set_tag (Some n) ("celery." +:+ key) v)).
  { intros key v. apply (span_only_tagging n _ no_exn), tagging_set_tag.
    apply sets_tag_other, (not_under "celery." k Hcelery). }
  assert (Hext : ∀ md, span_only n (sets_tag k None) (_set_span_tags (Some n) md)).
  { intros md. apply (span_only_tagging n _ (eq AttributeError)).
    destruct (py_get_raises_attribute_error md) as [HE Hsub].
    rewrite _set_span_tags_unfold.
    eapply tagging_seq with (P1 := sets_tag k None) (P2 := sets_tag k None); auto.
    - apply tagging_set_tag, sets_tag_other, Hcomp.
    - apply tag_steps_keep_key; assumption. }
  assert (Hsame : ∀ A (m : M A), (∀ w, w_spans (snd (m w)) = w_spans w) ->
                                 span_only n (sets_tag k None) m).
  { intros A m. apply span_only_same, Hid. }
  assert (Hpure : ∀ A (m : M A), (∀ w, w_spans (snd (m w)) = w_spans w) ->
                                 ∀ B (km : A -> M B),
                                   (∀ a, span_only n (sets_tag k None) (km a)) ->
                                   span_only n (sets_tag k None) (m ≫= km)).
  { intros A m Hm B km Hkm. apply span_only_bind; auto. }
  assert (Hthen : ∀ (m : M unit), span_only n (sets_tag k None) m ->
                                  ∀ B (km : unit -> M B),
                                    span_only n (sets_tag k None) (km tt) ->
                                    span_only n (sets_tag k None) (m ≫= km)).
  { intros m Hm B km Hkm. apply span_only_bind; auto. intros []. exact Hkm. }
  split; intros task_id.
  - unfold prepublish_tail. cbv zeta.
    apply Hthen; [apply (Htag "task.id")|].
    apply Hpure; [reflexivity|]. intros req.
    apply Hthen; [apply Hext|].
    apply Hpure; [intros w; destruct (isinstance_tuple _); reflexivity|].
    intros body.
    apply Hthen; [apply Hext|].
    apply Hthen; [|apply span_only_store_span; auto].
    destruct (negb _); [|apply Hsame; reflexivity].
    apply Hthen; [apply Hext|].
    destruct (_propagate self); [|apply Hsame; reflexivity].
    apply Hpure; [reflexivity|]. intros h.
    apply Hpure; [reflexivity|]. intros _.
    apply Hpure; [reflexivity|]. intros h'.
    apply Hsame. reflexivity.
  - unfold start_tail. cbv zeta.
    apply Hthen; [apply (Htag "task.id")|].
    apply Hpure; [reflexivity|]. intros req.
    apply Hthen; [apply Hext|].
    apply span_only_store_span; auto.
Qed.

(** X16. The static tags of the app are on every span that
    [_prepublish] and [_start_span] start and stay there: under a key
    that is not reserved (not the component tag, not the message
    destination, not under [celery.]) the span carries the static tag, or
    no tag if there is none, when the handler ends, whether it returns or
    raises after the span was started. *)
Theorem started_span_carries_static_tags (self : CeleryTracing) (sig : signal)
    (kw : kwargs) (w : world) (t : task) (k : string) :
  resolved_task self sig kw = Some t -> _is_local self (Some t) = true ->
  sig = before_task_publish
  ∨ (sig = task_prerun ∧ ∃ p, run_parent self (request t) = Ok p) ->
  reserved_key k = false ->
  span_tag (snd (handler self sig kw w)) (length (w_spans w)) k = _span_tags self !! k.
Proof.
  intros Ht Hlocal Hsig Hk.
  destruct (span_only_tails self kw t (length (w_spans w)) k Hk) as [Hpub Hrun].
  assert (Hstarted : ∀ A (tail : M A) s,
            tags s = _span_tags self ->
            span_only (length (w_spans w)) (sets_tag k None) tail ->
            span_tag (snd (tail (started s w))) (length (w_spans w)) k
            = _span_tags self !! k).
  { intros A tail s Hs Htail. destruct (Htail (started s w)) as (f & Hf & Hspans).
    unfold span_tag. rewrite Hspans. simpl. rewrite list_lookup_alter_eq.
    rewrite (list_lookup_middle (w_spans w) [] s _ eq_refl). simpl.
    rewrite Hf, Hs. reflexivity. }
  assert (Hraise : ∀ A (e : exn),
            span_only (length (w_spans w)) (sets_tag k None) (@raise A e)).
  { intros A e. apply span_only_same; [apply sets_tag_id | reflexivity]. }
  destruct Hsig as [-> | [-> [p Hp]]]; simpl in Ht; simpl.
  - rewrite (_prepublish_local self kw w t Ht Hlocal).
    destruct (publish_task_id kw) as [task_id|e].
    + destruct (is_none task_id).
      * apply (Hstarted unit (raise RuntimeError) (publish_span self t w) eq_refl).
        apply Hraise.
      * apply (Hstarted unit _ (publish_span self t w) eq_refl), Hpub.
    + apply (Hstarted unit (raise e) (publish_span self t w) eq_refl), Hraise.
  - rewrite (_start_span_local self kw w t Ht Hlocal), Hp.
    destruct (default (correlation_id (request t)) (kw_task_id kw)) as [task_id|].
    + apply (Hstarted unit _ (run_span self t p) eq_refl), Hrun.
    + apply (Hstarted unit (raise RuntimeError) (run_span self t p) eq_refl), Hraise.
Qed.

Lemma started_span_carries_static_tags_witness :
  span_tag (snd (handler Scenario.quiet_app task_prerun
                   (Sample.run Sample.add "abc") Sample.fresh))
    (length (w_spans Sample.fresh)) "deployment"
  = ({[ "deployment" := VStr "prod" ]} : gmap string pyval) !! "deployment".
Proof.
  apply (started_span_carries_static_tags Scenario.quiet_app task_prerun
           (Sample.run Sample.add "abc") Sample.fresh Sample.add "deployment");
    try reflexivity.
  right. split; [reflexivity|]. exists None. reflexivity.
Defined.

(** *** A start event followed by its end event *)

Lemma calm_tagging (n : nat) (m : M unit) :
  tagging n only_tags no_exn m -> calm n m.
Proof.
  intros Hm w. destruct (Hm w) as (r & f & Hrun & Hf & Hr).
  destruct r as [[]|e]; [|destruct Hr].
  exists (retag n f w), f. split; [exact Hrun|]. split; [exact Hf|]. repeat split.
Qed.

Lemma calm_same (n : nat) (g : world -> world) :
  (∀ w, w_spans (g w) = w_spans w ∧ w_scopes (g w) = w_scopes w
        ∧ w_warnings (g w) = w_warnings w ∧ w_tables (g w) = w_tables w) ->
  calm n (modify g).
Proof.
  intros Hg w. destruct (Hg w) as (Hs & Hsc & Hw & Ht).
  exists (g w), id. split; [reflexivity|]. split; [apply only_tags_id|].
  rewrite (list_alter_id id (w_spans w) n) by reflexivity. repeat split; assumption.
Qed.

Lemma calm_seq (n : nat) (m k : M unit) : calm n m -> calm n k -> calm n (m;; k).
Proof.
  intros Hm Hk w. destruct (Hm w) as (w1 & f & Hrun & Hf & Hs & Hsc & Hw & Ht).
  destruct (Hk w1) as (w2 & g & Hrun' & Hg & Hs' & Hsc' & Hw' & Ht').
  exists w2, (g ∘ f). rewrite (bind_ok _ _ _ _ _ Hrun).
  split; [exact Hrun'|]. split; [apply only_tags_compose; assumption|].
  rewrite Hs', Hs, list_alter_alter_eq. repeat split; congruence.
Qed.

Lemma calm_pure_bind {A} (n : nat) (m : M A) (a : A) (k : A -> M unit) :
  (∀ w, m w = (Ok a, w)) -> calm n (k a) -> calm n (m ≫= k).
Proof. intros Hm Hk w. rewrite (bind_ok _ _ _ _ _ (Hm w)). apply Hk. Qed.

Lemma settles_store_span (n : nat) (t : task) (key : string) :
  settles n t key (store_span (Some t) key n).
Proof.
  intros w. rewrite store_span_run. eexists _, id.
  split; [reflexivity|]. split; [apply only_tags_id|]. simpl.
  rewrite (list_alter_id id (w_spans w) n) by reflexivity. repeat split.
Qed.

Lemma settles_seq (n : nat) (t : task) (key : string) (m k : M unit) :
  calm n m -> settles n t key k -> settles n t key (m;; k).
Proof.
  intros Hm Hk w. destruct (Hm w) as (w1 & f & Hrun & Hf & Hs & Hsc & Hw & Ht).
  destruct (Hk w1) as (w2 & g & Hrun' & Hg & Hs' & Hsc' & Hw' & Ht').
  exists w2, (g ∘ f). rewrite (bind_ok _ _ _ _ _ Hrun).
  split; [exact Hrun'|]. split; [apply only_tags_compose; assumption|].
  rewrite Hs', Hs, list_alter_alter_eq. repeat split; congruence.
Qed.

Lemma settles_pure_bind {A} (n : nat) (t : task) (key : string) (m : M A) (a : A)
    (k : A -> M unit) :
  (∀ w, m w = (Ok a, w)) -> settles n t key (k a) -> settles n t key (m ≫= k).
Proof. intros Hm Hk w. rewrite (bind_ok _ _ _ _ _ (Hm w)). apply Hk. Qed.

Lemma calm_set_span_tags (n : nat) (md : pyval) :
  well_formed_metadata md = true -> calm n (_set_span_tags (Some n) md).
Proof. intros H. apply calm_tagging, _set_span_tags_ok, H. Qed.

Lemma prepublish_tail_settles (self : CeleryTracing) (kw : kwargs) (t : task)
    (n : nat) (task_id body : pyval) :
  well_formed_metadata (request_mapping (request t)) = true ->
  publish_body kw = Ok body -> well_formed_metadata body = true ->
  is_none (opt_val (kw_headers kw)) || well_formed_metadata (opt_val (kw_headers kw))
  = true ->
  settles n t ("publish:" +:+ py_str task_id)
    (prepublish_tail self kw (Some t) n task_id).
Proof.
  intros Hreq Hbody Hwfb Hheaders. unfold prepublish_tail. cbv zeta.
  apply settles_seq.
  { apply calm_tagging, tagging_set_tag, only_tags_with_tag. }
  apply (settles_pure_bind _ _ _ _ (request t)); [reflexivity|].
  apply settles_seq; [apply calm_set_span_tags, Hreq|].
  apply (settles_pure_bind _ _ _ _ body).
  { intros w. unfold publish_body in Hbody. cbv zeta in Hbody.
    destruct (isinstance_tuple (opt_val (kw_body kw))).
    - unfold lift. rewrite Hbody. reflexivity.
    - injection Hbody as <-. reflexivity. }
  apply settles_seq; [apply calm_set_span_tags, Hwfb|].
  apply settles_seq; [|apply settles_store_span].
  destruct (is_none (opt_val (kw_headers kw))) eqn:Hnone; cbn [negb].
  { apply calm_tagging, tagging_ret, only_tags_id. }
  simpl in Hheaders.
  apply calm_seq; [apply calm_set_span_tags, Hheaders|].
  destruct (_propagate self); [|apply calm_tagging, tagging_ret, only_tags_id].
  destruct (well_formed_metadata_dict _ Hheaders) as [d ->].
  eapply calm_pure_bind; [reflexivity|].
  apply calm_seq; [apply calm_same; intros w; repeat split|].
  eapply calm_pure_bind; [reflexivity|].
  apply calm_same. intros w. repeat split.
Qed.

Lemma start_tail_settles (t : task) (n : nat) (task_id : string) :
  well_formed_metadata (request_mapping (request t)) = true ->
  settles n t task_id (start_tail (Some t) n task_id).
Proof.
  intros Hwf. unfold start_tail. cbv zeta.
  apply settles_seq.
  { apply calm_tagging, tagging_set_tag, only_tags_with_tag. }
  apply (settles_pure_bind _ _ _ _ (request t)); [reflexivity|].
  apply settles_seq; [apply calm_set_span_tags, Hwf|].
  apply settles_store_span.
Qed.

(** A start event on well-formed input: the span is started, tagged and
    stored, and nothing else happens. *)
Lemma start_event_settles (self : CeleryTracing) (sig : signal) (kw : kwargs)
    (w : world) (t : task) (key : string) :
  resolved_task self sig kw = Some t -> _is_local self (Some t) = true ->
  start_key self sig kw = Some key ->
  well_formed_start self sig kw = true ->
  ∃ s tail, handler self sig kw w = tail (started s w)
            ∧ settles (length (w_spans w)) t key tail
            ∧ finished s = false.
Proof.
  intros Ht Hlocal Hkey Hwf.
  unfold well_formed_start in Hwf. rewrite Ht in Hwf.
  apply andb_true_iff in Hwf as [Hreq Hwf].
  destruct sig; try discriminate; simpl in Ht, Hkey.
  - simpl. rewrite (_prepublish_local self kw w t Ht Hlocal).
    destruct (publish_task_id kw) as [task_id|e]; [|discriminate].
    destruct (is_none task_id); [discriminate|]. injection Hkey as <-.
    apply andb_true_iff in Hwf as [Hbody Hheaders].
    destruct (publish_body kw) as [body|e] eqn:Hb; [|discriminate].
    eexists _, _. split; [reflexivity|]. split; [|reflexivity].
    eapply prepublish_tail_settles; eauto.
  - simpl. rewrite Ht in Hkey. simpl in Hkey.
    rewrite (_start_span_local self kw w t Ht Hlocal).
    destruct (run_parent self (request t)) as [p|e]; [|discriminate].
    rewrite Hkey. eexists _, _. split; [reflexivity|]. split; [|reflexivity].
    apply start_tail_settles, Hreq.
Qed.

(** X17. A start event ([before_task_publish], [task_prerun]) on
    well-formed input followed by an end event ([after_task_publish],
    [task_postrun]) that resolves the same local task and the same key:
    both handlers return; the span that was started is finished; the
    scope stack and the warnings are what they were before the start
    event (no leak warning); the key is gone from the side-table of the
    task and the other entries are kept; no span that existed before is
    touched. *)
Theorem start_then_end_finishes_span (self : CeleryTracing) (sig sig' : signal)
    (kw kw' : kwargs) (w : world) (t : task) (key : string) :
  resolved_task self sig kw = Some t -> _is_local self (Some t) = true ->
  start_key self sig kw = Some key ->
  well_formed_start self sig kw = true ->
  resolved_task self sig' kw' = Some t ->
  end_key sig' kw' = Some key ->
  let n := length (w_spans w) in
  ∃ w1 w2, handler self sig kw w = (Ok tt, w1)
           ∧ handler self sig' kw' w1 = (Ok tt, w2)
           ∧ length (w_spans w2) = S n
           ∧ finished <$> w_spans w2 !! n = Some true
           ∧ (∀ i, i < n -> w_spans w2 !! i = w_spans w !! i)
           ∧ w_scopes w2 = w_scopes w
           ∧ w_warnings w2 = w_warnings w
           ∧ side_table w2 (Some t)
             = Some (delete key (default ∅ (side_table w (Some t)))).
Proof.
  intros Ht Hlocal Hkey Hwf Ht' Hkey' n.
  destruct (start_event_settles self sig kw w t key Ht Hlocal Hkey Hwf)
    as (s & tail & Hrun & Htail & Hs).
  destruct (Htail (started s w)) as (w1 & f & Hrun1 & Hf & Hspans & Hscopes & Hwarn & Htables).
  simpl in Hspans, Hscopes, Hwarn, Htables. fold n in Hspans, Hscopes, Htables.
  exists w1. rewrite Hrun, Hrun1.
  assert (Hlookup : w_tables w1 !! task_ref t
                    = Some (<[key := n]> (default ∅ (w_tables w !! task_ref t)))).
  { rewrite Htables. apply lookup_insert_eq. }
  rewrite (end_event_run self sig' kw' w1 t _ key n Hkey' Ht' Hlocal Hlookup
             (lookup_insert_eq _ _ _)).
  erewrite close_or_finish_owner by (simpl; exact Hscopes).
  eexists. split; [reflexivity|]. split; [reflexivity|]. simpl.
  rewrite Hspans, !length_alter, length_app, !list_lookup_alter_eq.
  rewrite (list_lookup_middle (w_spans w) [] s n eq_refl).
  split; [simpl; unfold n; lia|]. split; [reflexivity|]. split.
  { intros i Hi. rewrite !list_lookup_alter_ne by lia.
    apply lookup_app_l. exact Hi. }
  rewrite Hscopes, Hwarn. split; [reflexivity|]. split; [reflexivity|].
  unfold side_table. simpl. rewrite lookup_insert_eq, delete_insert_eq. reflexivity.
Qed.

Lemma start_then_end_finishes_span_witness :
  ∃ w1 w2,
    handler Sample.app before_task_publish Scenario.publish_abc Sample.running
    = (Ok tt, w1)
    ∧ handler Sample.app after_task_publish Scenario.publish_abc w1 = (Ok tt, w2)
    ∧ length (w_spans w2) = 2
    ∧ finished <$> w_spans w2 !! 1 = Some true
    ∧ (∀ i, i < 1 -> w_spans w2 !! i = w_spans Sample.running !! i)
    ∧ w_scopes w2 = [0]
    ∧ w_warnings w2 = []
    ∧ side_table w2 (Some Sample.add)
      = Some (delete "publish:abc" {[ "abc" := 0 ]}).
Proof.
  apply (start_then_end_finishes_span Sample.app before_task_publish
           after_task_publish Scenario.publish_abc Scenario.publish_abc
           Sample.running Sample.add "publish:abc"); reflexivity.
Defined.

(** *** Live entries of the side-table *)





(** *** The context that travels in the headers *)

Lemma dict_get_set_eq (d : list (string * pyval)) (k : string) (v : pyval) :
  dict_get (dict_set d k v) k = Some v.
Proof.
  induction d as [|[k' v'] d IH]; simpl.
  - rewrite String.eqb_refl. reflexivity.
  - destruct (String.eqb k' k) eqn:E; simpl.
    + rewrite String.eqb_refl. reflexivity.
    + rewrite E. exact IH.
Qed.

Lemma dict_get_set_ne (d : list (string * pyval)) (k k' : string) (v : pyval) :
  k' ≠ k -> dict_get (dict_set d k v) k' = dict_get d k'.
Proof.
  intros Hne. induction d as [|[k0 v0] d IH]; simpl.
  - rewrite (proj2 (String.eqb_neq k k')) by congruence. reflexivity.
  - destruct (String.eqb k0 k) eqn:E; simpl.
    + apply String.eqb_eq in E. subst k0.
      rewrite (proj2 (String.eqb_neq k k')) by congruence. reflexivity.
    + destruct (String.eqb k0 k'); [reflexivity | exact IH].
Qed.

Lemma dict_set_set (d : list (string * pyval)) (k : string) (v v' : pyval) :
  dict_set (dict_set d k v) k v' = dict_set d k v'.
Proof.
  induction d as [|[k0 v0] d IH]; simpl.
  - rewrite String.eqb_refl. reflexivity.
  - destruct (String.eqb k0 k) eqn:E; simpl.
    + rewrite String.eqb_refl. reflexivity.
    + rewrite E, IH. reflexivity.
Qed.

Lemma headers_after_tagging (n : nat) (P : (span -> span) -> Prop) (m : M unit) :
  tagging n P no_exn m -> headers_after id m.
Proof.
  intros Hm w. destruct (Hm w) as (r & f & Hrun & _ & Hr).
  destruct r as [[]|e]; [|destruct Hr]. exists (retag n f w). split; [exact Hrun|].
  reflexivity.
Qed.

Lemma headers_after_seq (g1 g2 : option pyval -> option pyval) (m k : M unit) :
  headers_after g1 m -> headers_after g2 k -> headers_after (g2 ∘ g1) (m;; k).
Proof.
  intros Hm Hk w. destruct (Hm w) as (w1 & Hrun & Hh).
  destruct (Hk w1) as (w2 & Hrun' & Hh').
  exists w2. rewrite (bind_ok _ _ _ _ _ Hrun). split; [exact Hrun'|].
  simpl. congruence.
Qed.

Lemma headers_after_pure_bind {A} (g : option pyval -> option pyval) (m : M A)
    (a : A) (k : A -> M unit) :
  (∀ w, m w = (Ok a, w)) -> headers_after g (k a) -> headers_after g (m ≫= k).
Proof. intros Hm Hk w. rewrite (bind_ok _ _ _ _ _ (Hm w)). apply Hk. Qed.

Lemma headers_after_set_span_tags (n : nat) (md : pyval) :
  well_formed_metadata md = true -> headers_after id (_set_span_tags (Some n) md).
Proof. intros H. eapply headers_after_tagging, _set_span_tags_ok, H. Qed.

Lemma prepublish_tail_headers (self : CeleryTracing) (kw : kwargs) (t : task)
    (n : nat) (task_id body : pyval) (d : list (string * pyval)) :
  well_formed_metadata (request_mapping (request t)) = true ->
  publish_body kw = Ok body -> well_formed_metadata body = true ->
  kw_headers kw = Some (VDict d) -> well_formed_metadata (VDict d) = true ->
  headers_after
    (fun h => if _propagate self then Some (VDict (injected_headers self d n)) else h)
    (prepublish_tail self kw (Some t) n task_id).
Proof.
  intros Hreq Hbody Hwfb Hh Hwfh. unfold prepublish_tail. cbv zeta.
  set (g := fun h : option pyval =>
              if _propagate self then Some (VDict (injected_headers self d n)) else h).
  change g with (g ∘ id).
  apply headers_after_seq.
  { eapply headers_after_tagging, (tagging_set_tag n no_exn (fun _ => True)). exact I. }
  apply (headers_after_pure_bind _ _ (request t)); [reflexivity|].
  change g with (g ∘ id).
  apply headers_after_seq; [apply headers_after_set_span_tags, Hreq|].
  apply (headers_after_pure_bind _ _ body).
  { intros w. unfold publish_body in Hbody. cbv zeta in Hbody.
    destruct (isinstance_tuple (opt_val (kw_body kw))).
    - unfold lift. rewrite Hbody. reflexivity.
    - injection Hbody as <-. reflexivity. }
  change g with (g ∘ id).
  apply headers_after_seq; [apply headers_after_set_span_tags, Hwfb|].
  change g with (id ∘ g).
  apply headers_after_seq.
  2:{ intros w. rewrite store_span_run. eexists. split; reflexivity. }
  rewrite Hh. cbn [opt_val default from_option id is_none negb].
  change g with (g ∘ id).
  apply headers_after_seq; [apply headers_after_set_span_tags, Hwfh|].
  unfold g. destruct (_propagate self).
  - intros w. eexists. split; [reflexivity|]. simpl.
    unfold injected_headers. rewrite dict_set_set. reflexivity.
  - intros w. eexists. split; reflexivity.
Qed.

(** The headers after a [_prepublish] that runs through. *)
Lemma prepublish_headers (self : CeleryTracing) (kw : kwargs) (w : world)
    (t : task) (key : string) (d : list (string * pyval)) :
  tasks_get self (kw_sender kw) = Some t -> _is_local self (Some t) = true ->
  start_key self before_task_publish kw = Some key ->
  well_formed_start self before_task_publish kw = true ->
  kw_headers kw = Some (VDict d) ->
  w_headers (snd (_prepublish self kw w))
  = if _propagate self
    then Some (VDict (injected_headers self d (length (w_spans w))))
    else w_headers w.
Proof.
  intros Ht Hlocal Hkey Hwf Hh.
  unfold well_formed_start in Hwf. simpl in Hwf. rewrite Ht in Hwf.
  apply andb_true_iff in Hwf as [Hreq Hwf].
  apply andb_true_iff in Hwf as [Hbody Hheaders].
  rewrite Hh in Hheaders. simpl in Hheaders.
  destruct (publish_body kw) as [body|e] eqn:Hb; [|discriminate].
  rewrite (_prepublish_local self kw w t Ht Hlocal).
  simpl in Hkey. destruct (publish_task_id kw) as [task_id|e]; [|discriminate].
  destruct (is_none task_id); [discriminate|].
  destruct (prepublish_tail_headers self kw t (length (w_spans w)) task_id body d
              Hreq Hb Hbody Hh Hheaders (started (publish_span self t w) w))
    as (w' & Hrun & Hafter).
  rewrite Hrun. cbn [snd]. rewrite Hafter. reflexivity.
Qed.

(** X18. A [_prepublish] that runs through for a local task, with a dict
    as headers, leaves the headers with the context of the new span,
    injected into a fresh carrier, under the reserved key
    [_celery_opentracing_context]; every other entry of the headers, the
    id among them, is what it was. Without propagation the headers are not
    touched. *)
Theorem prepublish_injects_context (self : CeleryTracing) (kw : kwargs) (w : world)
    (t : task) (key : string) (d : list (string * pyval)) :
  tasks_get self (kw_sender kw) = Some t -> _is_local self (Some t) = true ->
  start_key self before_task_publish kw = Some key ->
  well_formed_start self before_task_publish kw = true ->
  kw_headers kw = Some (VDict d) ->
  let n := length (w_spans w) in
  w_headers (snd (_prepublish self kw w))
  = (if _propagate self then Some (VDict (injected_headers self d n))
     else w_headers w)
  ∧ dict_get (injected_headers self d n) context_headers
    = Some (VDict (inject (_tracer self) (ContextOf n) []))
  ∧ ∀ k, k ≠ context_headers -> dict_get (injected_headers self d n) k = dict_get d k.
Proof.
  intros Ht Hlocal Hkey Hwf Hh n. split; [|split].
  - apply (prepublish_headers self kw w t key d); assumption.
  - apply dict_get_set_eq.
  - intros k Hk. apply dict_get_set_ne, Hk.
Qed.

Lemma prepublish_injects_context_witness :
  w_headers (snd (_prepublish Sample.app Scenario.publish_abc Sample.running))
  = Some (VDict (injected_headers Sample.app [("id", VStr "abc")] 1))
  ∧ dict_get (injected_headers Sample.app [("id", VStr "abc")] 1) context_headers
    = Some (VDict [("span-id", VInt 1)])
  ∧ ∀ k, k ≠ context_headers ->
         dict_get (injected_headers Sample.app [("id", VStr "abc")] 1) k
         = dict_get [("id", VStr "abc")] k.
Proof.
  apply (prepublish_injects_context Sample.app Scenario.publish_abc Sample.running
           Sample.add "publish:abc" [("id", VStr "abc")]); reflexivity.
Defined.

(** X19. The link between the publish span and the run span: when a
    [_prepublish] that runs through with propagation has left its context
    in the headers, and the request of the task on the worker carries that
    entry of the headers as its attribute, then, for a tracer that reads
    back what it injected (a carrier that is not empty), the span that
    [_start_span] starts on the worker has the context of the publish span
    as its parent. *)
Theorem published_context_parents_the_run (self : CeleryTracing) (kw : kwargs)
    (w : world) (t : task) (key : string) (d : list (string * pyval))
    (worker : CeleryTracing) (kw' : kwargs) (w' : world) (t' : task) :
  tasks_get self (kw_sender kw) = Some t -> _is_local self (Some t) = true ->
  start_key self before_task_publish kw = Some key ->
  well_formed_start self before_task_publish kw = true ->
  kw_headers kw = Some (VDict d) ->
  _propagate self = true ->
  let n := length (w_spans w) in
  round_trips (_tracer self) n ->
  inject (_tracer self) (ContextOf n) [] ≠ [] ->
  default (as_task (kw_sender kw')) (kw_task kw') = Some t' ->
  _is_local worker (Some t') = true ->
  _propagate worker = true -> _tracer worker = _tracer self ->
  (∀ hdrs, w_headers (snd (_prepublish self kw w)) = Some (VDict hdrs) ->
           dict_get (request_attrs (request t')) context_headers
           = dict_get hdrs context_headers) ->
  ∃ r w2, _start_span worker kw' w' = (r, w2)
          ∧ parent <$> w_spans w2 !! length (w_spans w') = Some (Some (ContextOf n)).
Proof.
  intros Ht Hlocal Hkey Hwf Hh Hprop n Hround Hcarrier Ht' Hlocal' Hprop' Htracer Hattr.
  pose proof (prepublish_headers self kw w t key d Ht Hlocal Hkey Hwf Hh) as Hheaders.
  rewrite Hprop in Hheaders. specialize (Hattr _ Hheaders).
  unfold injected_headers in Hattr. rewrite dict_get_set_eq in Hattr. fold n in Hattr.
  assert (Hparent : run_parent worker (request t') = Ok (Some (ContextOf n))).
  { unfold run_parent. rewrite Hprop'.
    rewrite (request_context_direct _ _ Hattr).
    - simpl. destruct (inject (_tracer self) (ContextOf n) []) eqn:E; [congruence|].
      rewrite Htracer, <- E, Hround. reflexivity.
    - simpl. destruct (inject (_tracer self) (ContextOf n) []); [congruence|reflexivity]. }
  destruct (_start_span_starts worker kw' w' t' _ Ht' Hlocal' Hparent)
    as (r & w2 & Hrun & _ & Hp & _).
  exists r, w2. split; assumption.
Qed.

Lemma published_context_parents_the_run_witness :
  ∃ r w2, _start_span Scenario.linked_app (Sample.run Scenario.delivered "abc")
            Sample.fresh = (r, w2)
          ∧ parent <$> w_spans w2 !! 0 = Some (Some (ContextOf 1)).
Proof.
  apply (published_context_parents_the_run Scenario.linked_app Scenario.publish_abc
           Sample.running Sample.add "publish:abc" [("id", VStr "abc")]
           Scenario.linked_app (Sample.run Scenario.delivered "abc") Sample.fresh
           Scenario.delivered); try reflexivity.
  - discriminate.
  - intros hdrs [= <-]. reflexivity.
Defined.

(** *** The publish span and the active span *)

Lemma prepublish_tail_only_tags (self : CeleryTracing) (kw : kwargs) (t : task)
    (n : nat) (task_id : pyval) :
  span_only n only_tags (prepublish_tail self kw (Some t) n task_id).
Proof.
  pose proof only_tags_id as Hid. pose proof only_tags_compose as Hc.
  assert (Hext : ∀ md, span_only n only_tags (_set_span_tags (Some n) md)).
  { intros md. apply (span_only_tagging n _ (eq AttributeError)),
      _set_span_tags_tagging. }
  assert (Hsame : ∀ A (m : M A), (∀ w, w_spans (snd (m w)) = w_spans w) ->
                                 span_only n only_tags m).
  { intros A m. apply span_only_same, Hid. }
  assert (Hpure : ∀ A (m : M A), (∀ w, w_spans (snd (m w)) = w_spans w) ->
                                 ∀ B (km : A -> M B),
                                   (∀ a, span_only n only_tags (km a)) ->
                                   span_only n only_tags (m ≫= km)).
  { intros A m Hm B km Hkm. apply span_only_bind; auto. }
  assert (Hthen : ∀ (m : M unit), span_only n only_tags m ->
                                  ∀ B (km : unit -> M B),
                                    span_only n only_tags (km tt) ->
                                    span_only n only_tags (m ≫= km)).
  { intros m Hm B km Hkm. apply span_only_bind; auto. intros []. exact Hkm. }
  unfold prepublish_tail. cbv zeta.
  apply Hthen.
  { apply (span_only_tagging n _ no_exn), tagging_set_tag, only_tags_with_tag. }
  apply Hpure; [reflexivity|]. intros req.
  apply Hthen; [apply Hext|].
  apply Hpure; [intros w; destruct (isinstance_tuple _); reflexivity|].
  intros body.
  apply Hthen; [apply Hext|].
  apply Hthen; [|apply span_only_store_span; auto].
  destruct (negb _); [|apply Hsame; reflexivity].
  apply Hthen; [apply Hext|].
  destruct (_propagate self); [|apply Hsame; reflexivity].
  apply Hpure; [reflexivity|]. intros h.
  apply Hpure; [reflexivity|]. intros _.
  apply Hpure; [reflexivity|]. intros h'.
  apply Hsame. reflexivity.
Qed.

(** X20. Unlike [_start_span], [_prepublish] lets the tracer pick the
    parent: on a local task the span it starts is named [publish <task
    name>], is a child of the span of the active scope (and has no parent
    when no scope is active), becomes the active scope and is not finished
    by the handler, whether the handler returns or raises afterwards. *)
Theorem publish_span_is_child_of_active_span (self : CeleryTracing) (kw : kwargs)
    (w : world) (t : task) :
  tasks_get self (kw_sender kw) = Some t -> _is_local self (Some t) = true ->
  let n := length (w_spans w) in
  let w' := snd (_prepublish self kw w) in
  parent <$> w_spans w' !! n = Some (ContextOf <$> head (w_scopes w))
  ∧ operation_name <$> w_spans w' !! n = Some ("publish " +:+ name t)
  ∧ finished <$> w_spans w' !! n = Some false
  ∧ length (w_spans w') = S n
  ∧ ∀ i, i < n -> w_spans w' !! i = w_spans w !! i.
Proof.
  intros Ht Hlocal n w'.
  assert (H : ∃ f, only_tags f
                   ∧ w_spans w' = alter f n (w_spans w ++ [publish_span self t w])).
  { unfold w'. rewrite (_prepublish_local self kw w t Ht Hlocal).
    assert (Hstop : ∃ f, only_tags f
                         ∧ w_spans (started (publish_span self t w) w)
                           = alter f n (w_spans w ++ [publish_span self t w])).
    { exists id. split; [apply only_tags_id|]. simpl.
      symmetry. apply list_alter_id. reflexivity. }
    destruct (publish_task_id kw) as [task_id|e]; [|exact Hstop].
    destruct (is_none task_id); [exact Hstop|].
    destruct (prepublish_tail_only_tags self kw t n task_id
                (started (publish_span self t w) w)) as (f & Hf & Hspans).
    exists f. split; [exact Hf | exact Hspans]. }
  destruct H as (f & Hf & ->).
  rewrite length_alter, length_app, list_lookup_alter_eq.
  rewrite (list_lookup_middle (w_spans w) [] (publish_span self t w) n eq_refl).
  simpl. destruct (Hf (publish_span self t w)) as (-> & -> & _ & ->).
  repeat split; [unfold n; lia|].
  intros i Hi. rewrite list_lookup_alter_ne by lia. apply lookup_app_l. exact Hi.
Qed.

Lemma publish_span_is_child_of_active_span_witness :
  let w' := snd (_prepublish Sample.app Scenario.publish_abc Sample.running) in
  parent <$> w_spans w' !! 1 = Some (Some (ContextOf 0))
  ∧ operation_name <$> w_spans w' !! 1 = Some "publish add"
  ∧ finished <$> w_spans w' !! 1 = Some false
  ∧ length (w_spans w') = 2
  ∧ ∀ i, i < 1 -> w_spans w' !! i = w_spans Sample.running !! i.
Proof.
  apply (publish_span_is_child_of_active_span Sample.app Scenario.publish_abc
           Sample.running Sample.add); reflexivity.
Defined.

(** *** End events out of order *)

(** X21. When an end event ([after_task_publish], [task_postrun]) for a
    local task finds its span in the side-table while the active scope
    holds another span, the handler returns: the entry is removed, the
    span is finished directly, one SCOPE LEAK warning naming the active
    span and the span is logged, and the scope stack is left alone, so the
    other span stays active and unfinished. *)
Theorem overlapping_end_event_warns_and_keeps_scopes (self : CeleryTracing)
    (sig : signal) (kw : kwargs) (w : world) (t : task) (spans : gmap string nat)
    (key : string) (sp a : nat) (rest : list nat) (s : span) :
  end_key sig kw = Some key ->
  resolved_task self sig kw = Some t -> _is_local self (Some t) = true ->
  w_tables w !! task_ref t = Some spans -> spans !! key = Some sp ->
  w_scopes w = a :: rest -> a ≠ sp ->
  w_spans w !! sp = Some s ->
  ∃ w', handler self sig kw w = (Ok tt, w')
        ∧ w_spans w' !! sp = Some (with_finish s)
        ∧ (∀ i, i ≠ sp -> w_spans w' !! i = w_spans w !! i)
        ∧ w_warnings w' = w_warnings w ++ [(a, Some sp)]
        ∧ w_scopes w' = a :: rest
        ∧ side_table w' (Some t) = Some (delete key spans).
Proof.
  intros Hkey Ht Hlocal Htable Hsp Hscopes Hne Hs.
  rewrite (end_event_run self sig kw w t spans key sp Hkey Ht Hlocal Htable Hsp).
  erewrite close_or_finish_leak by (simpl; eauto).
  eexists. split; [reflexivity|]. simpl.
  rewrite list_lookup_alter_eq, Hs. split; [reflexivity|]. split.
  { intros i Hi. apply list_lookup_alter_ne. congruence. }
  split; [reflexivity|]. split; [exact Hscopes|].
  unfold side_table. simpl. apply lookup_insert_eq.
Qed.

Lemma overlapping_end_event_warns_and_keeps_scopes_witness :
  ∃ w', handler Sample.app task_postrun (Sample.run Sample.add "abc")
          Scenario.overlapping = (Ok tt, w')
        ∧ w_spans w' !! 0 = Some (with_finish Scenario.running_span)
        ∧ (∀ i, i ≠ 0 -> w_spans w' !! i = w_spans Scenario.overlapping !! i)
        ∧ w_warnings w' = w_warnings Scenario.overlapping ++ [(1, Some 0)]
        ∧ w_scopes w' = [1; 0]
        ∧ side_table w' (Some Sample.add) = Some (delete "abc" {[ "abc" := 0 ]}).
Proof.
  apply (overlapping_end_event_warns_and_keeps_scopes Sample.app task_postrun
           (Sample.run Sample.add "abc") Scenario.overlapping Sample.add
           {[ "abc" := 0 ]} "abc" 0 1 [0] Scenario.running_span);
    try reflexivity. discriminate.
Defined.

(** *** Registration *)

(** X22. [connect_traced_handlers] connects a receiver to the two
    publish signals exactly when propagation is enabled and to the four
    run signals always, each signal to the one handler written for it;
    [disconnect_traced_handlers] disconnects the same receivers in the
    same order, so nothing that was connected stays connected. *)
Theorem receivers_follow_propagation (self : CeleryTracing) (sig : signal) :
  ((∃ h, (sig, h) ∈ connect_traced_handlers self)
   <-> (_propagate self = true
        ∨ (sig ≠ before_task_publish ∧ sig ≠ after_task_publish)))
  ∧ (∀ h, (sig, h) ∈ connect_traced_handlers self -> h = handler self sig)
  ∧ disconnect_traced_handlers self = connect_traced_handlers self.
Proof.
  split; [|split; [intros h; apply connected_receiver_is_handler | reflexivity]].
  unfold connect_traced_handlers. split.
  - intros [h H]. apply elem_of_app in H as [H|H].
    + destruct (_propagate self); [left; reflexivity | inversion H].
    + right.
      repeat (apply elem_of_cons in H as [[= -> _]|H]; [split; discriminate|]).
      inversion H.
  - intros [Hprop | [Hpre Hpost]].
    + rewrite Hprop. exists (handler self sig).
      destruct sig; simpl; set_solver.
    + exists (handler self sig). apply elem_of_app. right.
      destruct sig; simpl; try congruence; set_solver.
Qed.
